(* ===================================================================== *)
(* Illustration Variant Generator: resilience and job-status layer.      *)
(*                                                                       *)
(* A shallow embedding of                                                *)
(*   services/ai/nano_banana.py  (_CircuitBreaker, _call_with_timeout,   *)
(*                                _compute_backoff, _is_retryable_error, *)
(*                                NanoBananaEditor._generate_with_retries)*)
(*   services/image_pipeline.py  (ImagePipeline.process)                 *)
(*   tasks.py                    (generate_variation_task)               *)
(*   routes/api.py               (_map_task_status, _build_job_payload,  *)
(*                                job_status, job_stream)                *)
(*                                                                       *)
(* Conventions.                                                          *)
(*  - Python floats that hold seconds (clock readings, cooldowns,        *)
(*    time-outs, delays) are rationals Q: the arithmetic is exact, the   *)
(*    comparisons are those of the source.                               *)
(*  - Python ints are Z.                                                 *)
(*  - time.monotonic() is an explicit clock reading passed to the        *)
(*    method that reads it.                                              *)
(*  - random.uniform is an explicit draw passed to the function that     *)
(*    consumes it.                                                       *)
(*  - dicts with string keys are gmap string _.                          *)
(* ===================================================================== *)

From Stdlib Require Import ZArith QArith Qminmax Lqa Lia String Ascii List Bool.
From stdpp Require Import gmap strings.
Import ListNotations.

Set Warnings "-register-all".

(* ===================================================================== *)
(* nano_banana.py: class _CircuitBreaker                                 *)
(* ===================================================================== *)

Module CircuitBreaker.

Record _CircuitBreaker := {
  _threshold : Z;
  _cooldown : Q;
  _failures : Z;
  _opened_at : Q
}.

(* def __init__(self, threshold, cooldown_seconds) *)
Definition __init__ (threshold : Z) (cooldown_seconds : Q) : _CircuitBreaker :=
  {| _threshold := Z.max 0 threshold;
     _cooldown := Qmax 0 cooldown_seconds;
     _failures := 0;
     _opened_at := 0 |}.

(* def allow(self) -> bool; [monotonic] is the value time.monotonic()
   returns when the third test is reached.  The method mutates self: the
   state after the call is the second component. *)
Definition allow (self : _CircuitBreaker) (monotonic : Q)
  : bool * _CircuitBreaker :=
  if (_threshold self =? 0)%Z || Qeq_bool (_cooldown self) 0 then (true, self)
  else if Qeq_bool (_opened_at self) 0 then (true, self)
  else if Qle_bool (_cooldown self) (monotonic - _opened_at self) then
    (true, {| _threshold := _threshold self; _cooldown := _cooldown self;
              _failures := 0; _opened_at := 0 |})
  else (false, self).

(* def record_success(self) *)
Definition record_success (self : _CircuitBreaker) : _CircuitBreaker :=
  {| _threshold := _threshold self; _cooldown := _cooldown self;
     _failures := 0; _opened_at := 0 |}.

(* def record_failure(self); [monotonic] is the clock reading stored in
   _opened_at when the breaker trips. *)
Definition record_failure (self : _CircuitBreaker) (monotonic : Q)
  : _CircuitBreaker :=
  if (_threshold self =? 0)%Z then self
  else
    let failures := (_failures self + 1)%Z in
    if (_threshold self <=? failures)%Z && negb (Qeq_bool (_cooldown self) 0)
    then {| _threshold := _threshold self; _cooldown := _cooldown self;
            _failures := failures; _opened_at := monotonic |}
    else {| _threshold := _threshold self; _cooldown := _cooldown self;
            _failures := failures; _opened_at := _opened_at self |}.

(* Consecutive failures, one per clock reading, oldest first. *)
Definition record_failures (self : _CircuitBreaker) (clock : list Q)
  : _CircuitBreaker :=
  fold_left record_failure clock self.

(* The breaker rejects calls at time [t]. *)
Definition is_open (self : _CircuitBreaker) (t : Q) : Prop :=
  allow self t = (false, self).

(* The breaker lets calls through at any time and allow() leaves it as it
   is: neither tripped nor waiting for a cooldown. *)
Definition is_closed (self : _CircuitBreaker) : Prop :=
  forall t : Q, allow self t = (true, self).

End CircuitBreaker.

(* ===================================================================== *)
(* Python values used by the embedded code                               *)
(* ===================================================================== *)

Module Py.

(* str.lower() and str.upper() on the ASCII letters; other characters are
   left as they are. *)
Definition lower_ascii (c : ascii) : ascii :=
  let n := nat_of_ascii c in
  if (65 <=? n)%nat && (n <=? 90)%nat then ascii_of_nat (n + 32) else c.

Definition upper_ascii (c : ascii) : ascii :=
  let n := nat_of_ascii c in
  if (97 <=? n)%nat && (n <=? 122)%nat then ascii_of_nat (n - 32) else c.

Fixpoint lower (s : string) : string :=
  match s with
  | EmptyString => EmptyString
  | String c rest => String (lower_ascii c) (lower rest)
  end.

Fixpoint upper (s : string) : string :=
  match s with
  | EmptyString => EmptyString
  | String c rest => String (upper_ascii c) (upper rest)
  end.

(* token in message *)
Fixpoint contains (token message : string) : bool :=
  String.prefix token message ||
  match message with
  | EmptyString => false
  | String _ rest => contains token rest
  end.

(* bool(s) for a str *)
Definition nonempty (s : string) : bool :=
  match s with EmptyString => false | _ => true end.

(* The exception classes the embedded code raises, catches or tests. *)
Inductive exc_class :=
| TimeoutError              (* builtin *)
| FutureTimeout             (* concurrent.futures.TimeoutError *)
| NanoBananaError           (* RuntimeError *)
| NanoBananaRetryableError  (* NanoBananaError *)
| AIProcessingError         (* RuntimeError *)
| OtherException.           (* any other Exception, e.g. an SDK error *)

(* An exception instance: its class, the attributes [code] and
   [status_code] that _is_retryable_error reads (None when the attribute
   is missing), and str(exc). *)
Record exception := {
  exc_class_of : exc_class;
  exc_code : option Z;
  exc_status_code : option Z;
  exc_message : string
}.

Definition raise_ (cls : exc_class) (message : string) : exception :=
  {| exc_class_of := cls; exc_code := None; exc_status_code := None;
     exc_message := message |}.

(* isinstance(exc, NanoBananaError) *)
Definition is_NanoBananaError (exc : exception) : bool :=
  match exc_class_of exc with
  | NanoBananaError | NanoBananaRetryableError => true
  | _ => false
  end.

(* isinstance(exc, TimeoutError), the builtin class *)
Definition is_TimeoutError (exc : exception) : bool :=
  match exc_class_of exc with
  | TimeoutError => true
  | _ => false
  end.

(* The result of a call that returns or raises. *)
Inductive outcome (A : Type) :=
| Ok (a : A)
| Err (exc : exception).
Arguments Ok {A} a.
Arguments Err {A} exc.

(* JSON values: what a task returns and what a status payload holds. *)
Inductive json :=
| JNull
| JBool (b : bool)
| JInt (z : Z)
| JStr (s : string)
| JList (l : list json)
| JDict (d : gmap string json).

(* bool(v) *)
Definition truthy (v : json) : bool :=
  match v with
  | JNull => false
  | JBool b => b
  | JInt z => negb (z =? 0)%Z
  | JStr s => nonempty s
  | JList l => match l with [] => false | _ => true end
  | JDict d => negb (bool_decide (d = ∅))
  end.

(* d.get(key): None when the key is missing *)
Definition get (d : gmap string json) (key : string) : json :=
  default JNull (d !! key).

(* v == "literal" for a JSON value v *)
Definition eq_str (v : json) (s : string) : bool :=
  match v with
  | JStr s' => String.eqb s' s
  | _ => false
  end.

(* s or None *)
Definition str_or_None (s : string) : json :=
  if nonempty s then JStr s else JNull.

Definition opt_str (o : option string) : json :=
  match o with Some s => JStr s | None => JNull end.

End Py.

(* ===================================================================== *)
(* nano_banana.py: time-out, backoff, error classification, retry loop   *)
(* ===================================================================== *)

Module NanoBanana.

Import Py CircuitBreaker.

(* What the provider sends back: for every part of every candidate, in
   iteration order, the value of _inline_image_to_png(part.inline_data)
   (None, or the PNG bytes). *)
Definition response := list (option string).

(* How one invocation of call_fn behaves: it returns or raises after
   [seconds] seconds, or it never comes back. *)
Inductive behaviour :=
| Returns (seconds : Q) (r : response)
| Raises (seconds : Q) (exc : exception)
| Hangs.

(* call_fn() called directly: the seconds it takes and its outcome, or
   None when it never comes back. *)
Definition direct_call (call_fn : behaviour) : option (Q * outcome response) :=
  match call_fn with
  | Returns seconds r => Some (seconds, Ok r)
  | Raises seconds exc => Some (seconds, Err exc)
  | Hangs => None
  end.

(* future.result(timeout=timeout_seconds) on the future of the submitted
   call: the seconds the caller waits and what it gets.  The wait ends
   when the call ends or after timeout_seconds, whichever comes first;
   in the second case concurrent.futures.TimeoutError is raised. *)
Definition future_result (call_fn : behaviour) (timeout_seconds : Q)
  : Q * outcome response :=
  match call_fn with
  | Returns seconds r =>
      if Qle_bool seconds timeout_seconds then (seconds, Ok r)
      else (timeout_seconds, Err (raise_ FutureTimeout ""))
  | Raises seconds exc =>
      if Qle_bool seconds timeout_seconds then (seconds, Err exc)
      else (timeout_seconds, Err (raise_ FutureTimeout ""))
  | Hangs => (timeout_seconds, Err (raise_ FutureTimeout ""))
  end.

(* Leaving the block `with ThreadPoolExecutor(max_workers=1) as executor`:
   Executor.__exit__ calls self.shutdown(wait=True), which joins the
   worker thread, so the block is left when the submitted call has ended.
   [waited] is the time already spent in the block; the result is the
   time at which the block is left, None when the worker never ends. *)
Definition executor_exit (call_fn : behaviour) (waited : Q) : option Q :=
  match call_fn with
  | Returns seconds _ => Some (Qmax waited seconds)
  | Raises seconds _ => Some (Qmax waited seconds)
  | Hangs => None
  end.

(* def _call_with_timeout(call_fn, timeout_seconds): the seconds the call
   takes and its outcome, None when it does not return. *)
Definition _call_with_timeout (call_fn : behaviour) (timeout_seconds : Q)
  : option (Q * outcome response) :=
  if Qle_bool timeout_seconds 0 then direct_call call_fn
  else
    let '(waited, got) := future_result call_fn timeout_seconds in
    let got :=
      match got with
      | Err exc =>
          match exc_class_of exc with
          | FutureTimeout => Err (raise_ TimeoutError "Gemini request timed out.")
          | _ => Err exc
          end
      | Ok r => Ok r
      end in
    match executor_exit call_fn waited with
    | Some seconds => Some (seconds, got)
    | None => None
    end.

(* def _compute_backoff(base, cap, attempt); [uniform] is the value of
   random.uniform(0.75, 1.25), drawn only when base > 0. *)
Definition _compute_backoff (base cap : Q) (attempt : Z) (uniform : Q) : Q :=
  if Qle_bool base 0 then 0%Q
  else
    let delay := (base * inject_Z (2 ^ attempt))%Q in
    let delay := if negb (Qle_bool cap 0) then Qmin delay cap else delay in
    (delay * uniform)%Q.

Definition retry_codes : list Z := [429; 500; 502; 503; 504]%Z.

Definition retry_tokens : list string :=
  ["429"; "503"; "502"; "504"; "resource_exhausted"; "rate limit"; "quota";
   "unavailable"; "overloaded"; "timeout"; "deadline"]%string.

(* def _is_retryable_error(exc) *)
Definition _is_retryable_error (exc : exception) : bool :=
  if is_TimeoutError exc then true
  else
    let code :=
      match exc_code exc with
      | Some c => if (c =? 0)%Z then exc_status_code exc else Some c
      | None => exc_status_code exc
      end in
    if match code with
       | Some code_val => existsb (Z.eqb code_val) retry_codes
       | None => false
       end
    then true
    else
      let message := lower (exc_message exc) in
      existsb (fun token => contains token message) retry_tokens.

(* The attributes of NanoBananaEditor the retry loop and edit_image read.
   [available], [_client] and [_model] record whether the attribute is
   truthy; [genai] tells whether self._backend == "genai". *)
Record NanoBananaEditor := {
  available : bool;
  genai : bool;
  _client : bool;
  _model : bool;
  _timeout_seconds : Q;
  _max_retries : Z;
  _backoff_base : Q;
  _backoff_max : Q
}.

(* The provider and the random source, as the editor meets them:
   [call_fn n] is the behaviour of the n-th invocation of the provider
   call (n counts from 0 over the life of the process), [uniform n] the
   jitter drawn for the n-th sleep. *)
Record provider := {
  call_fn : nat -> behaviour;
  uniform : nat -> Q
}.

(* The mutable state the editor works on: its breaker (self._breaker),
   the monotonic clock, the number of provider invocations made so far and
   the arguments of time.sleep, oldest first. *)
Record world := {
  breaker : _CircuitBreaker;
  clock : Q;
  attempts : nat;
  slept : list Q
}.

(* The result of running effectful code from a world. *)
Inductive run (A : Type) :=
| Finished (a : A) (w : world)   (* it returned or raised, leaving w *)
| Blocked                        (* a provider call never came back *)
| OutOfFuel.                     (* the loop was cut short by the fuel *)
Arguments Finished {A} a w.
Arguments Blocked {A}.
Arguments OutOfFuel {A}.

Definition set_breaker (b : _CircuitBreaker) (w : world) : world :=
  {| breaker := b; clock := clock w; attempts := attempts w; slept := slept w |}.

(* One provider invocation that took [seconds] seconds. *)
Definition after_call (seconds : Q) (w : world) : world :=
  {| breaker := breaker w; clock := (clock w + seconds)%Q;
     attempts := S (attempts w); slept := slept w |}.

(* time.sleep(delay) *)
Definition sleep (delay : Q) (w : world) : world :=
  {| breaker := breaker w; clock := (clock w + delay)%Q;
     attempts := attempts w; slept := slept w ++ [delay] |}.

(* The `while True` loop of _generate_with_retries, entered with the local
   variable [retries]. *)
Fixpoint retry_loop (fuel : nat) (self : NanoBananaEditor) (env : provider)
    (retries : Z) (w : world) : run (outcome response) :=
  match fuel with
  | O => OutOfFuel
  | S fuel =>
      match _call_with_timeout (call_fn env (attempts w)) (_timeout_seconds self) with
      | None => Blocked
      | Some (seconds, Ok r) =>
          let w := after_call seconds w in
          Finished (Ok r) (set_breaker (record_success (breaker w)) w)
      | Some (seconds, Err exc) =>
          let w := after_call seconds w in
          let retryable := _is_retryable_error exc in
          let w := set_breaker (record_failure (breaker w) (clock w)) w in
          if negb retryable then
            Finished (Err (raise_ NanoBananaError "AI request failed.")) w
          else if (_max_retries self <=? retries)%Z then
            Finished (Err (raise_ NanoBananaRetryableError
                             "AI generation failed; please retry.")) w
          else
            let delay :=
              _compute_backoff (_backoff_base self) (_backoff_max self) retries
                (uniform env (length (slept w))) in
            retry_loop fuel self env (retries + 1) (sleep delay w)
      end
  end.

(* def _generate_with_retries(self, call_fn).  The loop runs at most
   _max_retries + 1 times, which is the fuel it is given. *)
Definition _generate_with_retries (self : NanoBananaEditor) (env : provider)
    (w : world) : run (outcome response) :=
  let '(allowed, b) := allow (breaker w) (clock w) in
  let w := set_breaker b w in
  if negb allowed then
    Finished (Err (raise_ NanoBananaRetryableError
                     "AI temporarily unavailable; please retry.")) w
  else retry_loop (S (Z.to_nat (_max_retries self))) self env 0 w.

(* The first truthy image of the response (the two `for` loops of
   edit_image). *)
Fixpoint first_image (r : response) : option string :=
  match r with
  | [] => None
  | Some image_bytes :: rest =>
      if nonempty image_bytes then Some image_bytes else first_image rest
  | None :: rest => first_image rest
  end.

(* def edit_image(self, image_path, prompt, style_rules,
   style_reference_bytes).  [prepare] is None when the statements of the
   try block before the provider call (opening the image, building the
   prompt and the contents) go through, and the exception they raise
   otherwise. *)
Definition edit_image (self : NanoBananaEditor) (env : provider)
    (prepare : option exception) (w : world) : run (outcome string) :=
  let failed := raise_ NanoBananaRetryableError "AI generation failed; please retry." in
  if negb (available self) then
    Finished (Err (raise_ NanoBananaRetryableError "AI unavailable; please retry.")) w
  else if genai self && negb (_client self) then
    Finished (Err (raise_ NanoBananaRetryableError "AI client not ready; please retry.")) w
  else if negb (genai self) && negb (_model self) then
    Finished (Err (raise_ NanoBananaRetryableError "AI model not ready; please retry.")) w
  else
    match prepare with
    | Some exc => Finished (Err (if is_NanoBananaError exc then exc else failed)) w
    | None =>
        match _generate_with_retries self env w with
        | Finished (Ok r) w =>
            match first_image r with
            | Some image_bytes => Finished (Ok image_bytes) w
            | None => Finished (Err failed) w
            end
        | Finished (Err exc) w =>
            Finished (Err (if is_NanoBananaError exc then exc else failed)) w
        | Blocked => Blocked
        | OutOfFuel => OutOfFuel
        end
    end.

End NanoBanana.

(* ===================================================================== *)
(* image_pipeline.py: ImagePipeline.process                              *)
(* ===================================================================== *)

Module Pipeline.

Import Py NanoBanana.

Record ProcessingResult := {
  result_path : string;
  prompt_used : option string;
  status_message : string;
  warning_message : option string
}.

Record ImagePipeline := {
  _editor : option NanoBananaEditor;
  _ai_label : string;
  _ai_suffix : string
}.

(* @property ai_available *)
Definition ai_available (self : ImagePipeline) : bool :=
  match _editor self with
  | Some editor => available editor
  | None => false
  end.

(* What the file system and PIL do during one job: [prepare] as in
   edit_image, [save_source] the exception raised while the source image
   is re-saved as PNG (None when it goes through). *)
Record local_io := {
  prepare : option exception;
  save_source : option exception
}.

(* def process(self, source_path, prompt, output_stem, ...) *)
Definition process (self : ImagePipeline) (env : provider) (io : local_io)
    (prompt output_stem : string) (w : world) : run (outcome ProcessingResult) :=
  let failed := "AI generation failed; please retry."%string in
  if nonempty prompt then
    if negb (ai_available self) then
      Finished (Err (raise_ AIProcessingError "AI unavailable; please retry.")) w
    else
      match _editor self with
      | None => Finished (Err (raise_ AIProcessingError failed)) w
      | Some editor =>
          match edit_image editor env (prepare io) w with
          | Finished (Err exc) w =>
              Finished (Err (raise_ AIProcessingError
                               (if nonempty (exc_message exc)
                                then exc_message exc else failed))) w
          | Finished (Ok ai_bytes) w =>
              if negb (nonempty ai_bytes) then
                Finished (Err (raise_ AIProcessingError failed)) w
              else
                Finished (Ok {| result_path :=
                                  output_stem ++ "_" ++ _ai_suffix self ++ ".png";
                                prompt_used := Some prompt;
                                status_message :=
                                  "AI variation applied using " ++ _ai_label self;
                                warning_message := None |}) w
          | Blocked => Blocked
          | OutOfFuel => OutOfFuel
          end
      end
  else
    match save_source io with
    | Some exc => Finished (Err exc) w
    | None =>
        Finished (Ok {| result_path := output_stem ++ "_source.png";
                        prompt_used := None;
                        status_message := "Source image returned";
                        warning_message := None |}) w
    end.

End Pipeline.

(* ===================================================================== *)
(* tasks.py: generate_variation_task                                     *)
(* ===================================================================== *)

Module Tasks.

Import Py NanoBanana Pipeline.

(* A style of the catalogue; [style_key] is its attribute style_id. *)
Record Style := { style_key : string }.

Record ImageAsset := { asset_id : string; content_type : string }.

(* The collaborators of the task, as functions of what the task passes
   them: the style catalogue, the asset store, the materialised style
   reference, the id (or the exception) save_bytes answers with, the hex
   uuid of the run and the local file operations. *)
Record AppServices := {
  get_style : string -> option Style;
  get_asset : string -> string -> option ImageAsset;
  reference_is_file : Style -> bool;
  save_bytes : outcome string;
  uid : string;
  io : local_io
}.

(* {"job_type": "variation", "error": message} *)
Definition variation_error (message : string) : json :=
  JDict (<["error" := JStr message]> (<["job_type" := JStr "variation"]> ∅)).

(* The if / elif chain that resolves the source image: the message of the
   early error return, or original_url. *)
Definition resolve_source (services : AppServices) (session_id : string)
    (style : option Style) (use_previous : bool) (previous_result : string)
    (upload_asset_id : option string) : string + string :=
  if match upload_asset_id with Some upload => nonempty upload | None => false end
  then
    match get_asset services session_id (default EmptyString upload_asset_id) with
    | None => inl "Uploaded image not found."%string
    | Some asset => inr ("/api/images/" ++ asset_id asset)%string
    end
  else if use_previous && nonempty previous_result then
    match get_asset services session_id previous_result with
    | None => inl "Previous result not found."%string
    | Some asset => inr ("/api/images/" ++ asset_id asset)%string
    end
  else
    match style with
    | Some st =>
        if reference_is_file services st
        then inr ("/api/styles/" ++ style_key st ++ "/reference")%string
        else inl "Style reference unavailable."%string
    | None =>
        inl "Upload an image, enable forward generation, or select a style."%string
    end.

(* def generate_variation_task(self, session_id, prompt, style_id,
   use_previous, previous_result, upload_asset_id, fast_mode).
   [pipeline] is the pipeline chosen for fast_mode and [prompt] the value
   of (prompt or "").strip(); upload_asset_id is None or a string.  The
   task returns a dict or raises. *)
Definition generate_variation_task (services : AppServices)
    (pipeline : ImagePipeline) (env : provider)
    (session_id prompt style_id : string) (use_previous : bool)
    (previous_result : string) (upload_asset_id : option string)
    (w : world) : run (outcome json) :=
  if negb (nonempty session_id) then
    Finished (Ok (variation_error "Missing session id.")) w
  else
    let style := if nonempty style_id then get_style services style_id else None in
    if nonempty style_id && negb (bool_decide (is_Some style)) then
      Finished (Ok (variation_error "Style not found.")) w
    else
      match resolve_source services session_id style use_previous
              previous_result upload_asset_id with
      | inl message => Finished (Ok (variation_error message)) w
      | inr original_url =>
          match process pipeline env (io services) prompt (uid services) w with
          | Finished (Err exc) w => Finished (Err exc) w
          | Finished (Ok result) w =>
              match save_bytes services with
              | Err exc => Finished (Err exc) w
              | Ok result_id =>
                  Finished
                    (Ok (JDict
                           (<["warning_message" := opt_str (warning_message result)]>
                           (<["status_message" := JStr (status_message result)]>
                           (<["prompt_used" := opt_str (prompt_used result)]>
                           (<["original_url" := JStr original_url]>
                           (<["result_id" := JStr result_id]>
                           (<["job_type" := JStr "variation"]> ∅)))))))) w
              end
          | Blocked => Blocked
          | OutOfFuel => OutOfFuel
          end
      end.

End Tasks.

(* ===================================================================== *)
(* Celery, as tasks.py and routes/api.py use it                          *)
(* ===================================================================== *)

Module Celery.

Import Py.

(* What AsyncResult(job_id, app=celery_app) shows of a task: its state,
   its result (the value the task returned) and str(result.info) (for a
   failed task, the message of the exception it raised). *)
Record AsyncResult := {
  state : string;
  result : json;
  info : string
}.

(* The result backend keeps no list of the ids it handed out: for an id it
   has no record of, AsyncResult reports the state PENDING and the result
   None. *)
Definition unknown_task : AsyncResult :=
  {| state := "PENDING"; result := JNull; info := "None" |}.

Definition lookup_task (backend : gmap string AsyncResult) (job_id : string)
  : AsyncResult :=
  default unknown_task (backend !! job_id).

(* What the backend stores when a task ends: SUCCESS with the returned
   value, FAILURE with the raised exception.  [py_str] is str() on JSON
   values; in the state FAILURE the result is the exception, which
   _build_job_payload reads through info only. *)
Definition store_result (py_str : json -> string) (ended : outcome json)
  : AsyncResult :=
  match ended with
  | Ok value => {| state := "SUCCESS"; result := value; info := py_str value |}
  | Err exc => {| state := "FAILURE"; result := JNull; info := exc_message exc |}
  end.

End Celery.

(* ===================================================================== *)
(* routes/api.py: job status and job stream                              *)
(* ===================================================================== *)

Module Api.

Import Py Celery.

(* def _map_task_status(state) *)
Definition _map_task_status (state : string) : string :=
  let normalized := upper state in
  if String.eqb normalized "PENDING" || String.eqb normalized "RECEIVED" then "pending"
  else if String.eqb normalized "STARTED" || String.eqb normalized "RETRY" then "processing"
  else if String.eqb normalized "SUCCESS" then "complete"
  else if String.eqb normalized "FAILURE" then "failed"
  else "pending".

(* url.lstrip("/") *)
Fixpoint lstrip_slash (url : string) : string :=
  match url with
  | String "/" rest => lstrip_slash rest
  | _ => url
  end.

(* payload.get("status") in {"complete", "failed"} *)
Definition is_terminal (payload : gmap string json) : bool :=
  eq_str (get payload "status") "complete" || eq_str (get payload "status") "failed".

(* A JSON response: dict return values of a route are sent with status
   200, an exception that leaves the route with status 500. *)
Record JSONResponse := {
  status_code : Z;
  content : gmap string json
}.

(* How a run of event_generator ends: the client went away, a terminal
   status was seen, _build_job_payload raised, or the loop is still
   polling when the observation stops. *)
Inductive stream_end := Disconnected | Terminal | Crashed | Polling.

Section Request.

(* The request the routes are bound to: str(request.url_for(
   "api_image_asset", image_id=v)), urljoin(str(request.base_url), s),
   and json.dumps(payload, ensure_ascii=True). *)
Variable url_for_image : json -> string.
Variable urljoin_base : string -> string.
Variable dumps : gmap string json -> string.

(* def _absolute_url(request, url) *)
Definition _absolute_url (url : string) : string :=
  if String.prefix "http://" url || String.prefix "https://" url then url
  else urljoin_base (lstrip_slash url).

(* original_url = payload.get("original_url")
   if original_url: original_url = _absolute_url(request, original_url)
   A truthy value that is not a str has no startswith: AttributeError. *)
Definition absolute_original_url (original_url : json) : outcome json :=
  if truthy original_url then
    match original_url with
    | JStr url => Ok (JStr (_absolute_url url))
    | _ => Err (raise_ OtherException "AttributeError")
    end
  else Ok original_url.

Definition result_url (id : json) : json :=
  if truthy id then JStr (url_for_image id) else JNull.

(* def _format_variation_result(request, payload) *)
Definition _format_variation_result (payload : gmap string json)
  : outcome (gmap string json) :=
  let result_id := get payload "result_id" in
  match absolute_original_url (get payload "original_url") with
  | Err exc => Err exc
  | Ok original_url =>
      Ok (<["warning_message" := get payload "warning_message"]>
         (<["status_message" := get payload "status_message"]>
         (<["prompt_used" := get payload "prompt_used"]>
         (<["original_url" := original_url]>
         (<["result_id" := result_id]>
         (<["result_url" := result_url result_id]> ∅))))))
  end.

(* def _format_background_result(request, payload) *)
Definition _format_background_result (payload : gmap string json)
  : outcome (gmap string json) :=
  let image_id := get payload "image_id" in
  match absolute_original_url (get payload "original_url") with
  | Err exc => Err exc
  | Ok original_url =>
      Ok (<["original_url" := original_url]>
         (<["image_id" := image_id]>
         (<["result_url" := result_url image_id]> ∅)))
  end.

(* The body of _build_job_payload once result = AsyncResult(job_id) is
   at hand. *)
Definition job_payload (result : AsyncResult) (job_id : string)
  : outcome (gmap string json) :=
  let status := _map_task_status (state result) in
  let payload : gmap string json :=
    <["status" := JStr status]> (<["job_id" := JStr job_id]> ∅) in
  if String.eqb status "failed" then
    Ok (<["error" := JStr (info result)]> payload)
  else if negb (String.eqb status "complete") then
    Ok payload
  else
    let result_payload :=
      if truthy (Celery.result result) then Celery.result result else JDict ∅ in
    match result_payload with
    | JDict d =>
        if truthy (get d "error") then
          Ok (<["error" := get d "error"]> (<["status" := JStr "failed"]> payload))
        else
          let job_type := get d "job_type" in
          let payload := <["job_type" := job_type]> payload in
          if eq_str job_type "variation" then
            match _format_variation_result d with
            | Ok formatted => Ok (<["result" := JDict formatted]> payload)
            | Err exc => Err exc
            end
          else if eq_str job_type "background_removal" then
            match _format_background_result d with
            | Ok formatted => Ok (<["result" := JDict formatted]> payload)
            | Err exc => Err exc
            end
          else Ok (<["result" := result_payload]> payload)
    | _ => Ok (<["result" := result_payload]> payload)
    end.

(* def _build_job_payload(request, job_id), against the result backend *)
Definition _build_job_payload (backend : gmap string AsyncResult)
    (job_id : string) : outcome (gmap string json) :=
  job_payload (lookup_task backend job_id) job_id.

(* @api_router.get("/jobs/{job_id}") def job_status(request, job_id) *)
Definition job_status (backend : gmap string AsyncResult) (job_id : string)
  : JSONResponse :=
  match _build_job_payload backend job_id with
  | Ok payload => {| status_code := 200; content := payload |}
  | Err _ => {| status_code := 500; content := ∅ |}
  end.

(* async def event_generator() of job_stream.  Each element of [polls] is
   what one turn of the loop observes: the value of
   request.is_disconnected() and the result backend at that moment.  The
   result is the list of payloads whose serialisation is yielded, oldest
   first, and the way the run ends. *)
Fixpoint event_generator (job_id : string)
    (polls : list (bool * gmap string AsyncResult))
    (last_payload : option string) : list (gmap string json) * stream_end :=
  match polls with
  | [] => ([], Polling)
  | (is_disconnected, backend) :: polls =>
      if is_disconnected then ([], Disconnected)
      else
        match _build_job_payload backend job_id with
        | Err _ => ([], Crashed)
        | Ok payload =>
            let data := dumps payload in
            let changed := negb (bool_decide (last_payload = Some data)) in
            let yielded := if changed then [payload] else [] in
            let last_payload := if changed then Some data else last_payload in
            if is_terminal payload then (yielded, Terminal)
            else
              let '(later, ended) := event_generator job_id polls last_payload in
              (yielded ++ later, ended)
        end
  end.

(* The frame sent for a yielded payload: f"data: {data}\n\n" *)
Definition sse_frame (payload : gmap string json) : string :=
  "data: " ++ dumps payload ++ String (ascii_of_nat 10) (String (ascii_of_nat 10) "").

(* async def job_stream(request, job_id, poll_interval) *)
Definition job_stream (job_id : string)
    (polls : list (bool * gmap string AsyncResult))
  : list (gmap string json) * stream_end :=
  event_generator job_id polls None.

End Request.

End Api.

(* ===================================================================== *)
(* The properties of the specification, as statements about the code     *)
(* ===================================================================== *)

Module Spec.

Import Py CircuitBreaker NanoBanana Pipeline Tasks Celery Api.

(* "delay = min(backoff_base * 2^attempt, backoff_cap) * uniform(0.75, 1.25)" *)
Definition backoff_as_specified (base cap : Q) (attempt : Z) (uniform : Q) : Prop :=
  (_compute_backoff base cap attempt uniform
   == Qmin (base * inject_Z (2 ^ attempt)) cap * uniform)%Q.

(* "signals NotFound": the response carries the status 404, as the routes
   for styles and images do for an id they do not know. *)
Definition signals_NotFound (response : JSONResponse) : Prop :=
  status_code response = 404%Z.



(* The provider call number [n] ends, under the editor's time-out, in an
   error that _is_retryable_error accepts. *)
Definition fails_retryably (self : NanoBananaEditor) (env : provider) (n : nat) : bool :=
  match _call_with_timeout (call_fn env n) (_timeout_seconds self) with
  | Some (_, Err exc) => _is_retryable_error exc
  | _ => false
  end.

(* It ends in an error that _is_retryable_error rejects. *)
Definition fails_fatally (self : NanoBananaEditor) (env : provider) (n : nat) : bool :=
  match _call_with_timeout (call_fn env n) (_timeout_seconds self) with
  | Some (_, Err exc) => negb (_is_retryable_error exc)
  | _ => false
  end.

(* It returns the response [r]. *)
Definition succeeds_with (self : NanoBananaEditor) (env : provider) (n : nat)
    (r : response) : Prop :=
  exists seconds : Q,
    _call_with_timeout (call_fn env n) (_timeout_seconds self) = Some (seconds, Ok r).

(* The delays of [k] consecutive retries, the first one with the loop
   variable retries = [retries] and the jitter of sleep number [draw]. *)
Fixpoint backoff_delays (self : NanoBananaEditor) (env : provider)
    (k : nat) (retries : Z) (draw : nat) : list Q :=
  match k with
  | O => []
  | S k =>
      _compute_backoff (_backoff_base self) (_backoff_max self) retries (uniform env draw)
      :: backoff_delays self env k (retries + 1) (S draw)
  end.

(* A variation job from submission to the payload the status route
   builds for it once the task has ended. *)
Definition variation_job_payload (py_str : json -> string)
    (url_for_image : json -> string) (urljoin_base : string -> string)
    (services : AppServices) (pipeline : ImagePipeline) (env : provider)
    (session_id prompt style_id : string) (use_previous : bool)
    (previous_result : string) (upload_asset_id : option string)
    (job_id : string) (w : world) : run (outcome (gmap string json)) :=
  match generate_variation_task services pipeline env session_id prompt style_id
          use_previous previous_result upload_asset_id w with
  | Finished ended w =>
      Finished (job_payload url_for_image urljoin_base
                  (store_result py_str ended) job_id) w
  | Blocked => Blocked
  | OutOfFuel => OutOfFuel
  end.

(* The world after a failed provider call of [seconds] seconds. *)
Definition after_failure (seconds : Q) (w : world) : world :=
  set_breaker
    (record_failure (breaker (after_call seconds w)) (clock (after_call seconds w)))
    (after_call seconds w).

(* The guards of generate_variation_task that come before
   pipeline.process: the session id is there, a named style exists, and a
   source image is resolved. *)
Definition reaches_pipeline (services : AppServices)
    (session_id style_id : string) (use_previous : bool)
    (previous_result : string) (upload_asset_id : option string) : bool :=
  let style := if nonempty style_id then get_style services style_id else None in
  nonempty session_id &&
  negb (nonempty style_id && negb (bool_decide (is_Some style))) &&
  match resolve_source services session_id style use_previous previous_result
          upload_asset_id with
  | inr _ => true
  | inl _ => false
  end.

(* The guards of edit_image that come before the provider call. *)
Definition editor_ready (self : NanoBananaEditor) : bool :=
  available self && (if genai self then _client self else _model self).

(* "the job ends Failed ... and the breaker's failure counter has
   incremented by 1": the payload of the ended job has the status failed
   and the counter is one above its value before the job. *)
Definition job_fails_counting_one (py_str : json -> string)
    (url_for_image : json -> string) (urljoin_base : string -> string)
    (services : AppServices) (pipeline : ImagePipeline) (env : provider)
    (session_id prompt style_id : string) (use_previous : bool)
    (previous_result : string) (upload_asset_id : option string)
    (job_id : string) (w : world) : Prop :=
  exists (payload : gmap string json) (w' : world),
    variation_job_payload py_str url_for_image urljoin_base services pipeline env
      session_id prompt style_id use_previous previous_result upload_asset_id
      job_id w = Finished (Ok payload) w' /\
    payload !! "status" = Some (JStr "failed") /\
    _failures (breaker w') = (_failures (breaker w) + 1)%Z.



(* Every payload of [events] serialises to something else than the one
   before it, [last_payload] standing before the first. *)
Fixpoint each_differs (dumps : gmap string json -> string)
    (last_payload : option string) (events : list (gmap string json)) : Prop :=
  match events with
  | [] => True
  | payload :: later =>
      last_payload <> Some (dumps payload) /\
      each_differs dumps (Some (dumps payload)) later
  end.

End Spec.

(* ===================================================================== *)
(* Concrete editors, providers and worlds                                *)
(* ===================================================================== *)

Module Examples.

Import Py CircuitBreaker NanoBanana Pipeline Tasks Celery Api.

(* An SDK error with code 503. *)
Definition unavailable_503 : exception :=
  {| exc_class_of := OtherException; exc_code := Some 503%Z;
     exc_status_code := None; exc_message := "503 Service Unavailable" |}.

(* An SDK error with code 400. *)
Definition bad_request_400 : exception :=
  {| exc_class_of := OtherException; exc_code := Some 400%Z;
     exc_status_code := None; exc_message := "400 Bad Request" |}.

(* The editor of the default configuration: time-out 60 s, 2 retries,
   backoff base 1 s, cap 8 s. *)
Definition editor : NanoBananaEditor :=
  {| available := true; genai := true; _client := true; _model := false;
     _timeout_seconds := 60; _max_retries := 2;
     _backoff_base := 1; _backoff_max := 8 |}.

(* A new breaker (threshold 5, cooldown 60 s) at clock reading 100. *)
Definition fresh_world : world :=
  {| breaker := __init__ 5 60; clock := 100; attempts := 0; slept := [] |}.

(* Two 503 errors, then a response with one image. *)
Definition flaky : provider :=
  {| call_fn := fun n => if (n <? 2)%nat then Raises 1 unavailable_503
                         else Returns 1 [Some "PNG"%string];
     uniform := fun _ => 1%Q |}.

Definition always_503 : provider :=
  {| call_fn := fun _ => Raises 1 unavailable_503; uniform := fun _ => 1%Q |}.

Definition always_400 : provider :=
  {| call_fn := fun _ => Raises 1 bad_request_400; uniform := fun _ => 1%Q |}.

(* A pipeline around [editor], and services that know the uploaded asset
   "upload-1" of every session. *)
Definition pipeline : ImagePipeline :=
  {| _editor := Some editor; _ai_label := "Nano Banana"; _ai_suffix := "nano" |}.

Definition services : AppServices :=
  {| get_style := fun _ => None;
     get_asset := fun _ id =>
       if String.eqb id "upload-1"
       then Some {| asset_id := "upload-1"; content_type := "image/png" |}
       else None;
     reference_is_file := fun _ => false;
     save_bytes := Ok "result-1"%string;
     uid := "0123abcd";
     io := {| prepare := None; save_source := None |} |}.

(* The breaker after five failures, the last at clock reading 105, seen
   at clock reading 110. *)
Definition five_failures : list Q := [101; 102; 103; 104; 105]%Q.

Definition tripped_world : world :=
  {| breaker := record_failures (__init__ 5 60) five_failures;
     clock := 110; attempts := 5; slept := [] |}.

(* A request bound to http://ivg.test/, str() on JSON strings, and a
   serialisation that keeps the status text only. *)
Definition url_for_image (id : json) : string :=
  ("http://ivg.test/api/images/" ++ match id with JStr s => s | _ => "" end)%string.

Definition urljoin_base (path : string) : string :=
  ("http://ivg.test/" ++ path)%string.

Definition py_str (v : json) : string :=
  match v with JStr s => s | _ => "" end.

Definition dumps_status (payload : gmap string json) : string :=
  py_str (get payload "status").

(* What a stream sees of job-1: queued twice, started, then ended with a
   variation result. *)
Definition job_1 (state : string) (result : json) : gmap string AsyncResult :=
  {[ "job-1"%string := {| state := state; result := result; info := "" |} ]}.

Definition variation_result : json :=
  JDict (<["result_id" := JStr "result-1"]> (<["job_type" := JStr "variation"]> ∅)).

Definition polls_until_success : list (bool * gmap string AsyncResult) :=
  [(false, job_1 "PENDING" JNull); (false, job_1 "PENDING" JNull);
   (false, job_1 "STARTED" JNull); (false, job_1 "SUCCESS" variation_result);
   (false, job_1 "SUCCESS" variation_result)].

End Examples.

(* ===================================================================== *)
(* nano_banana.py: a breaker under any sequence of method calls          *)
(* ===================================================================== *)

Module BreakerHistory.

Import CircuitBreaker.

(* One method call on a breaker, with the clock reading it sees. *)
Inductive breaker_call :=
| Allow (monotonic : Q)
| RecordSuccess
| RecordFailure (monotonic : Q).

(* The breaker after the call. *)
Definition call (self : _CircuitBreaker) (c : breaker_call) : _CircuitBreaker :=
  match c with
  | Allow monotonic => snd (allow self monotonic)
  | RecordSuccess => record_success self
  | RecordFailure monotonic => record_failure self monotonic
  end.

(* The breaker after a sequence of calls, oldest first. *)
Definition replay (self : _CircuitBreaker) (calls : list breaker_call)
  : _CircuitBreaker :=
  fold_left call calls self.

(* No failure is recorded at the clock reading 0.0. *)
Definition failures_at_nonzero (calls : list breaker_call) : Prop :=
  Forall (fun c => match c with
                   | RecordFailure monotonic => ~ (monotonic == 0)%Q
                   | _ => True
                   end) calls.

(* What every breaker keeps true, whatever is called on it: the counter
   is not negative, and _opened_at is set only with the counter at or
   above the threshold. *)
Definition tripped_only_at_threshold (self : _CircuitBreaker) : Prop :=
  (0 <= _failures self)%Z /\
  (~ (_opened_at self == 0)%Q -> (_threshold self <= _failures self)%Z).

End BreakerHistory.

(* ===================================================================== *)
(* nano_banana.py: module imports, NanoBananaEditor.__init__;            *)
(* services/ai/__init__.py: build_image_editor                           *)
(* ===================================================================== *)

Module Editor.

Import Py CircuitBreaker NanoBanana Pipeline.

(* The module globals after the import block: whether genai_client and
   genai_types are set, and GENAI_BACKEND (None, "genai" or
   "generativeai"). *)
Inductive backend_name := genai_backend | generativeai_backend.

Record sdk := {
  genai_client : bool;
  genai_types : bool;
  GENAI_BACKEND : option backend_name
}.

(* The try / except block at the top of the module; the arguments tell
   which of the three imports succeed: `from google import genai`,
   `from google.genai import types`, `import google.generativeai`. *)
Definition import_sdk (genai_found types_found generativeai_found : bool) : sdk :=
  if genai_found && types_found then
    {| genai_client := true; genai_types := true;
       GENAI_BACKEND := Some genai_backend |}
  else if generativeai_found then
    {| genai_client := true; genai_types := false;
       GENAI_BACKEND := Some generativeai_backend |}
  else
    {| genai_client := false; genai_types := false; GENAI_BACKEND := None |}.

(* def __init__(self, api_key, model_name, enabled, fast_mode,
   reference_max_size, timeout_seconds, max_retries, ...): the attributes
   the retry loop and edit_image read, and the breaker.  [client_built]
   tells whether the try block that builds the client (or configures the
   SDK and builds the model) goes through; a client or model that was
   built is truthy. *)
Definition NanoBananaEditor__init__ (modules : sdk) (client_built : bool)
    (api_key : string) (enabled : bool)
    (timeout_seconds : Q) (max_retries : Z)
    (backoff_base_seconds backoff_max_seconds : Q)
    (circuit_breaker_threshold : Z) (circuit_breaker_cooldown_seconds : Q)
  : NanoBananaEditor * _CircuitBreaker :=
  let is_genai :=
    match GENAI_BACKEND modules with
    | Some genai_backend => true
    | _ => false
    end in
  let editor (is_available client model : bool) :=
    {| available := is_available; genai := is_genai;
       _client := client; _model := model;
       _timeout_seconds := Qmax 0 timeout_seconds;
       _max_retries := Z.max 0 max_retries;
       _backoff_base := Qmax 0 backoff_base_seconds;
       _backoff_max := Qmax 0 backoff_max_seconds |} in
  let breaker :=
    CircuitBreaker.__init__ circuit_breaker_threshold
      circuit_breaker_cooldown_seconds in
  if negb (enabled && nonempty api_key && genai_client modules) then
    (editor false false false, breaker)
  else if is_genai && negb (genai_types modules) then
    (editor false false false, breaker)
  else if client_built then
    (editor true is_genai (negb is_genai), breaker)
  else
    (editor false false false, breaker).

(* The keys of the config dict build_image_editor reads: None for a
   missing key, otherwise the value, of the type the function converts it
   to. *)
Record ai_config := {
  IMAGE_PROVIDER : option string;
  FAST_MODE : bool;
  GEMINI_API_KEY : option string;
  GEMINI_TIMEOUT_SECONDS : option Q;
  GEMINI_MAX_RETRIES : option Z;
  GEMINI_BACKOFF_BASE_SECONDS : option Q;
  GEMINI_BACKOFF_MAX_SECONDS : option Q;
  GEMINI_CB_THRESHOLD : option Z;
  GEMINI_CB_COOLDOWN_SECONDS : option Q
}.

(* def build_image_editor(config) -> Optional[ImageEditor] *)
Definition build_image_editor (modules : sdk) (client_built : bool)
    (config : ai_config) : option (NanoBananaEditor * _CircuitBreaker) :=
  let provider := lower (default EmptyString (IMAGE_PROVIDER config)) in
  if String.eqb provider "nano_banana" then
    let built :=
      NanoBananaEditor__init__ modules client_built
        (default EmptyString (GEMINI_API_KEY config)) true
        (default 60%Q (GEMINI_TIMEOUT_SECONDS config))
        (default 2%Z (GEMINI_MAX_RETRIES config))
        (default 1%Q (GEMINI_BACKOFF_BASE_SECONDS config))
        (default 8%Q (GEMINI_BACKOFF_MAX_SECONDS config))
        (default 5%Z (GEMINI_CB_THRESHOLD config))
        (default 60%Q (GEMINI_CB_COOLDOWN_SECONDS config)) in
    if available (fst built) then Some built else None
  else None.

(* ImagePipeline(result_dir, editor=build_image_editor(config), ai_label,
   ai_suffix), as _build_services and _select_pipeline construct it. *)
Definition build_pipeline (modules : sdk) (client_built : bool)
    (config : ai_config) (ai_label ai_suffix : string) : ImagePipeline :=
  {| _editor := option_map fst (build_image_editor modules client_built config);
     _ai_label := ai_label; _ai_suffix := ai_suffix |}.

End Editor.

(* ===================================================================== *)
(* The seconds a resilient call takes                                    *)
(* ===================================================================== *)

Module Accounting.

Import Py NanoBanana.

Fixpoint Qsum (l : list Q) : Q :=
  match l with
  | [] => 0%Q
  | x :: l => (x + Qsum l)%Q
  end.

(* The seconds the provider invocation number [n] takes under the
   editor's time-out. *)
Definition call_seconds (self : NanoBananaEditor) (env : provider) (n : nat) : Q :=
  match _call_with_timeout (call_fn env n) (_timeout_seconds self) with
  | Some (seconds, _) => seconds
  | None => 0%Q
  end.

(* The seconds of the [count] invocations from number [first] on. *)
Fixpoint calls_seconds (self : NanoBananaEditor) (env : provider)
    (first count : nat) : Q :=
  match count with
  | O => 0%Q
  | S count => (call_seconds self env first + calls_seconds self env (S first) count)%Q
  end.

(* The call ends within the time-out, or no time-out is set; and it does
   not itself raise concurrent.futures.TimeoutError. *)
Definition ends_in_time (call_fn : behaviour) (timeout_seconds : Q) : Prop :=
  match call_fn with
  | Returns seconds _ =>
      (timeout_seconds <= 0)%Q \/ (seconds <= timeout_seconds)%Q
  | Raises seconds exc =>
      (timeout_seconds <= 0)%Q \/
      ((seconds <= timeout_seconds)%Q /\ exc_class_of exc <> FutureTimeout)
  | Hangs => (timeout_seconds <= 0)%Q
  end.

End Accounting.

(* ===================================================================== *)
(* image_assets.py: content types and suffixes; tasks.py:                *)
(* _write_temp_image                                                     *)
(* ===================================================================== *)

Module Assets.

Import Py.

Definition IMAGE_MIME_TYPES : gmap string string :=
  <[".gif" := "image/gif"]>
  (<[".webp" := "image/webp"]>
  (<[".jpeg" := "image/jpeg"]>
  (<[".jpg" := "image/jpeg"]>
  (<[".png" := "image/png"]> ∅))))%string.

Definition MIME_EXTENSIONS : gmap string string :=
  <["image/gif" := ".gif"]>
  (<["image/webp" := ".webp"]>
  (<["image/jpg" := ".jpg"]>
  (<["image/jpeg" := ".jpg"]>
  (<["image/png" := ".png"]> ∅))))%string.

(* def extension_for_mime(content_type) *)
Definition extension_for_mime (content_type : string) : string :=
  default ".png"%string (MIME_EXTENSIONS !! content_type).

(* def _normalize_suffix(suffix) *)
Definition _normalize_suffix (suffix : string) : string :=
  if negb (nonempty suffix) then EmptyString
  else lower (if String.prefix "." suffix then suffix else "." ++ suffix)%string.

(* name.rsplit(".", 1)[-1] for a name with a dot in it: what follows the
   last dot; None when the name has no dot. *)
Fixpoint after_last_dot (name : string) : option string :=
  match name with
  | EmptyString => None
  | String c rest =>
      match after_last_dot rest with
      | Some ext => Some ext
      | None => if Ascii.eqb c "." then Some rest else None
      end
  end.

(* def _suffix_from_name(name) *)
Definition _suffix_from_name (name : string) : string :=
  match after_last_dot name with
  | Some ext => ("." ++ ext)%string
  | None => EmptyString
  end.

(* def _resolve_content_type(suffix, mimetype) *)
Definition _resolve_content_type (suffix : string) (mimetype : option string)
  : string :=
  match mimetype with
  | Some m =>
      if nonempty m && String.prefix "image/" m then m
      else default "application/octet-stream"%string (IMAGE_MIME_TYPES !! suffix)
  | None => default "application/octet-stream"%string (IMAGE_MIME_TYPES !! suffix)
  end.

(* suffix.lstrip(".") *)
Fixpoint lstrip_dot (suffix : string) : string :=
  match suffix with
  | String "." rest => lstrip_dot rest
  | _ => suffix
  end.

(* The checks of ImageAssetStore.save_upload_bytes before the insert:
   the message of the StorageError raised, or the suffix and the content
   type the upload is stored with.  [_allowed] is self._allowed (the
   lower-cased allowed extensions) and [safe_name] the value of
   _secure_filename(filename). *)
Definition save_upload_bytes (_allowed : list string) (filename safe_name : string)
    (content_type : option string) (image_bytes : string)
  : string + (string * string) :=
  if negb (nonempty filename) then inl "Please select an image."%string
  else
    let suffix := _normalize_suffix (_suffix_from_name safe_name) in
    if negb (nonempty suffix)
       || negb (existsb (String.eqb (lstrip_dot suffix)) _allowed)
    then inl "Unsupported file type. Use PNG, JPG, JPEG, GIF, or WEBP."%string
    else if negb (nonempty image_bytes) then inl "Uploaded file is empty."%string
    else inr (suffix, _resolve_content_type suffix content_type).

(* BaseConfig.ALLOWED_EXTENSIONS *)
Definition ALLOWED_EXTENSIONS : list string :=
  ["png"; "jpg"; "jpeg"; "gif"; "webp"]%string.

(* The file name _write_temp_image(temp_dir, stem, suffix, payload)
   writes to, inside temp_dir. *)
Definition _write_temp_image (stem suffix : string) : string :=
  let safe_suffix :=
    if String.prefix "." suffix then suffix else ("." ++ suffix)%string in
  (stem ++ safe_suffix)%string.

End Assets.

(* ===================================================================== *)
(* tasks.py: remove_background_task; routes/api.py: create_variation     *)
(* and remove_background                                                 *)
(* ===================================================================== *)

Module Background.

Import Py NanoBanana Pipeline Tasks Celery Api.





(* The test of create_variation that answers 400 "Upload an image, enable
   forward generation, or select a style." before any task is queued. *)
Definition create_variation_rejects (upload_asset_id : option string)
    (use_previous_flag : bool) (previous_result style_id : string) : bool :=
  negb (match upload_asset_id with Some upload => nonempty upload | None => false end)
  && negb (use_previous_flag && nonempty previous_result)
  && negb (nonempty style_id).

Section Request.

Variable url_for_image : json -> string.
Variable urljoin_base : string -> string.


End Request.

End Background.

(* ===================================================================== *)
(* routes/api.py: what event_generator remembers                         *)
(* ===================================================================== *)

Module StreamState.

Import Py.


End StreamState.

(* ===================================================================== *)
(* routes/utils.py: the session helpers; routes/api.py: how              *)
(* create_variation opens                                                *)
(* ===================================================================== *)

Module Session.

Import Py.

Definition SESSION_ID_KEY : string := "session_id".
Definition FAST_MODE_KEY : string := "fast_mode".

(* def get_session_id(request): the id it returns and request.session
   afterwards; [uuid4_hex] is the value uuid4().hex has if it is drawn. *)
Definition get_session_id (uuid4_hex : string) (session : gmap string json)
  : json * gmap string json :=
  let session_id := get session SESSION_ID_KEY in
  if negb (truthy session_id) then
    (JStr uuid4_hex, <[SESSION_ID_KEY := JStr uuid4_hex]> session)
  else (session_id, session).

(* def set_fast_mode(request, enabled) *)
Definition set_fast_mode (enabled : bool) (session : gmap string json)
  : gmap string json :=
  <[FAST_MODE_KEY := JBool enabled]> session.

(* def get_fast_mode(request, default) *)
Definition get_fast_mode (session : gmap string json) (default_ : bool) : bool :=
  truthy (default (JBool default_) (session !! FAST_MODE_KEY)).

(* (value or "").lower() in {"true", "1", "on", "yes"} *)
Definition form_flag (value : string) : bool :=
  existsb (String.eqb (lower value)) ["true"; "1"; "on"; "yes"]%string.

(* The first statements of create_variation: session_id, fast_mode_flag
   and request.session after them.  [config_fast_mode] is
   bool(getattr(app_config, "FAST_MODE", False)) and [fast_mode] the form
   field, a list of values. *)
Definition create_variation_opens (uuid4_hex : string) (config_fast_mode : bool)
    (fast_mode : list string) (session : gmap string json)
  : json * bool * gmap string json :=
  let '(session_id, session) := get_session_id uuid4_hex session in
  let fast_mode_flag :=
    match fast_mode with
    | [] => get_fast_mode session config_fast_mode
    | _ => existsb form_flag fast_mode
    end in
  let session :=
    match fast_mode with
    | [] => session
    | _ => set_fast_mode fast_mode_flag session
    end in
  (session_id, fast_mode_flag, session).

(* The first statements of remove_background: fast_mode_flag, session_id
   and request.session after them. *)
Definition remove_background_opens (uuid4_hex : string) (config_fast_mode : bool)
    (session : gmap string json) : json * bool * gmap string json :=
  let fast_mode_flag := get_fast_mode session config_fast_mode in
  let '(session_id, session) := get_session_id uuid4_hex session in
  (session_id, fast_mode_flag, session).

End Session.

(* ===================================================================== *)
(* Boolean comparisons on Q                                              *)
(* ===================================================================== *)

Lemma Qle_bool_false (x y : Q) : Qle_bool x y = false <-> (y < x)%Q.
Proof.
  split.
  - intros E. apply Qnot_le_lt. intros Hle.
    apply Qle_bool_iff in Hle. congruence.
  - intros Hlt. destruct (Qle_bool x y) eqn:E; [|reflexivity].
    apply Qle_bool_iff in E. lra.
Qed.

Lemma Qeq_bool_false (x y : Q) : Qeq_bool x y = false <-> ~ (x == y)%Q.
Proof.
  split.
  - apply Qeq_bool_neq.
  - intros Hne. destruct (Qeq_bool x y) eqn:E; [|reflexivity].
    apply Qeq_bool_iff in E. contradiction.
Qed.

(* ===================================================================== *)
(* The circuit breaker                                                   *)
(* ===================================================================== *)

Module BreakerFacts.

Import CircuitBreaker.

Section Enabled.

Variable self : _CircuitBreaker.
Hypothesis threshold_pos : (0 < _threshold self)%Z.
Hypothesis cooldown_pos : (0 < _cooldown self)%Q.

Lemma cooldown_truthy : Qeq_bool (_cooldown self) 0 = false.
Proof. apply Qeq_bool_false. lra. Qed.

Lemma threshold_truthy : (_threshold self =? 0)%Z = false.
Proof. apply Z.eqb_neq. lia. Qed.

Lemma enabled_guard :
  (_threshold self =? 0)%Z || Qeq_bool (_cooldown self) 0 = false.
Proof. now rewrite threshold_truthy, cooldown_truthy. Qed.

Lemma allow_not_opened (t : Q) :
  (_opened_at self == 0)%Q -> allow self t = (true, self).
Proof.
  intros H0. unfold allow. rewrite enabled_guard.
  apply Qeq_bool_iff in H0. now rewrite H0.
Qed.

Lemma allow_within_cooldown (t : Q) :
  ~ (_opened_at self == 0)%Q ->
  (t - _opened_at self < _cooldown self)%Q ->
  allow self t = (false, self).
Proof.
  intros Hne Hlt. unfold allow. rewrite enabled_guard.
  apply Qeq_bool_false in Hne. rewrite Hne.
  apply Qle_bool_false in Hlt. now rewrite Hlt.
Qed.

Lemma allow_after_cooldown (t : Q) :
  ~ (_opened_at self == 0)%Q ->
  (_cooldown self <= t - _opened_at self)%Q ->
  allow self t =
    (true, {| _threshold := _threshold self; _cooldown := _cooldown self;
              _failures := 0; _opened_at := 0 |}).
Proof.
  intros Hne Hle. unfold allow. rewrite enabled_guard.
  apply Qeq_bool_false in Hne. rewrite Hne.
  apply Qle_bool_iff in Hle. now rewrite Hle.
Qed.

Lemma record_failure_below (t : Q) :
  (_failures self + 1 < _threshold self)%Z ->
  record_failure self t =
    {| _threshold := _threshold self; _cooldown := _cooldown self;
       _failures := _failures self + 1; _opened_at := _opened_at self |}.
Proof.
  intros Hlt. unfold record_failure. rewrite threshold_truthy.
  replace (_threshold self <=? _failures self + 1)%Z with false; [reflexivity|].
  symmetry. apply Z.leb_gt. lia.
Qed.

Lemma record_failure_trips (t : Q) :
  (_threshold self <= _failures self + 1)%Z ->
  record_failure self t =
    {| _threshold := _threshold self; _cooldown := _cooldown self;
       _failures := _failures self + 1; _opened_at := t |}.
Proof.
  intros Hle. unfold record_failure. rewrite threshold_truthy, cooldown_truthy.
  replace (_threshold self <=? _failures self + 1)%Z with true; [reflexivity|].
  symmetry. apply Z.leb_le. lia.
Qed.

End Enabled.

Lemma record_failure_config (self : _CircuitBreaker) (t : Q) :
  _threshold (record_failure self t) = _threshold self /\
  _cooldown (record_failure self t) = _cooldown self.
Proof.
  unfold record_failure.
  destruct (_threshold self =? 0)%Z; [tauto|].
  destruct (_ && _); simpl; tauto.
Qed.

Lemma record_failure_count (self : _CircuitBreaker) (t : Q) :
  (0 < _threshold self)%Z ->
  _failures (record_failure self t) = (_failures self + 1)%Z.
Proof.
  intros Hpos. unfold record_failure.
  rewrite (threshold_truthy self Hpos).
  destruct (_ && _); reflexivity.
Qed.

(* A run of failures on an enabled breaker: the counter adds up, the
   breaker keeps its _opened_at while the counter is below the threshold,
   and once the threshold is reached _opened_at is the clock reading of
   the last failure. *)
Lemma record_failures_run (clock : list Q) :
  forall self : _CircuitBreaker,
    (0 < _threshold self)%Z -> (0 < _cooldown self)%Q ->
    _threshold (record_failures self clock) = _threshold self /\
    _cooldown (record_failures self clock) = _cooldown self /\
    _failures (record_failures self clock)
      = (_failures self + Z.of_nat (length clock))%Z /\
    ((_failures self + Z.of_nat (length clock) < _threshold self)%Z ->
       _opened_at (record_failures self clock) = _opened_at self) /\
    (clock <> [] ->
     (_threshold self <= _failures self + Z.of_nat (length clock))%Z ->
       _opened_at (record_failures self clock) = List.last clock 0%Q).
Proof.
  induction clock as [|t clock IH]; intros self Hth Hcd.
  - simpl. repeat split; try lia; try congruence.
  - unfold record_failures. cbn [fold_left].
    fold (record_failures (record_failure self t) clock).
    destruct (record_failure_config self t) as [Ecfg1 Ecfg2].
    pose proof (record_failure_count self t Hth) as Ecnt.
    specialize (IH (record_failure self t)).
    rewrite Ecfg1, Ecfg2, Ecnt in IH.
    destruct (IH Hth Hcd) as (I1 & I2 & I3 & I4 & I5).
    rewrite I1, I2, I3.
    replace (Z.of_nat (length (t :: clock))) with (1 + Z.of_nat (length clock))%Z
      by (cbn [length]; lia).
    repeat split; try lia.
    + intros Hlt. rewrite I4 by lia.
      rewrite (record_failure_below self Hth t) by lia. reflexivity.
    + intros _ Hge. destruct clock as [|t' clock'].
      * cbn [length Z.of_nat] in Hge. unfold record_failures.
        cbn [fold_left List.last].
        rewrite (record_failure_trips self Hth Hcd t) by lia. reflexivity.
      * rewrite I5; [reflexivity|congruence|lia].
Qed.

End BreakerFacts.

Import Py CircuitBreaker NanoBanana Pipeline Tasks Celery Api Spec BreakerFacts.

Lemma record_success_closed (self : _CircuitBreaker) : is_closed (record_success self).
Proof.
  intros t. unfold allow. cbn [record_success _threshold _cooldown _opened_at].
  destruct (_ || _); reflexivity.
Qed.

Lemma untripped_closed (self : _CircuitBreaker) :
  (0 < _threshold self)%Z -> (0 < _cooldown self)%Q ->
  _opened_at self = 0%Q -> is_closed self.
Proof.
  intros Hth Hcd H0 t. apply allow_not_opened; try assumption.
  rewrite H0. reflexivity.
Qed.

(** C3. For a breaker with threshold > 0 and cooldown > 0, and a clock
    reading [now] other than the value 0.0 that _opened_at uses for "not
    open": record_failure adds one to the failure counter; when the
    counter reaches the threshold the breaker opens with
    _opened_at = now, and from then on allow() answers false (and leaves
    the breaker as it is) at every time t with t - now < cooldown, and
    answers true once t - now >= cooldown; record_success, on any breaker
    state, sets the counter to 0 and _opened_at to 0.0, after which
    allow() answers true at every time. *)
Theorem breaker_opens_at_threshold_until_cooldown
    (self : _CircuitBreaker) (now : Q) :
  (0 < _threshold self)%Z -> (0 < _cooldown self)%Q -> ~ (now == 0)%Q ->
  _failures (record_failure self now) = (_failures self + 1)%Z /\
  ((_threshold self <= _failures self + 1)%Z ->
     _opened_at (record_failure self now) = now /\
     (forall t : Q, (t - now < _cooldown self)%Q ->
                    is_open (record_failure self now) t) /\
     (forall t : Q, (_cooldown self <= t - now)%Q ->
                    fst (allow (record_failure self now) t) = true)) /\
  (forall any : _CircuitBreaker,
     _failures (record_success any) = 0%Z /\
     _opened_at (record_success any) = 0%Q /\
     is_closed (record_success any)).
Proof.
  intros Hth Hcd Hnow. split; [|split].
  - apply record_failure_count. exact Hth.
  - intros Hreach.
    rewrite (record_failure_trips self Hth Hcd now Hreach).
    split; [reflexivity|]. split.
    + intros t Hin. apply allow_within_cooldown; assumption.
    + intros t Hout.
      rewrite allow_after_cooldown by assumption. reflexivity.
  - intros any. repeat split. apply record_success_closed.
Qed.

Lemma breaker_opens_at_threshold_until_cooldown_witness :
  let self := {| _threshold := 5; _cooldown := 60; _failures := 4; _opened_at := 0 |} in
  _failures (record_failure self 100) = 5%Z /\
  _opened_at (record_failure self 100) = 100%Q /\
  is_open (record_failure self 100) 159 /\
  fst (allow (record_failure self 100) 160) = true.
Proof.
  intros self.
  destruct (breaker_opens_at_threshold_until_cooldown self 100)
    as (Hcount & Hopen & _).
  - reflexivity.
  - reflexivity.
  - intros H. discriminate H.
  - destruct Hopen as (Hat & Hin & Hout).
    + cbn. lia.
    + split; [exact Hcount|]. split; [exact Hat|]. split.
      * apply Hin. reflexivity.
      * apply Hout. cbn. discriminate.
Defined.

(** C10. On a tripped breaker (threshold > 0, cooldown > 0, _opened_at
    set) whose cooldown has elapsed at time [now], allow() answers true
    and leaves the failure counter at 0 and _opened_at at 0.0.  From that
    state: with threshold > 1 one recorded failure gives the counter 1 and
    leaves the breaker closed; any run of fewer than threshold failures
    leaves it closed; a run of exactly threshold failures (the last one at
    a clock reading other than 0.0) opens it again, at the time of the
    last of them. *)
Theorem half_open_probe_needs_fresh_failures
    (self : _CircuitBreaker) (now : Q) :
  (0 < _threshold self)%Z -> (0 < _cooldown self)%Q ->
  ~ (_opened_at self == 0)%Q ->
  (_cooldown self <= now - _opened_at self)%Q ->
  fst (allow self now) = true /\
  _failures (snd (allow self now)) = 0%Z /\
  _opened_at (snd (allow self now)) = 0%Q /\
  ((1 < _threshold self)%Z ->
     forall t : Q,
       _failures (record_failure (snd (allow self now)) t) = 1%Z /\
       is_closed (record_failure (snd (allow self now)) t)) /\
  (forall clock : list Q,
     (Z.of_nat (length clock) < _threshold self)%Z ->
     is_closed (record_failures (snd (allow self now)) clock)) /\
  (forall clock : list Q,
     Z.of_nat (length clock) = _threshold self ->
     ~ (List.last clock 0 == 0)%Q ->
     _opened_at (record_failures (snd (allow self now)) clock) = List.last clock 0%Q /\
     forall t : Q, (t - List.last clock 0 < _cooldown self)%Q ->
                   is_open (record_failures (snd (allow self now)) clock) t).
Proof.
  intros Hth Hcd Hset Helapsed.
  rewrite (allow_after_cooldown self Hth Hcd now Hset Helapsed).
  cbn [fst snd].
  set (reset := {| _threshold := _threshold self; _cooldown := _cooldown self;
                   _failures := 0; _opened_at := 0 |}).
  assert (Hth' : (0 < _threshold reset)%Z) by exact Hth.
  assert (Hcd' : (0 < _cooldown reset)%Q) by exact Hcd.
  split; [reflexivity|]. split; [reflexivity|]. split; [reflexivity|].
  split; [|split].
  - intros Hmany t.
    rewrite (record_failure_below reset Hth' t) by (cbn; lia).
    split; [reflexivity|].
    apply untripped_closed; [exact Hth | exact Hcd | reflexivity].
  - intros clock Hfew.
    destruct (record_failures_run clock reset Hth' Hcd') as (E1 & E2 & _ & E4 & _).
    apply untripped_closed.
    + rewrite E1. exact Hth.
    + rewrite E2. exact Hcd.
    + rewrite E4; [reflexivity|]. cbn. lia.
  - intros clock Hlen Hlast.
    destruct (record_failures_run clock reset Hth' Hcd') as (E1 & E2 & _ & _ & E5).
    assert (Hat : _opened_at (record_failures reset clock) = List.last clock 0%Q).
    { apply E5.
      - intros ->. cbn in Hlen. cbn in Hth. lia.
      - cbn. lia. }
    split; [exact Hat|].
    intros t Hin. apply allow_within_cooldown.
    + rewrite E1. exact Hth.
    + rewrite E2. exact Hcd.
    + rewrite Hat. exact Hlast.
    + rewrite Hat, E2. exact Hin.
Qed.

Lemma half_open_probe_needs_fresh_failures_witness :
  let self := {| _threshold := 2; _cooldown := 60; _failures := 2; _opened_at := 100 |} in
  fst (allow self 160) = true /\
  _failures (record_failure (snd (allow self 160)) 161) = 1%Z /\
  is_closed (record_failure (snd (allow self 160)) 161) /\
  _opened_at (record_failures (snd (allow self 160)) [161; 170]%Q) = 170%Q.
Proof.
  intros self.
  destruct (half_open_probe_needs_fresh_failures self 160)
    as (Hallow & _ & _ & Hprobe & _ & Hrun).
  - reflexivity.
  - reflexivity.
  - intros H. discriminate H.
  - cbn. discriminate.
  - split; [exact Hallow|].
    destruct (Hprobe ltac:(reflexivity) 161%Q) as [Hone Hclosed].
    split; [exact Hone|]. split; [exact Hclosed|].
    apply (Hrun [161; 170]%Q).
    + reflexivity.
    + intros H. discriminate H.
Defined.

(* ===================================================================== *)
(* The time-out                                                          *)
(* ===================================================================== *)

Lemma Qmax_of_lt (x y : Q) : (x < y)%Q -> Qmax x y = y.
Proof.
  intros Hlt.
  assert (E : Qcompare x y = Lt) by (apply Qlt_alt; exact Hlt).
  unfold Qmax, GenericMinMax.gmax. now rewrite E.
Qed.

(** C1. What the code does with a call that outlasts its time-out: for
    every timeout > 0 and every call that returns after [seconds] seconds
    with timeout < seconds, _call_with_timeout raises the TimeoutError
    "Gemini request timed out." (which _is_retryable_error accepts), but
    only when the call has ended, [seconds] seconds after the start and
    not timeout seconds after it: leaving the `with ThreadPoolExecutor`
    block joins the worker thread.  For a call that never comes back,
    _call_with_timeout does not return at all. *)
Theorem call_with_timeout_waits_for_the_call
    (timeout_seconds seconds : Q) (r : response) :
  (0 < timeout_seconds)%Q -> (timeout_seconds < seconds)%Q ->
  _call_with_timeout (Returns seconds r) timeout_seconds
    = Some (seconds, Err (raise_ TimeoutError "Gemini request timed out.")) /\
  _is_retryable_error (raise_ TimeoutError "Gemini request timed out.") = true /\
  _call_with_timeout Hangs timeout_seconds = None.
Proof.
  intros Hpos Hlate. unfold _call_with_timeout.
  replace (Qle_bool timeout_seconds 0) with false
    by (symmetry; apply Qle_bool_false; exact Hpos).
  cbn [future_result executor_exit].
  replace (Qle_bool seconds timeout_seconds) with false
    by (symmetry; apply Qle_bool_false; exact Hlate).
  cbn. rewrite (Qmax_of_lt _ _ Hlate). repeat split.
Qed.

Lemma call_with_timeout_waits_for_the_call_witness :
  _call_with_timeout (Returns 3600 []) 60
    = Some (3600%Q, Err (raise_ TimeoutError "Gemini request timed out.")) /\
  _call_with_timeout Hangs 60 = None.
Proof.
  destruct (call_with_timeout_waits_for_the_call 60 3600 [])
    as (Hlate & _ & Hnever).
  - reflexivity.
  - reflexivity.
  - split; [exact Hlate | exact Hnever].
Defined.

(* ===================================================================== *)
(* The backoff delay                                                     *)
(* ===================================================================== *)

Lemma pow2_nonneg (attempt : Z) : (0 <= inject_Z (2 ^ attempt))%Q.
Proof.
  unfold Qle. cbn [Qnum Qden inject_Z].
  pose proof (Z.pow_nonneg 2 attempt). lia.
Qed.

Lemma jitter_bounds (m u : Q) :
  (0 <= m)%Q -> (3 # 4 <= u)%Q -> (u <= 5 # 4)%Q ->
  ((3 # 4) * m <= m * u)%Q /\ (m * u <= (5 # 4) * m)%Q.
Proof. intros Hm Hlo Hhi. split; nra. Qed.

(** C8, counterexample.  With base = 1, cap = 0 (the value that switches
    the cap off), attempt = 0 and the jitter 1 the delay is 1 second, not
    min(1 * 2^0, 0) * 1 = 0. *)
Lemma backoff_without_cap_counterexample :
  ~ backoff_as_specified 1 0 0 1.
Proof.
  unfold backoff_as_specified. vm_compute. intros H. discriminate H.
Qed.

(** C8, amended.  For every attempt index k >= 0 and every jitter u in
    [0.75, 1.25]: when base > 0 and cap > 0 the delay is
    min(base * 2^k, cap) * u, which lies between 0.75 and 1.25 times
    min(base * 2^k, cap); when base > 0 and cap <= 0 there is no cap and
    the delay is base * 2^k * u, between 0.75 and 1.25 times base * 2^k;
    when base <= 0 the delay is 0. *)
Theorem backoff_delay_capped_when_cap_positive
    (base cap : Q) (attempt : Z) (u : Q) :
  (0 <= attempt)%Z -> (3 # 4 <= u)%Q -> (u <= 5 # 4)%Q ->
  ((0 < base)%Q -> (0 < cap)%Q ->
     backoff_as_specified base cap attempt u /\
     ((3 # 4) * Qmin (base * inject_Z (2 ^ attempt)) cap
        <= _compute_backoff base cap attempt u)%Q /\
     (_compute_backoff base cap attempt u
        <= (5 # 4) * Qmin (base * inject_Z (2 ^ attempt)) cap)%Q) /\
  ((0 < base)%Q -> (cap <= 0)%Q ->
     _compute_backoff base cap attempt u = (base * inject_Z (2 ^ attempt) * u)%Q /\
     ((3 # 4) * (base * inject_Z (2 ^ attempt))
        <= _compute_backoff base cap attempt u)%Q /\
     (_compute_backoff base cap attempt u
        <= (5 # 4) * (base * inject_Z (2 ^ attempt)))%Q) /\
  ((base <= 0)%Q -> _compute_backoff base cap attempt u = 0%Q).
Proof.
  intros _ Hlo Hhi.
  pose proof (pow2_nonneg attempt) as Hpow.
  split; [|split].
  - intros Hbase Hcap. unfold backoff_as_specified, _compute_backoff.
    replace (Qle_bool base 0) with false
      by (symmetry; apply Qle_bool_false; exact Hbase).
    replace (Qle_bool cap 0) with false
      by (symmetry; apply Qle_bool_false; exact Hcap).
    cbn [negb].
    assert (Hmin : (0 <= Qmin (base * inject_Z (2 ^ attempt)) cap)%Q).
    { apply Q.min_glb; nra. }
    split; [reflexivity|]. apply jitter_bounds; assumption.
  - intros Hbase Hcap. unfold _compute_backoff.
    replace (Qle_bool base 0) with false
      by (symmetry; apply Qle_bool_false; exact Hbase).
    replace (Qle_bool cap 0) with true
      by (symmetry; apply Qle_bool_iff; exact Hcap).
    cbn [negb]. split; [reflexivity|].
    apply jitter_bounds; try assumption. nra.
  - intros Hbase. unfold _compute_backoff.
    replace (Qle_bool base 0) with true
      by (symmetry; apply Qle_bool_iff; exact Hbase).
    reflexivity.
Qed.

Lemma backoff_delay_capped_when_cap_positive_witness :
  backoff_as_specified 1 8 4 (5 # 4) /\
  _compute_backoff 1 0 4 (5 # 4) = (1 * inject_Z (2 ^ 4) * (5 # 4))%Q /\
  _compute_backoff 0 8 4 (5 # 4) = 0%Q.
Proof.
  destruct (backoff_delay_capped_when_cap_positive 1 8 4 (5 # 4))
    as (Hcapped & _ & _).
  - lia.
  - cbn. discriminate.
  - cbn. discriminate.
  - destruct (backoff_delay_capped_when_cap_positive 1 0 4 (5 # 4))
      as (_ & Hfree & _).
    + lia.
    + cbn. discriminate.
    + cbn. discriminate.
    + destruct (backoff_delay_capped_when_cap_positive 0 8 4 (5 # 4))
        as (_ & _ & Hzero).
      * lia.
      * cbn. discriminate.
      * cbn. discriminate.
      * split; [apply Hcapped; reflexivity|].
        split; [apply Hfree; [reflexivity | cbn; discriminate]|].
        apply Hzero. cbn. discriminate.
Defined.

(* ===================================================================== *)
(* The retry loop                                                        *)
(* ===================================================================== *)

Section RetryLoop.

Variable self : NanoBananaEditor.
Variable env : provider.

Lemma retry_loop_success (fuel : nat) (retries : Z) (w : world) (seconds : Q)
    (r : response) :
  _call_with_timeout (call_fn env (attempts w)) (_timeout_seconds self)
    = Some (seconds, Ok r) ->
  retry_loop (S fuel) self env retries w
    = Finished (Ok r)
        (set_breaker (record_success (breaker w)) (after_call seconds w)).
Proof. intros E. cbn [retry_loop]. rewrite E. reflexivity. Qed.

Lemma fails_retryably_inv (n : nat) :
  fails_retryably self env n = true ->
  exists seconds exc,
    _call_with_timeout (call_fn env n) (_timeout_seconds self)
      = Some (seconds, Err exc) /\
    _is_retryable_error exc = true.
Proof.
  unfold fails_retryably.
  destruct (_call_with_timeout _ _) as [[seconds [r|exc]]|]; try discriminate.
  intros E. exists seconds, exc. split; [reflexivity | exact E].
Qed.

Lemma fails_fatally_inv (n : nat) :
  fails_fatally self env n = true ->
  exists seconds exc,
    _call_with_timeout (call_fn env n) (_timeout_seconds self)
      = Some (seconds, Err exc) /\
    _is_retryable_error exc = false.
Proof.
  unfold fails_fatally.
  destruct (_call_with_timeout _ _) as [[seconds [r|exc]]|]; try discriminate.
  intros E. exists seconds, exc. split; [reflexivity|].
  now apply negb_true_iff.
Qed.

(* A retryable failure with budget left: one sleep, then the loop again. *)
Lemma retry_loop_retry (fuel : nat) (retries : Z) (w : world) :
  fails_retryably self env (attempts w) = true ->
  (retries < _max_retries self)%Z ->
  exists seconds,
    retry_loop (S fuel) self env retries w
      = retry_loop fuel self env (retries + 1)
          (sleep (_compute_backoff (_backoff_base self) (_backoff_max self)
                    retries (uniform env (length (slept w))))
             (after_failure seconds w)).
Proof.
  intros Hfail Hbudget.
  destruct (fails_retryably_inv _ Hfail) as (seconds & exc & E & Hretry).
  exists seconds. cbn [retry_loop]. rewrite E, Hretry. cbn [negb].
  replace (_max_retries self <=? retries)%Z with false
    by (symmetry; apply Z.leb_gt; exact Hbudget).
  reflexivity.
Qed.

(* A retryable failure with the budget used up. *)
Lemma retry_loop_exhausted (fuel : nat) (retries : Z) (w : world) :
  fails_retryably self env (attempts w) = true ->
  (_max_retries self <= retries)%Z ->
  exists seconds,
    retry_loop (S fuel) self env retries w
      = Finished (Err (raise_ NanoBananaRetryableError
                         "AI generation failed; please retry."))
          (after_failure seconds w).
Proof.
  intros Hfail Hbudget.
  destruct (fails_retryably_inv _ Hfail) as (seconds & exc & E & Hretry).
  exists seconds. cbn [retry_loop]. rewrite E, Hretry. cbn [negb].
  replace (_max_retries self <=? retries)%Z with true
    by (symmetry; apply Z.leb_le; exact Hbudget).
  reflexivity.
Qed.

(* A failure that is not retryable. *)
Lemma retry_loop_fatal (fuel : nat) (retries : Z) (w : world) :
  fails_fatally self env (attempts w) = true ->
  exists seconds,
    retry_loop (S fuel) self env retries w
      = Finished (Err (raise_ NanoBananaError "AI request failed."))
          (after_failure seconds w).
Proof.
  intros Hfail.
  destruct (fails_fatally_inv _ Hfail) as (seconds & exc & E & Hretry).
  exists seconds. cbn [retry_loop]. rewrite E, Hretry. reflexivity.
Qed.

Lemma after_failure_fields (seconds : Q) (w : world) :
  attempts (after_failure seconds w) = S (attempts w) /\
  slept (after_failure seconds w) = slept w /\
  _threshold (breaker (after_failure seconds w)) = _threshold (breaker w) /\
  _cooldown (breaker (after_failure seconds w)) = _cooldown (breaker w) /\
  ((0 < _threshold (breaker w))%Z ->
   _failures (breaker (after_failure seconds w)) = (_failures (breaker w) + 1)%Z).
Proof.
  unfold after_failure. cbn [set_breaker after_call attempts slept breaker clock].
  destruct (record_failure_config (breaker w) (clock w + seconds)) as [E1 E2].
  repeat split; try assumption.
  apply record_failure_count.
Qed.

(* [k] retryable failures in a row while the budget lasts: the loop runs
   [k] times, sleeping once after each failure, and goes on from a world
   with [k] more invocations, [k] more sleeps and [k] more failures on
   the breaker. *)
Lemma retry_loop_retryable_prefix (k : nat) :
  forall (fuel : nat) (retries : Z) (w : world),
    (retries + Z.of_nat k <= _max_retries self)%Z ->
    (forall i, (i < k)%nat -> fails_retryably self env (attempts w + i) = true) ->
    exists w',
      retry_loop (k + fuel) self env retries w
        = retry_loop fuel self env (retries + Z.of_nat k) w' /\
      attempts w' = (attempts w + k)%nat /\
      slept w' = slept w ++ backoff_delays self env k retries (length (slept w)) /\
      _threshold (breaker w') = _threshold (breaker w) /\
      _cooldown (breaker w') = _cooldown (breaker w) /\
      ((0 < _threshold (breaker w))%Z ->
       _failures (breaker w') = (_failures (breaker w) + Z.of_nat k)%Z).
Proof.
  induction k as [|k IH]; intros fuel retries w Hbudget Hfail.
  - exists w. cbn [Nat.add backoff_delays Z.of_nat].
    rewrite Z.add_0_r, Nat.add_0_r, app_nil_r.
    repeat split. intros _. lia.
  - assert (Hfirst : fails_retryably self env (attempts w) = true).
    { rewrite <- (Nat.add_0_r (attempts w)). apply Hfail. lia. }
    destruct (retry_loop_retry (k + fuel) retries w Hfirst ltac:(lia))
      as (seconds & Estep).
    set (delay := _compute_backoff (_backoff_base self) (_backoff_max self)
                    retries (uniform env (length (slept w)))) in *.
    destruct (after_failure_fields seconds w) as (A1 & A2 & A3 & A4 & A5).
    destruct (IH fuel (retries + 1)%Z (sleep delay (after_failure seconds w)))
      as (w' & Eloop & B1 & B2 & B3 & B4 & B5).
    + lia.
    + intros i Hi. cbn [sleep attempts]. rewrite A1.
      replace (S (attempts w) + i)%nat with (attempts w + S i)%nat by lia.
      apply Hfail. lia.
    + exists w'. cbn [sleep attempts slept breaker] in *.
      split.
      { cbn [Nat.add]. rewrite Estep, Eloop. f_equal. lia. }
      split; [lia|].
      split.
      { rewrite B2, A2, <- app_assoc, length_app. cbn [length app backoff_delays].
        rewrite Nat.add_1_r. reflexivity. }
      split; [congruence|]. split; [congruence|].
      intros Hth. rewrite B5 by (rewrite A3; exact Hth).
      rewrite A5 by exact Hth. lia.
Qed.

(* The loop never runs out of the fuel _generate_with_retries gives it,
   and makes at most (_max_retries - retries) further sleeps and one more
   invocation than that. *)
Lemma retry_loop_bounded (fuel : nat) :
  forall (retries : Z) (w : world),
    (Z.max 0 (_max_retries self - retries) < Z.of_nat fuel)%Z ->
    match retry_loop fuel self env retries w with
    | OutOfFuel => False
    | Blocked => True
    | Finished _ w' =>
        (Z.of_nat (attempts w')
           <= Z.of_nat (attempts w) + Z.max 0 (_max_retries self - retries) + 1)%Z /\
        (Z.of_nat (length (slept w'))
           <= Z.of_nat (length (slept w)) + Z.max 0 (_max_retries self - retries))%Z
    end.
Proof.
  induction fuel as [|fuel IH]; intros retries w Hfuel.
  - cbn in Hfuel. lia.
  - cbn [retry_loop].
    destruct (_call_with_timeout _ _) as [[seconds [r|exc]]|]; [| |exact I].
    + cbn [set_breaker after_call attempts slept]. lia.
    + destruct (_is_retryable_error exc); cbn [negb].
      * destruct (Z.leb_spec (_max_retries self) retries) as [Hout|Hleft].
        -- cbn [set_breaker after_call attempts slept]. lia.
        -- match goal with
           | |- context [retry_loop fuel self env (retries + 1)%Z ?w1] =>
               specialize (IH (retries + 1)%Z w1 ltac:(lia));
               destruct (retry_loop fuel self env (retries + 1)%Z w1)
                 as [a w'| |]; [|exact I|exact IH]
           end.
           cbn [sleep set_breaker after_call attempts slept] in IH.
           rewrite length_app in IH. cbn [length] in IH. lia.
      * cbn [set_breaker after_call attempts slept]. lia.
Qed.

End RetryLoop.

Section ResilientCall.

Variable self : NanoBananaEditor.
Variable env : provider.
Variable w : world.
Hypothesis max_retries_nonneg : (0 <= _max_retries self)%Z.
Hypothesis allowed : fst (allow (breaker w) (clock w)) = true.

Lemma generate_enters_loop :
  _generate_with_retries self env w
    = retry_loop (S (Z.to_nat (_max_retries self))) self env 0
        (set_breaker (snd (allow (breaker w) (clock w))) w).
Proof.
  unfold _generate_with_retries.
  destruct (allow (breaker w) (clock w)) as [ok b].
  cbn [fst snd] in *. subst ok. reflexivity.
Qed.

(* [k] retryable failures, k <= _max_retries, bring the loop to its turn
   number k with k sleeps made. *)
Lemma generate_after_retryable (k fuel : nat) :
  (k + fuel = S (Z.to_nat (_max_retries self)))%nat -> (0 < fuel)%nat ->
  (forall i, (i < k)%nat -> fails_retryably self env (attempts w + i) = true) ->
  exists w',
    _generate_with_retries self env w
      = retry_loop fuel self env (Z.of_nat k) w' /\
    attempts w' = (attempts w + k)%nat /\
    slept w' = slept w ++ backoff_delays self env k 0 (length (slept w)) /\
    _threshold (breaker w') = _threshold (snd (allow (breaker w) (clock w))) /\
    ((0 < _threshold (snd (allow (breaker w) (clock w))))%Z ->
     _failures (breaker w')
       = (_failures (snd (allow (breaker w) (clock w))) + Z.of_nat k)%Z).
Proof.
  intros Hfuel Hpos Hfail.
  rewrite generate_enters_loop, <- Hfuel.
  destruct (retry_loop_retryable_prefix self env k fuel 0%Z
              (set_breaker (snd (allow (breaker w) (clock w))) w))
    as (w' & E & A1 & A2 & A3 & _ & A5).
  - lia.
  - exact Hfail.
  - exists w'. cbn [set_breaker attempts slept breaker] in *.
    rewrite Z.add_0_l in E. repeat split; assumption.
Qed.

(* _max_retries retryable failures, then a success. *)
Lemma generate_succeeds_after_retries (r : response) :
  (forall i, (i < Z.to_nat (_max_retries self))%nat ->
             fails_retryably self env (attempts w + i) = true) ->
  succeeds_with self env (attempts w + Z.to_nat (_max_retries self)) r ->
  exists w',
    _generate_with_retries self env w = Finished (Ok r) w' /\
    attempts w' = (attempts w + Z.to_nat (_max_retries self) + 1)%nat /\
    slept w' = slept w ++ backoff_delays self env (Z.to_nat (_max_retries self))
                            0 (length (slept w)) /\
    _failures (breaker w') = 0%Z /\ _opened_at (breaker w') = 0%Q.
Proof.
  intros Hfail (seconds & Hok).
  destruct (generate_after_retryable (Z.to_nat (_max_retries self)) 1)
    as (w1 & E & A1 & A2 & _); [lia | lia | exact Hfail |].
  rewrite <- A1 in Hok.
  rewrite E, (retry_loop_success self env 0 _ w1 seconds r Hok).
  eexists. split; [reflexivity|].
  cbn [set_breaker after_call attempts slept breaker record_success
       _failures _opened_at].
  repeat split; [lia | exact A2].
Qed.

(* _max_retries + 1 retryable failures. *)
Lemma generate_exhausts_retries :
  (forall i, (i <= Z.to_nat (_max_retries self))%nat ->
             fails_retryably self env (attempts w + i) = true) ->
  exists w',
    _generate_with_retries self env w
      = Finished (Err (raise_ NanoBananaRetryableError
                         "AI generation failed; please retry.")) w' /\
    attempts w' = (attempts w + Z.to_nat (_max_retries self) + 1)%nat /\
    slept w' = slept w ++ backoff_delays self env (Z.to_nat (_max_retries self))
                            0 (length (slept w)) /\
    ((0 < _threshold (snd (allow (breaker w) (clock w))))%Z ->
     _failures (breaker w')
       = (_failures (snd (allow (breaker w) (clock w))) + _max_retries self + 1)%Z).
Proof.
  intros Hfail.
  destruct (generate_after_retryable (Z.to_nat (_max_retries self)) 1)
    as (w1 & E & A1 & A2 & A3 & A4); [lia | lia | |].
  { intros i Hi. apply Hfail. lia. }
  destruct (retry_loop_exhausted self env 0
              (Z.of_nat (Z.to_nat (_max_retries self))) w1)
    as (seconds & Elast).
  { rewrite A1. apply Hfail. lia. }
  { lia. }
  rewrite E, Elast. eexists. split; [reflexivity|].
  destruct (after_failure_fields seconds w1) as (B1 & B2 & _ & _ & B5).
  rewrite B1, B2, A1, A2.
  repeat split; [lia|].
  intros Hth. rewrite B5 by (rewrite A3; exact Hth).
  rewrite A4 by exact Hth. lia.
Qed.

(* [k] retryable failures, then one that is not retryable. *)
Lemma generate_aborts_on_fatal (k : nat) :
  (k <= Z.to_nat (_max_retries self))%nat ->
  (forall i, (i < k)%nat -> fails_retryably self env (attempts w + i) = true) ->
  fails_fatally self env (attempts w + k) = true ->
  exists w',
    _generate_with_retries self env w
      = Finished (Err (raise_ NanoBananaError "AI request failed.")) w' /\
    attempts w' = (attempts w + k + 1)%nat /\
    slept w' = slept w ++ backoff_delays self env k 0 (length (slept w)).
Proof.
  intros Hk Hfail Hfatal.
  destruct (generate_after_retryable k (S (Z.to_nat (_max_retries self) - k)))
    as (w1 & E & A1 & A2 & _); [lia | lia | exact Hfail |].
  destruct (retry_loop_fatal self env (Z.to_nat (_max_retries self) - k)
              (Z.of_nat k) w1)
    as (seconds & Elast).
  { rewrite A1. exact Hfatal. }
  rewrite E, Elast. eexists. split; [reflexivity|].
  destruct (after_failure_fields seconds w1) as (B1 & B2 & _).
  rewrite B1, B2, A1, A2. split; [lia | reflexivity].
Qed.

(* Whatever the provider does, the call makes at most _max_retries + 1
   invocations and at most _max_retries sleeps, and the loop ends within
   its fuel. *)
Lemma generate_bounded :
  match _generate_with_retries self env w with
  | OutOfFuel => False
  | Blocked => True
  | Finished _ w' =>
      (attempts w' <= attempts w + Z.to_nat (_max_retries self) + 1)%nat /\
      (length (slept w') <= length (slept w) + Z.to_nat (_max_retries self))%nat
  end.
Proof.
  rewrite generate_enters_loop.
  pose proof (retry_loop_bounded self env (S (Z.to_nat (_max_retries self))) 0%Z
                (set_breaker (snd (allow (breaker w) (clock w))) w)) as H.
  destruct (retry_loop _ _ _ _ _) as [a w'| |].
  - cbn [set_breaker attempts slept] in H. lia.
  - exact I.
  - apply H. lia.
Qed.

End ResilientCall.

Lemma backoff_delays_length (self : NanoBananaEditor) (env : provider) (k : nat) :
  forall (retries : Z) (draw : nat),
    length (backoff_delays self env k retries draw) = k.
Proof.
  induction k as [|k IH]; intros retries draw; cbn [backoff_delays length].
  - reflexivity.
  - now rewrite IH.
Qed.

(** C2. For an editor with max_retries >= 0 whose breaker lets the call
    through: (a) if the operation fails with a retryable error
    max_retries times and then succeeds, the call returns that success,
    after max_retries + 1 invocations and one backoff sleep before each
    retry; (b) if every attempt fails retryably the call raises
    NanoBananaRetryableError "AI generation failed; please retry." after
    max_retries retries (max_retries + 1 invocations, max_retries
    sleeps); (c) if an attempt fails with an error that is not retryable
    the call raises NanoBananaError "AI request failed." at once: no
    sleep follows that attempt and no retry is counted, so the sleeps are
    those of the retryable failures before it (none when it is the first
    attempt); (d) in every case the call makes at most max_retries
    retries: at most max_retries sleeps and max_retries + 1 invocations,
    and the loop ends. *)
Theorem generate_with_retries_policy
    (self : NanoBananaEditor) (env : provider) (w : world) :
  (0 <= _max_retries self)%Z ->
  fst (allow (breaker w) (clock w)) = true ->
  (forall r : response,
     (forall i, (i < Z.to_nat (_max_retries self))%nat ->
                fails_retryably self env (attempts w + i) = true) ->
     succeeds_with self env (attempts w + Z.to_nat (_max_retries self)) r ->
     exists w',
       _generate_with_retries self env w = Finished (Ok r) w' /\
       attempts w' = (attempts w + Z.to_nat (_max_retries self) + 1)%nat /\
       slept w' = slept w ++ backoff_delays self env (Z.to_nat (_max_retries self))
                               0 (length (slept w))) /\
  ((forall i, (i <= Z.to_nat (_max_retries self))%nat ->
              fails_retryably self env (attempts w + i) = true) ->
   exists w',
     _generate_with_retries self env w
       = Finished (Err (raise_ NanoBananaRetryableError
                          "AI generation failed; please retry.")) w' /\
     attempts w' = (attempts w + Z.to_nat (_max_retries self) + 1)%nat /\
     slept w' = slept w ++ backoff_delays self env (Z.to_nat (_max_retries self))
                             0 (length (slept w))) /\
  (forall k : nat,
     (k <= Z.to_nat (_max_retries self))%nat ->
     (forall i, (i < k)%nat -> fails_retryably self env (attempts w + i) = true) ->
     fails_fatally self env (attempts w + k) = true ->
     exists w',
       _generate_with_retries self env w
         = Finished (Err (raise_ NanoBananaError "AI request failed.")) w' /\
       attempts w' = (attempts w + k + 1)%nat /\
       slept w' = slept w ++ backoff_delays self env k 0 (length (slept w))) /\
  match _generate_with_retries self env w with
  | OutOfFuel => False
  | Blocked => True
  | Finished _ w' =>
      (attempts w' <= attempts w + Z.to_nat (_max_retries self) + 1)%nat /\
      (length (slept w') <= length (slept w) + Z.to_nat (_max_retries self))%nat
  end.
Proof.
  intros Hmax Hallow. split; [|split; [|split]].
  - intros r Hfail Hok.
    destruct (generate_succeeds_after_retries self env w Hmax Hallow r Hfail Hok)
      as (w' & E & A1 & A2 & _).
    exists w'. auto.
  - intros Hfail.
    destruct (generate_exhausts_retries self env w Hmax Hallow Hfail)
      as (w' & E & A1 & A2 & _).
    exists w'. auto.
  - intros k Hk Hfail Hfatal.
    exact (generate_aborts_on_fatal self env w Hmax Hallow k Hk Hfail Hfatal).
  - exact (generate_bounded self env w Hallow).
Qed.

Lemma generate_with_retries_policy_witness :
  (exists w',
     _generate_with_retries Examples.editor Examples.flaky Examples.fresh_world
       = Finished (Ok [Some "PNG"%string]) w' /\
     attempts w' = 3%nat /\
     slept w' = [] ++ backoff_delays Examples.editor Examples.flaky 2 0 0) /\
  (exists w',
     _generate_with_retries Examples.editor Examples.always_400 Examples.fresh_world
       = Finished (Err (raise_ NanoBananaError "AI request failed.")) w' /\
     attempts w' = 1%nat /\
     slept w' = []).
Proof.
  split.
  - destruct (generate_with_retries_policy
                Examples.editor Examples.flaky Examples.fresh_world)
      as (Hsuccess & _).
    + cbn. lia.
    + reflexivity.
    + apply (Hsuccess [Some "PNG"%string]).
      * intros [|[|i]] Hi; [reflexivity | reflexivity | cbn in Hi; lia].
      * exists 1%Q. reflexivity.
  - destruct (generate_with_retries_policy
                Examples.editor Examples.always_400 Examples.fresh_world)
      as (_ & _ & Hfatal & _).
    + cbn. lia.
    + reflexivity.
    + apply (Hfatal 0%nat).
      * cbn. lia.
      * intros i Hi. lia.
      * reflexivity.
Defined.

(** C4. When the breaker is open at the start of the call (allow()
    answers false), _generate_with_retries raises
    NanoBananaRetryableError "AI temporarily unavailable; please retry."
    and leaves the world as it was: no invocation of the operation, no
    sleep, no time spent, the breaker unchanged.  In particular, for a
    breaker with threshold 5 and cooldown > 0 whose counter was 0, after
    5 consecutive failures (the last at a clock reading [opened] other
    than 0.0) every call started before opened + cooldown fails in this
    way. *)
Theorem open_breaker_fails_without_calling
    (self : NanoBananaEditor) (env : provider) (w : world)
    (b : _CircuitBreaker) (failures : list Q) :
  (is_open (breaker w) (clock w) ->
   _generate_with_retries self env w
     = Finished (Err (raise_ NanoBananaRetryableError
                        "AI temporarily unavailable; please retry.")) w) /\
  (_threshold b = 5%Z -> (0 < _cooldown b)%Q -> _failures b = 0%Z ->
   length failures = 5%nat -> ~ (List.last failures 0 == 0)%Q ->
   breaker w = record_failures b failures ->
   (clock w - List.last failures 0 < _cooldown b)%Q ->
   _generate_with_retries self env w
     = Finished (Err (raise_ NanoBananaRetryableError
                        "AI temporarily unavailable; please retry.")) w).
Proof.
  assert (Hfast : is_open (breaker w) (clock w) ->
                  _generate_with_retries self env w
                  = Finished (Err (raise_ NanoBananaRetryableError
                                     "AI temporarily unavailable; please retry.")) w).
  { intros Hopen. unfold _generate_with_retries. rewrite Hopen. cbn [negb].
    destruct w; reflexivity. }
  split; [exact Hfast|].
  intros Hth Hcd Hzero Hlen Hlast Hb Hin. apply Hfast.
  assert (Hth' : (0 < _threshold b)%Z) by lia.
  destruct (record_failures_run failures b Hth' Hcd) as (E1 & E2 & _ & _ & E5).
  assert (Hat : _opened_at (record_failures b failures) = List.last failures 0%Q).
  { apply E5; [intros ->; discriminate Hlen | lia]. }
  unfold is_open. rewrite Hb. apply allow_within_cooldown.
  - rewrite E1. exact Hth'.
  - rewrite E2. exact Hcd.
  - rewrite Hat. exact Hlast.
  - rewrite Hat, E2. exact Hin.
Qed.

Lemma open_breaker_fails_without_calling_witness :
  _generate_with_retries Examples.editor Examples.always_503 Examples.tripped_world
    = Finished (Err (raise_ NanoBananaRetryableError
                       "AI temporarily unavailable; please retry."))
        Examples.tripped_world.
Proof.
  destruct (open_breaker_fails_without_calling
              Examples.editor Examples.always_503 Examples.tripped_world
              (__init__ 5 60) Examples.five_failures)
    as (_ & Htripped).
  apply Htripped.
  - reflexivity.
  - reflexivity.
  - reflexivity.
  - reflexivity.
  - intros H. discriminate H.
  - reflexivity.
  - reflexivity.
Defined.

(* ===================================================================== *)
(* A variation job against a provider that keeps failing                 *)
(* ===================================================================== *)

Lemma edit_image_reraises (self : NanoBananaEditor) (env : provider)
    (w w' : world) (exc : exception) :
  editor_ready self = true ->
  is_NanoBananaError exc = true ->
  _generate_with_retries self env w = Finished (Err exc) w' ->
  edit_image self env None w = Finished (Err exc) w'.
Proof.
  unfold editor_ready. intros Hready Hclass Hgen.
  apply andb_true_iff in Hready as [Havail Hclient].
  unfold edit_image. rewrite Havail. cbn [negb].
  destruct (genai self); rewrite Hclient; cbn [negb andb];
    rewrite Hgen, Hclass; reflexivity.
Qed.

Lemma process_wraps_editor_error (pipeline : ImagePipeline)
    (self : NanoBananaEditor) (env : provider) (io : local_io)
    (prompt output_stem : string) (w w' : world) (exc : exception) :
  _editor pipeline = Some self ->
  available self = true ->
  nonempty prompt = true ->
  nonempty (exc_message exc) = true ->
  edit_image self env (prepare io) w = Finished (Err exc) w' ->
  process pipeline env io prompt output_stem w
    = Finished (Err (raise_ AIProcessingError (exc_message exc))) w'.
Proof.
  intros Heditor Havail Hprompt Hmessage Hedit.
  unfold process, ai_available. rewrite Hprompt, Heditor, Havail. cbn [negb].
  rewrite Hedit, Hmessage. reflexivity.
Qed.

Lemma task_raises_what_process_raises (services : AppServices)
    (pipeline : ImagePipeline) (env : provider)
    (session_id prompt style_id : string) (use_previous : bool)
    (previous_result : string) (upload_asset_id : option string)
    (w w' : world) (exc : exception) :
  reaches_pipeline services session_id style_id use_previous previous_result
    upload_asset_id = true ->
  process pipeline env (io services) prompt (uid services) w
    = Finished (Err exc) w' ->
  generate_variation_task services pipeline env session_id prompt style_id
    use_previous previous_result upload_asset_id w
    = Finished (Err exc) w'.
Proof.
  unfold reaches_pipeline, generate_variation_task. intros Hreach Hprocess.
  apply andb_true_iff in Hreach as [Hreach Hsource].
  apply andb_true_iff in Hreach as [Hsession Hstyle].
  rewrite Hsession. cbn [negb].
  apply negb_true_iff in Hstyle. rewrite Hstyle.
  destruct (resolve_source _ _ _ _ _ _) as [message|original_url];
    [discriminate Hsource|].
  rewrite Hprocess. reflexivity.
Qed.

Lemma failed_task_payload (py_str : json -> string)
    (url_for_image : json -> string) (urljoin_base : string -> string)
    (exc : exception) (job_id : string) :
  job_payload url_for_image urljoin_base (store_result py_str (Err exc)) job_id
    = Ok (<["error" := JStr (exc_message exc)]>
         (<["status" := JStr "failed"]> (<["job_id" := JStr job_id]> ∅))).
Proof. reflexivity. Qed.

(** C7, counterexample.  The default editor (max_retries = 2, breaker
    threshold 5) against a provider that always answers 503: the job ends
    failed, and the failure counter of the breaker is 3, not 0 + 1. *)
Lemma job_counts_every_attempt_counterexample :
  ~ job_fails_counting_one Examples.py_str Examples.url_for_image
      Examples.urljoin_base Examples.services Examples.pipeline
      Examples.always_503 "session-1" "make it blue" "" false ""
      (Some "upload-1"%string) "job-1" Examples.fresh_world.
Proof.
  intros (payload & w' & Hrun & _ & Hcount).
  vm_compute in Hrun. injection Hrun as _ Hw. subst w'.
  vm_compute in Hcount. discriminate Hcount.
Qed.

Lemma allow_config (self : _CircuitBreaker) (t : Q) :
  _threshold (snd (allow self t)) = _threshold self /\
  _cooldown (snd (allow self t)) = _cooldown self.
Proof.
  unfold allow.
  repeat match goal with
         | |- context [if ?c then _ else _] => destruct c
         end; cbn; tauto.
Qed.

(* allow() changes the breaker only when it answers True. *)
Lemma allow_rejects_unchanged (self : _CircuitBreaker) (t : Q) :
  fst (allow self t) = false -> allow self t = (false, self).
Proof.
  unfold allow.
  repeat match goal with
         | |- context [if ?c then _ else _] => destruct c
         end; cbn [fst]; intros H; first [discriminate H | reflexivity].
Qed.

Lemma generate_rejected (self : NanoBananaEditor) (env : provider) (w : world) :
  fst (allow (breaker w) (clock w)) = false ->
  _generate_with_retries self env w
    = Finished (Err (raise_ NanoBananaRetryableError
                       "AI temporarily unavailable; please retry.")) w.
Proof.
  intros Hrejected. apply allow_rejects_unchanged in Hrejected.
  unfold _generate_with_retries. rewrite Hrejected. cbn [negb].
  destruct w; reflexivity.
Qed.

(* A breaker with threshold 0 records no failure: a run of the loop that
   raises leaves it as it was. *)
Lemma retry_loop_disabled_breaker (self : NanoBananaEditor) (env : provider)
    (fuel : nat) :
  forall (retries : Z) (w w' : world) (exc : exception),
    _threshold (breaker w) = 0%Z ->
    retry_loop fuel self env retries w = Finished (Err exc) w' ->
    breaker w' = breaker w.
Proof.
  induction fuel as [|fuel IH]; intros retries w w' exc Hth; cbn [retry_loop];
    [discriminate|].
  assert (Hkept : forall t : Q, record_failure (breaker w) t = breaker w).
  { intros t. unfold record_failure. rewrite Hth. reflexivity. }
  destruct (_call_with_timeout _ _) as [[seconds [r|raised]]|];
    [discriminate| |discriminate].
  cbn [after_call set_breaker breaker clock].
  rewrite Hkept.
  destruct (_is_retryable_error raised); cbn [negb].
  - destruct (_max_retries self <=? retries)%Z.
    + intros [= _ <-]. reflexivity.
    + intros Hrun. apply IH in Hrun; [exact Hrun | exact Hth].
  - intros [= _ <-]. reflexivity.
Qed.

(** C7, amended.  A variation job that reaches the provider call (a
    prompt, a ready editor with max_retries >= 0, a resolved source
    image) against a provider whose every attempt fails with a retryable
    error ends failed, in one of two ways.
    (a) When the breaker lets the call through, the task raises after
    max_retries + 1 invocations and the status payload has the status
    "failed", the error "AI generation failed; please retry." (the
    message of the retry-exhaustion error) and no result.  A breaker with
    threshold > 0 has counted every attempt: its failure counter stands
    at the value allow() left plus max_retries + 1 (plus 3 when
    max_retries = 2); so it has grown by max_retries + 1 when allow()
    left the breaker as it was, and stands at max_retries + 1 when the
    breaker was tripped and its cooldown had elapsed, allow() resetting
    the counter first.  A breaker with threshold 0 is left as it was.
    (b) When the breaker rejects the call, the status payload has the
    status "failed", the error "AI temporarily unavailable; please
    retry." and no result; the provider was not invoked and the breaker
    and its counter are unchanged. *)
Theorem exhausted_job_fails_counting_every_attempt
    (py_str : json -> string) (url_for_image : json -> string)
    (urljoin_base : string -> string)
    (services : AppServices) (pipeline : ImagePipeline)
    (self : NanoBananaEditor) (env : provider)
    (session_id prompt style_id : string) (use_previous : bool)
    (previous_result : string) (upload_asset_id : option string)
    (job_id : string) (w : world) :
  _editor pipeline = Some self ->
  editor_ready self = true ->
  prepare (io services) = None ->
  nonempty prompt = true ->
  reaches_pipeline services session_id style_id use_previous previous_result
    upload_asset_id = true ->
  (0 <= _max_retries self)%Z ->
  (forall i, (i <= Z.to_nat (_max_retries self))%nat ->
             fails_retryably self env (attempts w + i) = true) ->
  (fst (allow (breaker w) (clock w)) = true ->
   exists (payload : gmap string json) (w' : world),
     variation_job_payload py_str url_for_image urljoin_base services pipeline env
       session_id prompt style_id use_previous previous_result upload_asset_id
       job_id w = Finished (Ok payload) w' /\
     payload !! "status" = Some (JStr "failed") /\
     payload !! "error" = Some (JStr "AI generation failed; please retry.") /\
     payload !! "result" = None /\
     attempts w' = (attempts w + Z.to_nat (_max_retries self) + 1)%nat /\
     ((0 < _threshold (breaker w))%Z ->
      _failures (breaker w')
        = (_failures (snd (allow (breaker w) (clock w)))
           + (_max_retries self + 1))%Z) /\
     ((0 < _threshold (breaker w))%Z ->
      allow (breaker w) (clock w) = (true, breaker w) ->
      _failures (breaker w') = (_failures (breaker w) + (_max_retries self + 1))%Z) /\
     ((0 < _threshold (breaker w))%Z -> (0 < _cooldown (breaker w))%Q ->
      ~ (_opened_at (breaker w) == 0)%Q ->
      (_cooldown (breaker w) <= clock w - _opened_at (breaker w))%Q ->
      _failures (breaker w') = (_max_retries self + 1)%Z) /\
     (_threshold (breaker w) = 0%Z -> breaker w' = breaker w)) /\
  (fst (allow (breaker w) (clock w)) = false ->
   exists payload : gmap string json,
     variation_job_payload py_str url_for_image urljoin_base services pipeline env
       session_id prompt style_id use_previous previous_result upload_asset_id
       job_id w = Finished (Ok payload) w /\
     payload !! "status" = Some (JStr "failed") /\
     payload !! "error"
       = Some (JStr "AI temporarily unavailable; please retry.") /\
     payload !! "result" = None).
Proof.
  intros Heditor Hready Hprepare Hprompt Hreach Hmax Hfail.
  assert (Havail : available self = true).
  { unfold editor_ready in Hready. now apply andb_true_iff in Hready. }
  assert (Hjob : forall (message : string) (w' : world),
             nonempty message = true ->
             _generate_with_retries self env w
               = Finished (Err (raise_ NanoBananaRetryableError message)) w' ->
             variation_job_payload py_str url_for_image urljoin_base services
               pipeline env session_id prompt style_id use_previous
               previous_result upload_asset_id job_id w
             = Finished
                 (Ok (<["error" := JStr message]>
                      (<["status" := JStr "failed"]>
                       (<["job_id" := JStr job_id]> ∅)))) w').
  { intros message w' Hmessage Hgen.
    pose proof (edit_image_reraises self env w w'
                  (raise_ NanoBananaRetryableError message) Hready eq_refl Hgen)
      as Hedit.
    rewrite <- Hprepare in Hedit.
    pose proof (process_wraps_editor_error pipeline self env (io services) prompt
                  (uid services) w w' (raise_ NanoBananaRetryableError message)
                  Heditor Havail Hprompt Hmessage Hedit) as Hprocess.
    pose proof (task_raises_what_process_raises services pipeline env session_id
                  prompt style_id use_previous previous_result upload_asset_id
                  w w' _ Hreach Hprocess) as Htask.
    unfold variation_job_payload. rewrite Htask, failed_task_payload.
    reflexivity. }
  split.
  - intros Hallowed.
    destruct (generate_exhausts_retries self env w Hmax Hallowed Hfail)
      as (w' & Hgen & Hattempts & _ & Hcount).
    destruct (allow_config (breaker w) (clock w)) as [Hth _].
    rewrite Hth in Hcount.
    eexists. exists w'. split; [exact (Hjob "AI generation failed; please retry."%string w' eq_refl Hgen)|].
    split; [reflexivity|]. split; [reflexivity|]. split; [reflexivity|].
    split; [exact Hattempts|]. split; [|split; [|split]].
    + intros Hpos. rewrite (Hcount Hpos). lia.
    + intros Hpos Hsame. rewrite (Hcount Hpos), Hsame. cbn [snd]. lia.
    + intros Hpos Hcooldown Hopened Helapsed.
      rewrite (Hcount Hpos),
        (allow_after_cooldown (breaker w) Hpos Hcooldown (clock w) Hopened Helapsed).
      cbn [snd _failures]. lia.
    + intros Hzero.
      assert (Hsame : allow (breaker w) (clock w) = (true, breaker w))
        by (unfold allow; rewrite Hzero; reflexivity).
      rewrite (generate_enters_loop self env w Hallowed), Hsame in Hgen.
      cbn [snd] in Hgen.
      apply retry_loop_disabled_breaker in Hgen; [exact Hgen | exact Hzero].
  - intros Hrejected.
    eexists. split.
    { exact (Hjob "AI temporarily unavailable; please retry."%string w eq_refl
               (generate_rejected self env w Hrejected)). }
    split; [reflexivity|]. split; reflexivity.
Qed.

Lemma exhausted_job_fails_counting_every_attempt_witness :
  (exists (payload : gmap string json) (w' : world),
     variation_job_payload Examples.py_str Examples.url_for_image
       Examples.urljoin_base Examples.services Examples.pipeline
       Examples.always_503 "session-1" "make it blue" "" false ""
       (Some "upload-1"%string) "job-1" Examples.fresh_world
       = Finished (Ok payload) w' /\
     payload !! "status" = Some (JStr "failed") /\
     payload !! "error" = Some (JStr "AI generation failed; please retry.") /\
     payload !! "result" = None /\
     attempts w' = 3%nat /\
     _failures (breaker w') = 3%Z) /\
  (exists payload : gmap string json,
     variation_job_payload Examples.py_str Examples.url_for_image
       Examples.urljoin_base Examples.services Examples.pipeline
       Examples.always_503 "session-1" "make it blue" "" false ""
       (Some "upload-1"%string) "job-1" Examples.tripped_world
       = Finished (Ok payload) Examples.tripped_world /\
     payload !! "error"
       = Some (JStr "AI temporarily unavailable; please retry.")).
Proof.
  split.
  - destruct (exhausted_job_fails_counting_every_attempt
                Examples.py_str Examples.url_for_image Examples.urljoin_base
                Examples.services Examples.pipeline Examples.editor
                Examples.always_503 "session-1" "make it blue" "" false ""
                (Some "upload-1"%string) "job-1" Examples.fresh_world)
      as (Hallowed & _).
    + reflexivity.
    + reflexivity.
    + reflexivity.
    + reflexivity.
    + reflexivity.
    + cbn. lia.
    + intros i Hi. reflexivity.
    + destruct (Hallowed eq_refl)
        as (payload & w' & Hrun & Hstatus & Herror & Hresult & Hattempts
            & _ & Hcount & _).
      exists payload, w'.
      split; [exact Hrun|]. split; [exact Hstatus|]. split; [exact Herror|].
      split; [exact Hresult|]. split; [exact Hattempts|].
      apply Hcount; [cbn; lia | reflexivity].
  - destruct (exhausted_job_fails_counting_every_attempt
                Examples.py_str Examples.url_for_image Examples.urljoin_base
                Examples.services Examples.pipeline Examples.editor
                Examples.always_503 "session-1" "make it blue" "" false ""
                (Some "upload-1"%string) "job-1" Examples.tripped_world)
      as (_ & Hrejected).
    + reflexivity.
    + reflexivity.
    + reflexivity.
    + reflexivity.
    + reflexivity.
    + cbn. lia.
    + intros i Hi. reflexivity.
    + destruct (Hrejected eq_refl) as (payload & Hrun & _ & Herror & _).
      exists payload. split; [exact Hrun | exact Herror].
Defined.

(* ===================================================================== *)
(* The status payload                                                    *)
(* ===================================================================== *)

Lemma _map_task_status_cases (state : string) :
  _map_task_status state = "pending"%string \/
  _map_task_status state = "processing"%string \/
  _map_task_status state = "complete"%string \/
  _map_task_status state = "failed"%string.
Proof.
  unfold _map_task_status.
  repeat match goal with
         | |- context [if ?c then _ else _] => destruct c
         end; tauto.
Qed.

Section StatusPayload.

Variable url_for_image : json -> string.
Variable urljoin_base : string -> string.

Lemma job_status_code (backend : gmap string AsyncResult) (job_id : string) :
  status_code (job_status url_for_image urljoin_base backend job_id) = 200%Z \/
  status_code (job_status url_for_image urljoin_base backend job_id) = 500%Z.
Proof.
  unfold job_status.
  destruct (_build_job_payload _ _ _ _); cbn; tauto.
Qed.

(** C5, amended.  For a job id the result backend has no record of, the
    status route answers 200 with the payload {job_id, status: pending}:
    the same answer as for a job with this id that is queued.  No answer
    of the status route signals NotFound. *)
Theorem unknown_job_reads_as_pending
    (backend : gmap string AsyncResult) (job_id : string) :
  backend !! job_id = None ->
  job_status url_for_image urljoin_base backend job_id
    = {| status_code := 200;
         content := <["status" := JStr "pending"]> (<["job_id" := JStr job_id]> ∅) |} /\
  job_status url_for_image urljoin_base backend job_id
    = job_status url_for_image urljoin_base
        (<[job_id := {| state := "PENDING"; result := JNull; info := "None" |}]> backend)
        job_id /\
  (forall (any : gmap string AsyncResult) (id : string),
     ~ signals_NotFound (job_status url_for_image urljoin_base any id)).
Proof.
  intros Hunknown. split; [|split].
  - unfold job_status, _build_job_payload, lookup_task.
    rewrite Hunknown. reflexivity.
  - unfold job_status, _build_job_payload, lookup_task.
    rewrite Hunknown, lookup_insert_eq. reflexivity.
  - intros any id. unfold signals_NotFound.
    destruct (job_status_code any id) as [E|E]; rewrite E; discriminate.
Qed.

End StatusPayload.

Lemma unknown_job_reads_as_pending_witness :
  job_status Examples.url_for_image Examples.urljoin_base ∅ "no-such-job"
    = {| status_code := 200;
         content := <["status" := JStr "pending"]>
                    (<["job_id" := JStr "no-such-job"]> ∅) |}.
Proof.
  destruct (unknown_job_reads_as_pending Examples.url_for_image
              Examples.urljoin_base ∅ "no-such-job") as (Hpending & _).
  - reflexivity.
  - exact Hpending.
Defined.

(** C5, counterexample.  For a job id the result backend has no record
    of, the status route answers 200 with a payload, it does not signal
    NotFound. *)
Lemma unknown_job_counterexample :
  ~ signals_NotFound
      (job_status Examples.url_for_image Examples.urljoin_base ∅ "no-such-job").
Proof. unfold signals_NotFound. cbn. discriminate. Qed.

Section ResultAndError.

Variable url_for_image : json -> string.
Variable urljoin_base : string -> string.







End ResultAndError.


(* ===================================================================== *)
(* The status stream                                                     *)
(* ===================================================================== *)

Section StatusStream.

Variable url_for_image : json -> string.
Variable urljoin_base : string -> string.
Variable dumps : gmap string json -> string.
Variable job_id : string.

(* One turn of the loop that sees a payload which is not terminal. *)
Lemma generator_step (backend : gmap string AsyncResult)
    (polls : list (bool * gmap string AsyncResult))
    (last_payload : option string) (payload : gmap string json) :
  _build_job_payload url_for_image urljoin_base backend job_id = Ok payload ->
  is_terminal payload = false ->
  event_generator url_for_image urljoin_base dumps job_id ((false, backend) :: polls) last_payload
    = if bool_decide (last_payload = Some (dumps payload))
      then event_generator url_for_image urljoin_base dumps job_id polls last_payload
      else (payload :: fst (event_generator url_for_image urljoin_base dumps job_id polls (Some (dumps payload))),
            snd (event_generator url_for_image urljoin_base dumps job_id polls (Some (dumps payload)))).
Proof.
  intros Hbuild Hrunning. cbn [event_generator].
  rewrite Hbuild, Hrunning.
  destruct (bool_decide (last_payload = Some (dumps payload))); cbn [negb].
  - destruct (event_generator url_for_image urljoin_base dumps job_id polls last_payload). reflexivity.
  - destruct (event_generator url_for_image urljoin_base dumps job_id polls (Some (dumps payload))). reflexivity.
Qed.

(* One turn of the loop that sees a terminal payload. *)
Lemma generator_stop (backend : gmap string AsyncResult)
    (polls : list (bool * gmap string AsyncResult))
    (last_payload : option string) (payload : gmap string json) :
  _build_job_payload url_for_image urljoin_base backend job_id = Ok payload ->
  is_terminal payload = true ->
  event_generator url_for_image urljoin_base dumps job_id ((false, backend) :: polls) last_payload
    = (if bool_decide (last_payload = Some (dumps payload)) then [] else [payload],
       Terminal).
Proof.
  intros Hbuild Hdone. cbn [event_generator].
  rewrite Hbuild, Hdone.
  destruct (bool_decide (last_payload = Some (dumps payload))); reflexivity.
Qed.

Lemma generator_each_differs (polls : list (bool * gmap string AsyncResult)) :
  forall last_payload : option string,
    each_differs dumps last_payload (fst (event_generator url_for_image urljoin_base dumps job_id polls last_payload)).
Proof.
  induction polls as [|[is_disconnected backend] polls IH]; intros last_payload.
  - exact I.
  - destruct is_disconnected; [exact I|].
    destruct (_build_job_payload url_for_image urljoin_base backend job_id)
      as [payload|exc] eqn:Hbuild.
    2: { cbn [event_generator]. rewrite Hbuild. exact I. }
    destruct (is_terminal payload) eqn:Hterminal.
    + rewrite (generator_stop _ _ _ _ Hbuild Hterminal). cbn [fst].
      case_bool_decide as Hsame; cbn [each_differs]; auto.
    + rewrite (generator_step _ _ _ _ Hbuild Hterminal).
      case_bool_decide as Hsame.
      * apply IH.
      * cbn [fst each_differs]. split; [exact Hsame | apply IH].
Qed.

Lemma each_differs_adjacent (events : list (gmap string json)) :
  forall (last_payload : option string) (i : nat) (p q : gmap string json),
    each_differs dumps last_payload events ->
    events !! i = Some p -> events !! S i = Some q ->
    dumps p <> dumps q.
Proof.
  induction events as [|e events IH]; intros last_payload i p q Hdiff Hp Hq.
  - discriminate Hp.
  - destruct Hdiff as [_ Hrest]. destruct i as [|i].
    + cbn in Hp. injection Hp as ->.
      destruct events as [|e' events']; [discriminate Hq|].
      cbn in Hq. injection Hq as ->.
      destruct Hrest as [Hne _]. congruence.
    + exact (IH _ i p q Hrest Hp Hq).
Qed.

Lemma generator_terminal_is_last (polls : list (bool * gmap string AsyncResult)) :
  forall (last_payload : option string) (i : nat) (p : gmap string json),
    fst (event_generator url_for_image urljoin_base dumps job_id polls last_payload) !! i = Some p ->
    is_terminal p = true ->
    S i = length (fst (event_generator url_for_image urljoin_base dumps job_id polls last_payload)) /\
    snd (event_generator url_for_image urljoin_base dumps job_id polls last_payload) = Terminal.
Proof.
  induction polls as [|[is_disconnected backend] polls IH];
    intros last_payload i p Hp Hdone.
  - discriminate Hp.
  - destruct is_disconnected; [discriminate Hp|].
    destruct (_build_job_payload url_for_image urljoin_base backend job_id)
      as [payload|exc] eqn:Hbuild.
    2: { cbn [event_generator] in Hp. rewrite Hbuild in Hp. discriminate Hp. }
    destruct (is_terminal payload) eqn:Hterminal.
    + rewrite (generator_stop _ _ _ _ Hbuild Hterminal) in *. cbn [fst snd] in *.
      case_bool_decide as Hsame; [discriminate Hp|].
      destruct i as [|i]; [auto | discriminate Hp].
    + rewrite (generator_step _ _ _ _ Hbuild Hterminal) in *.
      case_bool_decide as Hsame.
      * exact (IH last_payload i p Hp Hdone).
      * cbn [fst snd] in *. destruct i as [|i].
        -- cbn in Hp. injection Hp as ->. congruence.
        -- cbn in Hp. destruct (IH _ i p Hp Hdone) as [Hlen Hend].
           cbn [length]. split; [congruence | exact Hend].
Qed.

Hypothesis dumps_tells_terminal :
  forall p q : gmap string json, dumps p = dumps q -> is_terminal p = is_terminal q.

Lemma generator_ends_with_terminal (polls : list (bool * gmap string AsyncResult)) :
  forall last_payload : option string,
    (last_payload = None \/
     exists q, last_payload = Some (dumps q) /\ is_terminal q = false) ->
    snd (event_generator url_for_image urljoin_base dumps job_id polls last_payload) = Terminal ->
    exists p, last (fst (event_generator url_for_image urljoin_base dumps job_id polls last_payload)) = Some p /\
              is_terminal p = true.
Proof.
  induction polls as [|[is_disconnected backend] polls IH];
    intros last_payload Hlast Hend.
  - discriminate Hend.
  - destruct is_disconnected; [discriminate Hend|].
    destruct (_build_job_payload url_for_image urljoin_base backend job_id)
      as [payload|exc] eqn:Hbuild.
    2: { cbn [event_generator] in Hend. rewrite Hbuild in Hend. discriminate Hend. }
    destruct (is_terminal payload) eqn:Hterminal.
    + rewrite (generator_stop _ _ _ _ Hbuild Hterminal). cbn [fst].
      case_bool_decide as Hsame.
      * destruct Hlast as [Hnone|(q & Hq & Hrunning)]; [congruence|].
        assert (dumps q = dumps payload) as Hdumps by congruence.
        apply dumps_tells_terminal in Hdumps. congruence.
      * exists payload. split; [reflexivity | exact Hterminal].
    + rewrite (generator_step _ _ _ _ Hbuild Hterminal) in *.
      case_bool_decide as Hsame.
      * exact (IH last_payload Hlast Hend).
      * cbn [fst snd] in *.
        destruct (IH (Some (dumps payload))) as (p & Hp & Hdone).
        -- right. exists payload. split; [reflexivity | exact Hterminal].
        -- exact Hend.
        -- exists p. split; [|exact Hdone].
           destruct (fst (event_generator url_for_image urljoin_base dumps job_id polls (Some (dumps payload)))) as [|e events];
             [discriminate Hp|].
           exact Hp.
Qed.

End StatusStream.

Lemma dumps_status_tells_terminal (p q : gmap string json) :
  Examples.dumps_status p = Examples.dumps_status q ->
  is_terminal p = is_terminal q.
Proof.
  assert (Hread : forall payload : gmap string json,
             is_terminal payload
             = String.eqb (Examples.dumps_status payload) "complete"
               || String.eqb (Examples.dumps_status payload) "failed").
  { intros payload. unfold is_terminal, Examples.dumps_status, Examples.py_str.
    destruct (get payload "status"); reflexivity. }
  intros Hsame. rewrite !Hread, Hsame. reflexivity.
Qed.

(** C9. For every job id and every run of the stream's loop, with
    [events] the payloads it yields in order: two consecutive events
    never have the same serialisation (so they are never equal); a
    terminal event (status complete or failed) is the last event and the
    stream has then closed on it; and, json.dumps telling terminal
    payloads from the others, a stream that closes on a terminal status
    has yielded an event, the last of which is terminal. *)
Theorem stream_yields_changes_and_ends_at_terminal
    (url_for_image : json -> string) (urljoin_base : string -> string)
    (dumps : gmap string json -> string) (job_id : string)
    (polls : list (bool * gmap string AsyncResult))
    (events : list (gmap string json)) (ended : stream_end) :
  job_stream url_for_image urljoin_base dumps job_id polls = (events, ended) ->
  (forall (i : nat) (p q : gmap string json),
     events !! i = Some p -> events !! S i = Some q ->
     dumps p <> dumps q /\ p <> q) /\
  (forall (i : nat) (p : gmap string json),
     events !! i = Some p -> is_terminal p = true ->
     S i = length events /\ ended = Terminal) /\
  ((forall p q : gmap string json,
      dumps p = dumps q -> is_terminal p = is_terminal q) ->
   ended = Terminal ->
   exists p, last events = Some p /\ is_terminal p = true).
Proof.
  unfold job_stream. intros Hrun.
  pose proof (generator_each_differs url_for_image urljoin_base dumps job_id
                polls None) as Hdiffer.
  pose proof (generator_terminal_is_last url_for_image urljoin_base dumps job_id
                polls None) as Hlast.
  pose proof (generator_ends_with_terminal url_for_image urljoin_base dumps
                job_id) as Hend.
  rewrite Hrun in Hdiffer, Hlast. cbn [fst snd] in Hdiffer, Hlast.
  split; [|split].
  - intros i p q Hp Hq.
    assert (Hne : dumps p <> dumps q)
      by exact (each_differs_adjacent dumps events None i p q Hdiffer Hp Hq).
    split; [exact Hne | congruence].
  - exact Hlast.
  - intros Hdumps Hterminal.
    specialize (Hend Hdumps polls None (or_introl eq_refl)).
    rewrite Hrun in Hend. exact (Hend Hterminal).
Qed.

Lemma stream_yields_changes_and_ends_at_terminal_witness :
  exists p,
    last (fst (job_stream Examples.url_for_image Examples.urljoin_base
                 Examples.dumps_status "job-1" Examples.polls_until_success))
      = Some p /\
    is_terminal p = true.
Proof.
  destruct (stream_yields_changes_and_ends_at_terminal
              Examples.url_for_image Examples.urljoin_base Examples.dumps_status
              "job-1" Examples.polls_until_success
              (fst (job_stream Examples.url_for_image Examples.urljoin_base
                      Examples.dumps_status "job-1" Examples.polls_until_success))
              Terminal)
    as (_ & _ & Hend).
  - vm_compute. reflexivity.
  - apply Hend.
    + exact dumps_status_tells_terminal.
    + reflexivity.
Defined.

(* ===================================================================== *)
(* The breaker under any sequence of calls                               *)
(* ===================================================================== *)

Import BreakerHistory Editor Accounting Assets Background StreamState.

Lemma call_config (self : _CircuitBreaker) (c : breaker_call) :
  _threshold (call self c) = _threshold self /\
  _cooldown (call self c) = _cooldown self.
Proof.
  destruct c as [t| |t]; cbn [call].
  - apply allow_config.
  - split; reflexivity.
  - apply record_failure_config.
Qed.

Lemma replay_config (calls : list breaker_call) :
  forall self : _CircuitBreaker,
    _threshold (replay self calls) = _threshold self /\
    _cooldown (replay self calls) = _cooldown self.
Proof.
  induction calls as [|c calls IH]; intros self.
  - split; reflexivity.
  - unfold replay. cbn [fold_left]. fold (replay (call self c) calls).
    destruct (IH (call self c)) as [E1 E2].
    destruct (call_config self c) as [C1 C2].
    split; congruence.
Qed.

Lemma Qmax_0_nonpos (x : Q) : (x <= 0)%Q -> Qmax 0 x = 0%Q.
Proof.
  intros Hle. unfold Qmax, GenericMinMax.gmax.
  destruct (Qcompare 0 x) eqn:E; try reflexivity.
  apply Qlt_alt in E. lra.
Qed.

(** X1. A breaker constructed with threshold <= 0 or cooldown <= 0 is
    switched off: after any sequence of allow, record_success and
    record_failure calls, allow() answers true and leaves the breaker as
    it is. *)
Theorem disabled_breaker_always_allows
    (threshold : Z) (cooldown_seconds : Q) (calls : list breaker_call) (t : Q) :
  (threshold <= 0)%Z \/ (cooldown_seconds <= 0)%Q ->
  allow (replay (CircuitBreaker.__init__ threshold cooldown_seconds) calls) t
    = (true, replay (CircuitBreaker.__init__ threshold cooldown_seconds) calls).
Proof.
  intros Hoff.
  destruct (replay_config calls (CircuitBreaker.__init__ threshold cooldown_seconds))
    as [E1 E2].
  cbn [CircuitBreaker.__init__ _threshold _cooldown] in E1, E2.
  unfold allow. rewrite E1, E2.
  destruct Hoff as [Hth|Hcd].
  - replace (Z.max 0 threshold) with 0%Z by lia. reflexivity.
  - rewrite (Qmax_0_nonpos _ Hcd).
    destruct (Z.max 0 threshold =? 0)%Z; reflexivity.
Qed.

Lemma disabled_breaker_always_allows_witness :
  allow (replay (CircuitBreaker.__init__ 0 60)
           [RecordFailure 1; RecordFailure 2; RecordFailure 3]) 4
    = (true, replay (CircuitBreaker.__init__ 0 60)
               [RecordFailure 1; RecordFailure 2; RecordFailure 3]).
Proof.
  apply (disabled_breaker_always_allows 0 60
           [RecordFailure 1; RecordFailure 2; RecordFailure 3] 4).
  left. lia.
Defined.

Lemma call_keeps_invariant (self : _CircuitBreaker) (c : breaker_call) :
  tripped_only_at_threshold self -> tripped_only_at_threshold (call self c).
Proof.
  unfold tripped_only_at_threshold. intros [Hcount Htripped].
  destruct c as [t| |t]; cbn [call].
  - unfold allow.
    repeat match goal with
           | |- context [if ?c then _ else _] => destruct c
           end; cbn [snd _failures _opened_at _threshold];
      try (split; assumption).
    split; [lia|]. intros H. exfalso. apply H. reflexivity.
  - cbn. split; [lia|]. intros H. exfalso. apply H. reflexivity.
  - unfold record_failure.
    destruct (_threshold self =? 0)%Z; [split; assumption|].
    destruct (Z.leb_spec (_threshold self) (_failures self + 1)) as [Hle|Hgt];
      cbn [andb].
    + destruct (negb (Qeq_bool (_cooldown self) 0));
        cbn [_failures _opened_at _threshold]; split; try lia; auto.
    + cbn [_failures _opened_at _threshold]. split; [lia|].
      intros H. specialize (Htripped H). lia.
Qed.

Lemma replay_keeps_invariant (calls : list breaker_call) :
  forall self : _CircuitBreaker,
    tripped_only_at_threshold self -> tripped_only_at_threshold (replay self calls).
Proof.
  induction calls as [|c calls IH]; intros self Hinv.
  - exact Hinv.
  - unfold replay. cbn [fold_left]. fold (replay (call self c) calls).
    apply IH, call_keeps_invariant, Hinv.
Qed.

(* On an enabled breaker whose failures are recorded at clock readings
   other than 0.0: a counter at or above the threshold means _opened_at
   is set. *)
Lemma call_keeps_tripped (self : _CircuitBreaker) (c : breaker_call) :
  (0 < _threshold self)%Z -> (0 < _cooldown self)%Q ->
  match c with RecordFailure t => ~ (t == 0)%Q | _ => True end ->
  ((_threshold self <= _failures self)%Z -> ~ (_opened_at self == 0)%Q) ->
  ((_threshold (call self c) <= _failures (call self c))%Z ->
   ~ (_opened_at (call self c) == 0)%Q).
Proof.
  intros Hth Hcd Hreading Htripped.
  destruct c as [t| |t]; cbn [call].
  - unfold allow. rewrite (enabled_guard self Hth Hcd).
    destruct (Qeq_bool (_opened_at self) 0); [exact Htripped|].
    destruct (Qle_bool _ _); [|exact Htripped].
    cbn [snd _threshold _failures]. lia.
  - cbn [record_success _threshold _failures]. lia.
  - destruct (Z.le_gt_cases (_threshold self) (_failures self + 1)) as [Hle|Hgt].
    + rewrite (record_failure_trips self Hth Hcd t Hle).
      cbn [_opened_at]. intros _. exact Hreading.
    + rewrite (record_failure_below self Hth t) by lia.
      cbn [_threshold _failures]. lia.
Qed.

Lemma replay_keeps_tripped (calls : list breaker_call) :
  forall self : _CircuitBreaker,
    (0 < _threshold self)%Z -> (0 < _cooldown self)%Q ->
    failures_at_nonzero calls ->
    ((_threshold self <= _failures self)%Z -> ~ (_opened_at self == 0)%Q) ->
    ((_threshold self <= _failures (replay self calls))%Z ->
     ~ (_opened_at (replay self calls) == 0)%Q).
Proof.
  induction calls as [|c calls IH]; intros self Hth Hcd Hreadings Htripped.
  - exact Htripped.
  - unfold replay. cbn [fold_left]. fold (replay (call self c) calls).
    apply Forall_cons_1 in Hreadings as [Hc Hrest].
    destruct (call_config self c) as [C1 C2].
    rewrite <- C1. apply IH.
    + rewrite C1. exact Hth.
    + rewrite C2. exact Hcd.
    + exact Hrest.
    + apply call_keeps_tripped; assumption.
Qed.

(** X2. For a breaker constructed with threshold > 0 and cooldown > 0,
    after any sequence of allow, record_success and record_failure calls
    (failures recorded at clock readings other than 0.0): the failure
    counter is not negative, and allow() answers false at time t exactly
    when the counter is at or above the threshold and less than cooldown
    seconds have passed since _opened_at. *)
Theorem breaker_rejects_iff_tripped_and_cooling
    (threshold : Z) (cooldown_seconds : Q) (calls : list breaker_call) (t : Q) :
  (0 < threshold)%Z -> (0 < cooldown_seconds)%Q ->
  failures_at_nonzero calls ->
  (0 <= _failures (replay (CircuitBreaker.__init__ threshold cooldown_seconds) calls))%Z /\
  (fst (allow (replay (CircuitBreaker.__init__ threshold cooldown_seconds) calls) t)
     = false
   <->
   (threshold
      <= _failures (replay (CircuitBreaker.__init__ threshold cooldown_seconds) calls))%Z /\
   (t - _opened_at (replay (CircuitBreaker.__init__ threshold cooldown_seconds) calls)
      < cooldown_seconds)%Q).
Proof.
  intros Hth Hcd Hreadings.
  set (fresh := CircuitBreaker.__init__ threshold cooldown_seconds).
  assert (Eth : _threshold fresh = threshold) by (cbn; lia).
  assert (Ecd : _cooldown fresh = cooldown_seconds) by (cbn; apply Qmax_of_lt, Hcd).
  destruct (replay_config calls fresh) as [E1 E2].
  rewrite Eth in E1. rewrite Ecd in E2.
  assert (Hinv : tripped_only_at_threshold (replay fresh calls)).
  { apply replay_keeps_invariant. split; cbn; [lia|].
    intros H. exfalso. apply H. reflexivity. }
  destruct Hinv as [Hcount Hset]. rewrite E1 in Hset.
  assert (Htripped : (threshold <= _failures (replay fresh calls))%Z ->
                     ~ (_opened_at (replay fresh calls) == 0)%Q).
  { rewrite <- Eth. apply replay_keeps_tripped.
    - rewrite Eth. exact Hth.
    - rewrite Ecd. exact Hcd.
    - exact Hreadings.
    - cbn. lia. }
  assert (Hth' : (0 < _threshold (replay fresh calls))%Z) by (rewrite E1; exact Hth).
  assert (Hcd' : (0 < _cooldown (replay fresh calls))%Q) by (rewrite E2; exact Hcd).
  split; [exact Hcount|]. split.
  - intros Hreject.
    destruct (Qeq_bool (_opened_at (replay fresh calls)) 0) eqn:Eopen.
    + apply Qeq_bool_iff in Eopen.
      rewrite (allow_not_opened _ Hth' Hcd' t Eopen) in Hreject. discriminate Hreject.
    + apply Qeq_bool_false in Eopen. split; [exact (Hset Eopen)|].
      destruct (Qlt_le_dec (t - _opened_at (replay fresh calls)) cooldown_seconds)
        as [Hin|Hout]; [exact Hin|].
      rewrite <- E2 in Hout.
      rewrite (allow_after_cooldown _ Hth' Hcd' t Eopen Hout) in Hreject.
      discriminate Hreject.
  - intros [Hreached Hin].
    rewrite <- E2 in Hin.
    rewrite (allow_within_cooldown _ Hth' Hcd' t (Htripped Hreached) Hin).
    reflexivity.
Qed.

Lemma breaker_rejects_iff_tripped_and_cooling_witness :
  fst (allow (replay (CircuitBreaker.__init__ 2 60)
                [RecordFailure 10; Allow 11; RecordFailure 12]) 71)
    = false.
Proof.
  destruct (breaker_rejects_iff_tripped_and_cooling 2 60
              [RecordFailure 10; Allow 11; RecordFailure 12] 71)
    as (_ & Hiff).
  - lia.
  - reflexivity.
  - repeat constructor; intros H; discriminate H.
  - apply Hiff. split.
    + vm_compute. discriminate.
    + reflexivity.
Defined.

(* ===================================================================== *)
(* What a resilient call leaves behind                                   *)
(* ===================================================================== *)

Section CallAccounting.

Variable self : NanoBananaEditor.
Variable env : provider.

Lemma call_seconds_of (n : nat) (seconds : Q) (got : outcome response) :
  _call_with_timeout (call_fn env n) (_timeout_seconds self) = Some (seconds, got) ->
  call_seconds self env n = seconds.
Proof. unfold call_seconds. now intros ->. Qed.

(* A finished run of the loop: the invocations it made, the sleeps it
   added, the time it took, the error it raised and what it told the
   breaker. *)
Lemma retry_loop_accounting (fuel : nat) :
  forall (retries : Z) (w w' : world) (a : outcome response),
    retry_loop fuel self env retries w = Finished a w' ->
    exists (invocations : nat) (new : list Q),
      attempts w' = (attempts w + S invocations)%nat /\
      slept w' = slept w ++ new /\
      new = backoff_delays self env invocations retries (length (slept w)) /\
      (clock w' == clock w + calls_seconds self env (attempts w) (S invocations)
                   + Qsum new)%Q /\
      _threshold (breaker w') = _threshold (breaker w) /\
      _cooldown (breaker w') = _cooldown (breaker w) /\
      match a with
      | Ok _ => _failures (breaker w') = 0%Z /\ _opened_at (breaker w') = 0%Q
      | Err exc =>
          (exc = raise_ NanoBananaError "AI request failed." \/
           exc = raise_ NanoBananaRetryableError "AI generation failed; please retry.") /\
          ((0 < _threshold (breaker w))%Z ->
           _failures (breaker w')
             = (_failures (breaker w) + Z.of_nat (S invocations))%Z)
      end.
Proof.
  induction fuel as [|fuel IH]; intros retries w w' a Hrun; [discriminate Hrun|].
  cbn [retry_loop] in Hrun.
  destruct (_call_with_timeout (call_fn env (attempts w)) (_timeout_seconds self))
    as [[seconds [r|exc]]|] eqn:Ecall; [| |discriminate Hrun].
  - injection Hrun as <- <-. exists 0%nat, [].
    cbn [set_breaker after_call attempts slept clock breaker record_success
         _threshold _cooldown _failures _opened_at backoff_delays
         calls_seconds Qsum].
    rewrite (call_seconds_of _ _ _ Ecall), app_nil_r.
    repeat split; try lia. lra.
  - fold (after_failure seconds w) in Hrun.
    destruct (after_failure_fields seconds w) as (A1 & A2 & A3 & A4 & A5).
    assert (Aclock : clock (after_failure seconds w) = (clock w + seconds)%Q)
      by reflexivity.
    destruct (_is_retryable_error exc); cbn [negb] in Hrun.
    + destruct (_max_retries self <=? retries)%Z.
      * injection Hrun as <- <-. exists 0%nat, [].
        cbn [backoff_delays calls_seconds Qsum].
        rewrite (call_seconds_of _ _ _ Ecall), app_nil_r, Aclock.
        repeat split; try assumption; try lia; try lra; auto.
      * apply IH in Hrun as (k & new & B1 & B2 & B3 & B4 & B5 & B6 & B7).
        cbn [sleep attempts slept clock breaker] in B1, B2, B3, B4, B5, B6, B7.
        rewrite A2 in B2, B3. rewrite A1 in B1, B4. rewrite A2 in B4.
        rewrite length_app in B3. cbn [length] in B3.
        rewrite Nat.add_1_r in B3.
        set (delay := _compute_backoff (_backoff_base self) (_backoff_max self)
                        retries (uniform env (length (slept w)))) in *.
        exists (S k), (delay :: new).
        split; [lia|].
        split; [rewrite B2, <- app_assoc; reflexivity|].
        split; [cbn [backoff_delays]; rewrite <- B3; reflexivity|].
        split.
        { rewrite B4, Aclock.
          cbn [calls_seconds Qsum]. rewrite (call_seconds_of _ _ _ Ecall).
          cbn [calls_seconds]. lra. }
        split; [congruence|]. split; [congruence|].
        destruct a as [r|exc'].
        -- exact B7.
        -- destruct B7 as [Hwhich Hcount]. split; [exact Hwhich|].
           intros Hth. rewrite Hcount by (rewrite A3; exact Hth).
           rewrite (A5 Hth). lia.
    + injection Hrun as <- <-. exists 0%nat, [].
      cbn [backoff_delays calls_seconds Qsum].
      rewrite (call_seconds_of _ _ _ Ecall), app_nil_r, Aclock.
      repeat split; try assumption; try lia; try lra; auto.
Qed.

End CallAccounting.

Section GenerateAccounting.

Variable self : NanoBananaEditor.
Variable env : provider.

(* A finished call was either rejected by the breaker, leaving the world
   as it was, or went through the loop. *)
Lemma generate_rejected_or_looped (w w' : world) (a : outcome response) :
  _generate_with_retries self env w = Finished a w' ->
  (a = Err (raise_ NanoBananaRetryableError "AI temporarily unavailable; please retry.")
   /\ w' = w) \/
  retry_loop (S (Z.to_nat (_max_retries self))) self env 0
    (set_breaker (snd (allow (breaker w) (clock w))) w) = Finished a w'.
Proof.
  unfold _generate_with_retries.
  destruct (allow (breaker w) (clock w)) as [[|] b] eqn:Eallow; cbn [negb snd].
  - intros Hrun. right. exact Hrun.
  - intros [= <- <-]. left. split; [reflexivity|].
    assert (Eb : b = breaker w).
    { revert Eallow. unfold allow.
      repeat match goal with
             | |- context [if ?c then _ else _] => destruct c
             end; congruence. }
    subst b. destruct w; reflexivity.
Qed.

(** X3. Every finished call of _generate_with_retries tells the breaker
    of each outcome.  A call that returns leaves the breaker closed with
    its counter at 0.  A call that raises either was rejected by the
    breaker ("AI temporarily unavailable; please retry.", the world
    untouched), or raises "AI request failed." or "AI generation failed;
    please retry." after at least one invocation, and then (threshold >
    0) the counter stands at its value after allow() plus the number of
    invocations made. *)
Theorem every_outcome_reaches_the_breaker
    (w w' : world) (a : outcome response) :
  _generate_with_retries self env w = Finished a w' ->
  match a with
  | Ok _ =>
      (attempts w < attempts w')%nat /\
      _failures (breaker w') = 0%Z /\ _opened_at (breaker w') = 0%Q
  | Err exc =>
      (exc = raise_ NanoBananaRetryableError "AI temporarily unavailable; please retry."
       /\ w' = w) \/
      ((exc = raise_ NanoBananaError "AI request failed." \/
        exc = raise_ NanoBananaRetryableError "AI generation failed; please retry.") /\
       (attempts w < attempts w')%nat /\
       ((0 < _threshold (breaker w))%Z ->
        _failures (breaker w')
          = (_failures (snd (allow (breaker w) (clock w)))
             + Z.of_nat (attempts w' - attempts w))%Z))
  end.
Proof.
  intros Hrun.
  destruct (generate_rejected_or_looped w w' a Hrun) as [[-> ->]|Hloop].
  - left. split; reflexivity.
  - apply retry_loop_accounting in Hloop
      as (k & new & B1 & _ & _ & _ & _ & _ & B7).
    cbn [set_breaker attempts breaker] in B1, B7.
    destruct a as [r|exc].
    + split; [lia | exact B7].
    + right. destruct B7 as [Hwhich Hcount].
      split; [exact Hwhich|]. split; [lia|].
      intros Hth.
      destruct (allow_config (breaker w) (clock w)) as [E1 _].
      rewrite Hcount by (rewrite E1; exact Hth).
      f_equal. lia.
Qed.

(** X4. The time a finished call of _generate_with_retries takes is the
    time of its provider invocations plus the time of its sleeps, and it
    sleeps once between two invocations: with [new] the sleeps it added,
    clock' = clock + (seconds of the invocations made) + sum(new), and
    len(new) is the number of invocations less one (0 when none was
    made). *)
Theorem call_time_is_invocations_plus_sleeps
    (w w' : world) (a : outcome response) :
  _generate_with_retries self env w = Finished a w' ->
  exists new : list Q,
    slept w' = slept w ++ new /\
    length new = Nat.pred (attempts w' - attempts w) /\
    (clock w' == clock w
                 + calls_seconds self env (attempts w) (attempts w' - attempts w)
                 + Qsum new)%Q.
Proof.
  intros Hrun.
  destruct (generate_rejected_or_looped w w' a Hrun) as [[_ ->]|Hloop].
  - exists []. rewrite app_nil_r, Nat.sub_diag. cbn [calls_seconds Qsum length Nat.pred].
    repeat split. lra.
  - apply retry_loop_accounting in Hloop
      as (k & new & B1 & B2 & B3 & B4 & _).
    cbn [set_breaker attempts slept clock] in B1, B2, B3, B4.
    exists new. split; [exact B2|].
    replace (attempts w' - attempts w)%nat with (S k) by lia.
    split; [|exact B4].
    rewrite B3, backoff_delays_length. reflexivity.
Qed.

End GenerateAccounting.

Lemma every_outcome_reaches_the_breaker_witness :
  exists w',
    _generate_with_retries Examples.editor Examples.always_400 Examples.fresh_world
      = Finished (Err (raise_ NanoBananaError "AI request failed.")) w' /\
    _failures (breaker w') = 1%Z.
Proof.
  eexists. split; [vm_compute; reflexivity|].
  match goal with
  | |- _failures (breaker ?w1) = _ =>
      pose proof (every_outcome_reaches_the_breaker
                    Examples.editor Examples.always_400 Examples.fresh_world w1
                    (Err (raise_ NanoBananaError "AI request failed.")))
        as Hseen
  end.
  destruct Hseen as [[Hwhich _]|(_ & _ & Hcount)].
  - vm_compute. reflexivity.
  - discriminate Hwhich.
  - rewrite Hcount; [reflexivity | reflexivity].
Defined.

Lemma call_time_is_invocations_plus_sleeps_witness :
  exists (w' : world) (new : list Q),
    _generate_with_retries Examples.editor Examples.flaky Examples.fresh_world
      = Finished (Ok [Some "PNG"%string]) w' /\
    slept w' = slept Examples.fresh_world ++ new /\
    length new = Nat.pred (attempts w' - attempts Examples.fresh_world).
Proof.
  eexists.
  match goal with
  | |- exists new, _ = Finished _ ?w1 /\ _ =>
      assert (Hrun : _generate_with_retries Examples.editor Examples.flaky
                       Examples.fresh_world
                     = Finished (Ok [Some "PNG"%string]) w1)
        by (vm_compute; reflexivity);
      destruct (call_time_is_invocations_plus_sleeps
                  Examples.editor Examples.flaky Examples.fresh_world w1
                  (Ok [Some "PNG"%string]) Hrun)
        as (new & Hslept & Hlen & _)
  end.
  exists new. split; [exact Hrun|]. split; [exact Hslept | exact Hlen].
Defined.

(* ===================================================================== *)
(* Bounds on the backoff                                                 *)
(* ===================================================================== *)

Lemma compute_backoff_range (base cap : Q) (attempt : Z) (u : Q) :
  (0 < cap)%Q -> (3 # 4 <= u)%Q -> (u <= 5 # 4)%Q ->
  (0 <= _compute_backoff base cap attempt u)%Q /\
  (_compute_backoff base cap attempt u <= (5 # 4) * cap)%Q.
Proof.
  intros Hcap Hlo Hhi. unfold _compute_backoff.
  destruct (Qle_bool base 0) eqn:Ebase; [split; lra|].
  apply Qle_bool_false in Ebase.
  replace (Qle_bool cap 0) with false
    by (symmetry; apply Qle_bool_false; exact Hcap).
  cbn [negb].
  pose proof (pow2_nonneg attempt) as Hpow.
  assert (Hmin0 : (0 <= Qmin (base * inject_Z (2 ^ attempt)) cap)%Q)
    by (apply Q.min_glb; nra).
  assert (Hmin1 : (Qmin (base * inject_Z (2 ^ attempt)) cap <= cap)%Q)
    by apply Q.le_min_r.
  split; nra.
Qed.

Lemma Qsum_bounded (l : list Q) (bound : Q) :
  Forall (fun d => (0 <= d)%Q /\ (d <= bound)%Q) l ->
  (0 <= Qsum l)%Q /\ (Qsum l <= inject_Z (Z.of_nat (length l)) * bound)%Q.
Proof.
  induction 1 as [|d l [Hd0 Hd1] _ [IH0 IH1]]; cbn [Qsum length].
  - split; [lra|].
    change (inject_Z (Z.of_nat 0)) with 0%Q. lra.
  - rewrite Nat2Z.inj_succ, <- Z.add_1_r, inject_Z_plus.
    change (inject_Z 1) with 1%Q.
    split; [lra|]. nra.
Qed.

Section BackoffBound.

Variable self : NanoBananaEditor.
Variable env : provider.
Hypothesis cap_positive : (0 < _backoff_max self)%Q.
Hypothesis jitter_in_range :
  forall n : nat, (3 # 4 <= uniform env n)%Q /\ (uniform env n <= 5 # 4)%Q.

Lemma backoff_delays_range (k : nat) :
  forall (retries : Z) (draw : nat),
    Forall (fun d => (0 <= d)%Q /\ (d <= (5 # 4) * _backoff_max self)%Q)
      (backoff_delays self env k retries draw).
Proof.
  induction k as [|k IH]; intros retries draw; cbn [backoff_delays].
  - constructor.
  - constructor; [|apply IH].
    destruct (jitter_in_range draw) as [Hlo Hhi].
    apply compute_backoff_range; assumption.
Qed.

(** X5. With a cap > 0 and every jitter draw in [0.75, 1.25], a finished
    call of _generate_with_retries sleeps at most max(0, max_retries)
    times, each sleep lasts between 0 and 1.25 * cap seconds, and so the
    call sleeps at most max(0, max_retries) * 1.25 * cap seconds in
    all. *)
Theorem total_backoff_is_bounded (w w' : world) (a : outcome response) :
  _generate_with_retries self env w = Finished a w' ->
  exists new : list Q,
    slept w' = slept w ++ new /\
    (Z.of_nat (length new) <= Z.max 0 (_max_retries self))%Z /\
    Forall (fun d => (0 <= d)%Q /\ (d <= (5 # 4) * _backoff_max self)%Q) new /\
    (Qsum new
       <= inject_Z (Z.max 0 (_max_retries self)) * ((5 # 4) * _backoff_max self))%Q.
Proof.
  intros Hrun.
  destruct (generate_rejected_or_looped self env w w' a Hrun) as [[_ ->]|Hloop].
  - exists []. rewrite app_nil_r. cbn [length Qsum].
    split; [reflexivity|]. split; [lia|]. split; [constructor|].
    assert (0 <= inject_Z (Z.max 0 (_max_retries self)))%Q
      by (unfold Qle; cbn; lia).
    nra.
  - pose proof (retry_loop_bounded self env (S (Z.to_nat (_max_retries self))) 0%Z
                  (set_breaker (snd (allow (breaker w) (clock w))) w)) as Hbound.
    rewrite Hloop in Hbound.
    destruct Hbound as [_ Hsleeps]; [lia|].
    apply retry_loop_accounting in Hloop
      as (k & new & _ & B2 & B3 & _).
    cbn [set_breaker attempts slept] in B2, B3, Hsleeps.
    exists new. split; [exact B2|].
    assert (Hlen : (Z.of_nat (length new) <= Z.max 0 (_max_retries self))%Z).
    { rewrite B2, length_app in Hsleeps. rewrite Z.sub_0_r in Hsleeps. lia. }
    assert (Hrange : Forall (fun d => (0 <= d)%Q
                                      /\ (d <= (5 # 4) * _backoff_max self)%Q) new)
      by (rewrite B3; apply backoff_delays_range).
    split; [exact Hlen|]. split; [exact Hrange|].
    destruct (Qsum_bounded new _ Hrange) as [_ Hsum].
    assert (Hcount : (inject_Z (Z.of_nat (length new))
                      <= inject_Z (Z.max 0 (_max_retries self)))%Q)
      by (rewrite <- Zle_Qle; exact Hlen).
    nra.
Qed.

End BackoffBound.

Lemma total_backoff_is_bounded_witness :
  exists (w' : world) (new : list Q),
    _generate_with_retries Examples.editor Examples.always_503 Examples.fresh_world
      = Finished (Err (raise_ NanoBananaRetryableError
                         "AI generation failed; please retry.")) w' /\
    slept w' = slept Examples.fresh_world ++ new /\
    (Qsum new <= inject_Z (Z.max 0 2) * ((5 # 4) * 8))%Q.
Proof.
  eexists.
  match goal with
  | |- exists new, _ = Finished ?e ?w1 /\ _ =>
      assert (Hrun : _generate_with_retries Examples.editor Examples.always_503
                       Examples.fresh_world = Finished e w1)
        by (vm_compute; reflexivity);
      destruct (total_backoff_is_bounded Examples.editor Examples.always_503
                  ltac:(reflexivity)
                  ltac:(intros n; split; cbn; discriminate)
                  Examples.fresh_world w1 e Hrun)
        as (new & Hslept & _ & _ & Hsum)
  end.
  exists new. split; [exact Hrun|]. split; [exact Hslept | exact Hsum].
Defined.

(* ===================================================================== *)
(* Error classification and the time-out, seen from the caller           *)
(* ===================================================================== *)

Lemma append_nil (b : string) : (EmptyString ++ b)%string = b.
Proof. reflexivity. Qed.

Lemma append_cons (c : ascii) (a b : string) :
  (String c a ++ b)%string = String c (a ++ b)%string.
Proof. reflexivity. Qed.

Lemma lower_app (a b : string) : lower (a ++ b) = (lower a ++ lower b)%string.
Proof.
  induction a as [|c a IH].
  - reflexivity.
  - rewrite append_cons. cbn [lower]. rewrite append_cons, IH. reflexivity.
Qed.

Lemma prefix_of_app (t rest : string) : String.prefix t (t ++ rest) = true.
Proof.
  induction t as [|c t IH].
  - destruct rest; reflexivity.
  - rewrite append_cons. cbn [String.prefix].
    destruct (ascii_dec c c) as [_|Hne]; [exact IH | contradiction].
Qed.

Lemma contains_prefix (t message : string) :
  String.prefix t message = true -> contains t message = true.
Proof. intros H. destruct message; cbn [contains]; rewrite H; reflexivity. Qed.

Lemma contains_inside (t before after : string) :
  contains t (before ++ t ++ after) = true.
Proof.
  induction before as [|c before IH].
  - rewrite append_nil. apply contains_prefix, prefix_of_app.
  - rewrite append_cons. cbn [contains]. rewrite IH. apply orb_true_r.
Qed.

(** X6. Each of three signs makes an error retryable, whatever else the
    exception carries: (a) the class TimeoutError; (b) one of the codes
    429, 500, 502, 503, 504, read from the attribute code, or from
    status_code when code is missing or 0; (c) one of the retry tokens
    anywhere in str(exc), in any mix of ASCII upper and lower case. *)
Theorem retryable_by_class_code_or_message (exc : exception) :
  (exc_class_of exc = TimeoutError -> _is_retryable_error exc = true) /\
  (forall code : Z,
     In code retry_codes ->
     exc_code exc = Some code \/
     ((exc_code exc = None \/ exc_code exc = Some 0%Z) /\
      exc_status_code exc = Some code) ->
     _is_retryable_error exc = true) /\
  (forall token before matched after : string,
     In token retry_tokens ->
     lower matched = token ->
     exc_message exc = (before ++ matched ++ after)%string ->
     _is_retryable_error exc = true).
Proof.
  split; [|split].
  - intros Hclass. unfold _is_retryable_error, is_TimeoutError.
    now rewrite Hclass.
  - intros code Hin Hcode. unfold _is_retryable_error.
    destruct (is_TimeoutError exc); [reflexivity|].
    assert (Hfound : existsb (Z.eqb code) retry_codes = true).
    { apply existsb_exists. exists code. split; [exact Hin | apply Z.eqb_refl]. }
    assert (Hnonzero : (code =? 0)%Z = false).
    { apply Z.eqb_neq. intros ->. cbn in Hin. intuition discriminate. }
    destruct Hcode as [E|[[E|E] Es]]; rewrite E.
    + rewrite Hnonzero, Hfound. reflexivity.
    + rewrite Es, Hfound. reflexivity.
    + cbn [Z.eqb]. rewrite Es, Hfound. reflexivity.
  - intros token before matched after Hin Hlower Hmessage.
    unfold _is_retryable_error.
    destruct (is_TimeoutError exc); [reflexivity|].
    match goal with
    | |- (if ?c then true else _) = true => destruct c; [reflexivity|]
    end.
    apply existsb_exists. exists token. split; [exact Hin|].
    rewrite Hmessage, !lower_app, Hlower. apply contains_inside.
Qed.

Lemma retryable_by_class_code_or_message_witness :
  _is_retryable_error (raise_ OtherException "Quota EXCEEDED for project") = true.
Proof.
  destruct (retryable_by_class_code_or_message
              (raise_ OtherException "Quota EXCEEDED for project"))
    as (_ & _ & Hmessage).
  apply (Hmessage "quota" "" "Quota" " EXCEEDED for project")%string.
  - cbn. tauto.
  - reflexivity.
  - reflexivity.
Defined.

(** X7. The time-out wrapper is transparent for a call that ends in time:
    when no time-out is set (timeout_seconds <= 0), or when the call
    returns or raises within timeout_seconds (and what it raises is not
    itself concurrent.futures.TimeoutError), _call_with_timeout takes the
    time the call takes and returns or raises what the call returns or
    raises. *)
Theorem call_in_time_passes_through
    (call_fn : behaviour) (timeout_seconds : Q) :
  ends_in_time call_fn timeout_seconds ->
  _call_with_timeout call_fn timeout_seconds = direct_call call_fn.
Proof.
  unfold ends_in_time, _call_with_timeout. intros Hends.
  destruct (Qle_bool timeout_seconds 0) eqn:Eoff; [reflexivity|].
  apply Qle_bool_false in Eoff.
  assert (Hsame : forall x : Q, Qmax x x = x).
  { intros x. unfold Qmax, GenericMinMax.gmax.
    assert (E : Qcompare x x = Eq) by (apply Qeq_alt; reflexivity).
    now rewrite E. }
  destruct call_fn as [seconds r|seconds exc|]; cbn [future_result executor_exit direct_call].
  - destruct Hends as [Hoff|Hends]; [lra|].
    apply Qle_bool_iff in Hends. rewrite Hends, Hsame. reflexivity.
  - destruct Hends as [Hoff|[Hends Hclass]]; [lra|].
    apply Qle_bool_iff in Hends. rewrite Hends, Hsame.
    destruct (exc_class_of exc); try reflexivity. contradiction.
  - lra.
Qed.

Lemma call_in_time_passes_through_witness :
  _call_with_timeout (Raises 5 Examples.bad_request_400) 60
    = Some (5%Q, Err Examples.bad_request_400).
Proof.
  apply (call_in_time_passes_through (Raises 5 Examples.bad_request_400) 60).
  right. split; [cbn; discriminate | discriminate].
Defined.

(* ===================================================================== *)
(* edit_image and ImagePipeline.process                                  *)
(* ===================================================================== *)

Lemma first_image_nonempty (r : response) (image_bytes : string) :
  first_image r = Some image_bytes -> nonempty image_bytes = true.
Proof.
  induction r as [|[part|] r IH]; cbn [first_image]; [discriminate| |exact IH].
  destruct (nonempty part) eqn:E; [|exact IH].
  intros [= <-]. exact E.
Qed.

Lemma generate_outcome (self : NanoBananaEditor) (env : provider)
    (w w' : world) (a : outcome response) :
  _generate_with_retries self env w = Finished a w' ->
  match a with
  | Ok _ => (attempts w < attempts w')%nat
  | Err exc => is_NanoBananaError exc = true
  end.
Proof.
  intros Hrun.
  destruct (generate_rejected_or_looped self env w w' a Hrun) as [[-> _]|Hloop].
  - reflexivity.
  - apply retry_loop_accounting in Hloop as (k & new & B1 & _ & _ & _ & _ & _ & B7).
    cbn [set_breaker attempts] in B1.
    destruct a as [r|exc]; [lia|].
    destruct B7 as [[-> | ->] _]; reflexivity.
Qed.


(** X8. Whatever the provider and the local image code do, a finished
    edit_image either returns image bytes that are not empty, after at
    least one provider invocation, or raises a NanoBananaError (the class
    or its subclass NanoBananaRetryableError): no other exception leaves
    it.  When the editor is not ready (not available, or its client or
    model is missing) or the preparation before the provider call fails,
    it raises without touching the provider, the clock or the breaker. *)
Theorem edit_image_returns_image_or_own_error
    (self : NanoBananaEditor) (env : provider) (prepare : option exception)
    (w w' : world) (a : outcome string) :
  edit_image self env prepare w = Finished a w' ->
  match a with
  | Ok image_bytes =>
      nonempty image_bytes = true /\ (attempts w < attempts w')%nat
  | Err exc => is_NanoBananaError exc = true
  end /\
  (editor_ready self = false \/ prepare <> None ->
   w' = w /\ exists exc, a = Err exc).
Proof.
  unfold edit_image, editor_ready. intros Hrun.
  destruct (available self); cbn [negb andb] in *.
  2: { injection Hrun as <- <-. split; [reflexivity|]. intros _. eauto. }
  destruct (genai self); cbn [negb andb] in *.
  - destruct (_client self); cbn [negb] in *.
    2: { injection Hrun as <- <-. split; [reflexivity|]. intros _. eauto. }
    destruct prepare as [exc|].
    + injection Hrun as <- <-. split.
      * destruct (is_NanoBananaError exc) eqn:E; [exact E | reflexivity].
      * intros _. eauto.
    + destruct (_generate_with_retries self env w) as [[r|exc] w1| |] eqn:Hgen;
        try discriminate Hrun.
      * pose proof (generate_outcome _ _ _ _ _ Hgen) as Hmore.
        destruct (first_image r) as [image_bytes|] eqn:Eimage;
          injection Hrun as <- <-.
        -- split; [|intros [H|H]; [discriminate H | contradiction]].
           split; [exact (first_image_nonempty _ _ Eimage) | exact Hmore].
        -- split; [reflexivity|].
           intros [H|H]; [discriminate H | contradiction].
      * pose proof (generate_outcome _ _ _ _ _ Hgen) as Hclass.
        cbn in Hclass. rewrite Hclass in Hrun. injection Hrun as <- <-.
        split; [exact Hclass|].
        intros [H|H]; [discriminate H | contradiction].
  - destruct (_model self); cbn [negb] in *.
    2: { injection Hrun as <- <-. split; [reflexivity|]. intros _. eauto. }
    destruct prepare as [exc|].
    + injection Hrun as <- <-. split.
      * destruct (is_NanoBananaError exc) eqn:E; [exact E | reflexivity].
      * intros _. eauto.
    + destruct (_generate_with_retries self env w) as [[r|exc] w1| |] eqn:Hgen;
        try discriminate Hrun.
      * pose proof (generate_outcome _ _ _ _ _ Hgen) as Hmore.
        destruct (first_image r) as [image_bytes|] eqn:Eimage;
          injection Hrun as <- <-.
        -- split; [|intros [H|H]; [discriminate H | contradiction]].
           split; [exact (first_image_nonempty _ _ Eimage) | exact Hmore].
        -- split; [reflexivity|].
           intros [H|H]; [discriminate H | contradiction].
      * pose proof (generate_outcome _ _ _ _ _ Hgen) as Hclass.
        cbn in Hclass. rewrite Hclass in Hrun. injection Hrun as <- <-.
        split; [exact Hclass|].
        intros [H|H]; [discriminate H | contradiction].
Qed.

Lemma edit_image_returns_image_or_own_error_witness :
  exists w',
    edit_image Examples.editor Examples.flaky None Examples.fresh_world
      = Finished (Ok "PNG"%string) w' /\
    nonempty "PNG" = true /\
    (attempts Examples.fresh_world < attempts w')%nat.
Proof.
  eexists.
  match goal with
  | |- _ = Finished ?a ?w1 /\ _ =>
      assert (Hrun : edit_image Examples.editor Examples.flaky None
                       Examples.fresh_world = Finished a w1)
        by (vm_compute; reflexivity);
      destruct (edit_image_returns_image_or_own_error
                  Examples.editor Examples.flaky None Examples.fresh_world w1 a Hrun)
        as (Hgood & _)
  end.
  split; [exact Hrun | exact Hgood].
Defined.



(* ===================================================================== *)
(* Tasks and the payload of their result                                 *)
(* ===================================================================== *)

Section TaskPayload.

Variable py_str : json -> string.
Variable url_for_image : json -> string.
Variable urljoin_base : string -> string.

(* A task that returned a dict with a truthy "error" string reads as
   failed, with that error and without result. *)
Lemma error_dict_payload (d : gmap string json) (message job_id : string) :
  d !! "error" = Some (JStr message) ->
  nonempty message = true ->
  job_payload url_for_image urljoin_base (store_result py_str (Ok (JDict d))) job_id
    = Ok (<["error" := JStr message]>
         (<["status" := JStr "failed"]>
         (<["status" := JStr "complete"]> (<["job_id" := JStr job_id]> ∅)))).
Proof.
  intros Herror Hmessage. unfold job_payload.
  cbn [store_result state Celery.result info].
  change (_map_task_status "SUCCESS") with "complete"%string.
  cbn [String.eqb Ascii.eqb Bool.eqb negb].
  assert (Hfull : truthy (JDict d) = true).
  { cbn [truthy]. apply negb_true_iff, bool_decide_eq_false.
    intros ->. rewrite lookup_empty in Herror. discriminate Herror. }
  rewrite Hfull. unfold get. rewrite Herror.
  cbn [default from_option id truthy].
  rewrite Hmessage. reflexivity.
Qed.

Lemma early_error_message (services : AppServices) (session_id style_id : string)
    (use_previous : bool) (previous_result : string)
    (upload_asset_id : option string) (message : string) :
  resolve_source services session_id
    (if nonempty style_id then get_style services style_id else None)
    use_previous previous_result upload_asset_id = inl message ->
  nonempty message = true.
Proof.
  unfold resolve_source.
  repeat match goal with
         | |- context [match ?c with _ => _ end] => destruct c
         end; intros [= <-]; reflexivity.
Qed.

(** X10. Every job that generate_variation_task turns away before the
    pipeline (no session id, unknown style, source image not found, no
    source at all) ends without touching the provider, the clock or the
    breaker: the task returns {"job_type": "variation", "error":
    message} with a message that is not empty, and the status payload of
    that job has the status "failed", that message as error and no
    result. *)
Theorem early_task_failure_reads_as_failed
    (services : AppServices) (pipeline : ImagePipeline) (env : provider)
    (session_id prompt style_id : string) (use_previous : bool)
    (previous_result : string) (upload_asset_id : option string)
    (job_id : string) (w : world) :
  reaches_pipeline services session_id style_id use_previous previous_result
    upload_asset_id = false ->
  exists (message : string) (payload : gmap string json),
    nonempty message = true /\
    generate_variation_task services pipeline env session_id prompt style_id
      use_previous previous_result upload_asset_id w
      = Finished (Ok (variation_error message)) w /\
    variation_job_payload py_str url_for_image urljoin_base services pipeline env
      session_id prompt style_id use_previous previous_result upload_asset_id
      job_id w = Finished (Ok payload) w /\
    payload !! "status" = Some (JStr "failed") /\
    payload !! "error" = Some (JStr message) /\
    payload !! "result" = None.
Proof.
  intros Hturned.
  assert (Htask : exists message,
             nonempty message = true /\
             generate_variation_task services pipeline env session_id prompt
               style_id use_previous previous_result upload_asset_id w
             = Finished (Ok (variation_error message)) w).
  { revert Hturned. unfold reaches_pipeline, generate_variation_task.
    destruct (nonempty session_id); cbn [negb andb];
      [|intros _; eexists; split; [|reflexivity]; reflexivity].
    destruct (nonempty style_id && negb (bool_decide (is_Some _)));
      cbn [negb andb];
      [intros _; eexists; split; [|reflexivity]; reflexivity|].
    destruct (resolve_source _ _ _ _ _ _) as [message|original_url] eqn:Esource;
      [|discriminate].
    intros _. exists message. split; [|reflexivity].
    exact (early_error_message services session_id style_id use_previous
             previous_result upload_asset_id message Esource). }
  destruct Htask as (message & Hmessage & Htask).
  exists message. eexists. split; [exact Hmessage|]. split; [exact Htask|].
  unfold variation_job_payload. rewrite Htask.
  unfold variation_error.
  rewrite (error_dict_payload _ message job_id) by (simplify_map_eq; auto).
  split; [reflexivity|]. simplify_map_eq. auto.
Qed.

End TaskPayload.

Lemma early_task_failure_reads_as_failed_witness :
  exists (message : string) (payload : gmap string json),
    nonempty message = true /\
    generate_variation_task Examples.services Examples.pipeline Examples.flaky
      "session-1" "make it blue" "" false "" (Some "no-such-upload"%string)
      Examples.fresh_world
      = Finished (Ok (variation_error message)) Examples.fresh_world /\
    variation_job_payload Examples.py_str Examples.url_for_image
      Examples.urljoin_base Examples.services Examples.pipeline Examples.flaky
      "session-1" "make it blue" "" false "" (Some "no-such-upload"%string)
      "job-1" Examples.fresh_world = Finished (Ok payload) Examples.fresh_world /\
    payload !! "status" = Some (JStr "failed") /\
    payload !! "error" = Some (JStr message) /\
    payload !! "result" = None.
Proof.
  apply (early_task_failure_reads_as_failed
           Examples.py_str Examples.url_for_image Examples.urljoin_base
           Examples.services Examples.pipeline Examples.flaky
           "session-1" "make it blue" "" false "" (Some "no-such-upload"%string)
           "job-1" Examples.fresh_world).
  reflexivity.
Defined.

Lemma variation_error_inj (m m' : string) :
  variation_error m = variation_error m' -> m = m'.
Proof.
  unfold variation_error. intros Hsame.
  apply (f_equal (fun v : json => match v with
                                  | JDict d => d !! "error"
                                  | _ => None
                                  end)) in Hsame.
  rewrite !lookup_insert_eq in Hsame. congruence.
Qed.

Lemma resolved_source_nonempty (services : AppServices) (session_id : string)
    (style : option Style) (use_previous : bool) (previous_result : string)
    (upload_asset_id : option string) (original_url : string) :
  resolve_source services session_id style use_previous previous_result
    upload_asset_id = inr original_url ->
  nonempty original_url = true.
Proof.
  unfold resolve_source.
  repeat match goal with
         | |- context [match ?c with _ => _ end] => destruct c
         end; intros [= <-]; reflexivity.
Qed.

(* Lookups in a map built by inserts under literal keys. *)
Ltac map_lookup :=
  repeat (rewrite lookup_insert_eq
          || rewrite lookup_insert_ne by discriminate
          || rewrite lookup_empty).

Section FinishedTask.

Variable py_str : json -> string.
Variable url_for_image : json -> string.
Variable urljoin_base : string -> string.

(* The payload of a task that returned the dict of a finished
   variation. *)
Lemma variation_dict_payload (result : ProcessingResult)
    (result_id original_url job_id : string) :
  nonempty result_id = true -> nonempty original_url = true ->
  exists formatted : gmap string json,
    job_payload url_for_image urljoin_base
      (store_result py_str
         (Ok (JDict
                (<["warning_message" := opt_str (warning_message result)]>
                (<["status_message" := JStr (status_message result)]>
                (<["prompt_used" := opt_str (prompt_used result)]>
                (<["original_url" := JStr original_url]>
                (<["result_id" := JStr result_id]>
                (<["job_type" := JStr "variation"]> ∅)))))))))
      job_id
    = Ok (<["result" := JDict formatted]>
         (<["job_type" := JStr "variation"]>
         (<["status" := JStr "complete"]> (<["job_id" := JStr job_id]> ∅)))) /\
    formatted !! "result_id" = Some (JStr result_id) /\
    formatted !! "result_url" = Some (JStr (url_for_image (JStr result_id))) /\
    formatted !! "original_url"
      = Some (JStr (_absolute_url urljoin_base original_url)) /\
    formatted !! "prompt_used" = Some (opt_str (prompt_used result)) /\
    formatted !! "status_message" = Some (JStr (status_message result)).
Proof.
  intros Hid Hurl. unfold job_payload.
  cbn [store_result state Celery.result info].
  change (_map_task_status "SUCCESS") with "complete"%string.
  cbn [String.eqb Ascii.eqb Bool.eqb negb].
  set (d := <["warning_message" := _]> _).
  assert (Hfull : truthy (JDict d) = true).
  { cbn [truthy]. apply negb_true_iff, bool_decide_eq_false.
    intros Hempty.
    apply (f_equal (fun m : gmap string json => m !! "job_type")) in Hempty.
    subst d. revert Hempty. map_lookup. discriminate. }
  rewrite Hfull.
  assert (Herror : get d "error" = JNull)
    by (unfold get; subst d; map_lookup; reflexivity).
  assert (Htype : get d "job_type" = JStr "variation")
    by (unfold get; subst d; map_lookup; reflexivity).
  assert (Hrid : get d "result_id" = JStr result_id)
    by (unfold get; subst d; map_lookup; reflexivity).
  assert (Horig : get d "original_url" = JStr original_url)
    by (unfold get; subst d; map_lookup; reflexivity).
  assert (Hused : get d "prompt_used" = opt_str (prompt_used result))
    by (unfold get; subst d; map_lookup; reflexivity).
  assert (Hstatus : get d "status_message" = JStr (status_message result))
    by (unfold get; subst d; map_lookup; reflexivity).
  rewrite Herror, Htype. cbn [truthy eq_str String.eqb Ascii.eqb Bool.eqb].
  unfold _format_variation_result, absolute_original_url, result_url.
  rewrite Hrid, Horig, Hused, Hstatus. cbn [truthy]. rewrite Hid, Hurl.
  eexists. split; [reflexivity|].
  map_lookup. repeat split; reflexivity.
Qed.

(** X11. A variation job that reaches the pipeline, whose processing
    returns and whose result is stored under a non-empty id, reads as
    complete: the status payload has the status "complete", the job type
    "variation", no error, and a result that carries the stored id as
    result_id, the image URL of that id as result_url, the absolute form
    of the source URL as original_url, and the prompt and status line of
    the processing. *)
Theorem finished_variation_reads_as_complete
    (services : AppServices) (pipeline : ImagePipeline) (env : provider)
    (session_id prompt style_id : string) (use_previous : bool)
    (previous_result : string) (upload_asset_id : option string)
    (job_id : string) (w w' : world)
    (result : ProcessingResult) (result_id : string) :
  reaches_pipeline services session_id style_id use_previous previous_result
    upload_asset_id = true ->
  process pipeline env (io services) prompt (uid services) w
    = Finished (Ok result) w' ->
  save_bytes services = Ok result_id ->
  nonempty result_id = true ->
  exists (original_url : string) (payload formatted : gmap string json),
    resolve_source services session_id
      (if nonempty style_id then get_style services style_id else None)
      use_previous previous_result upload_asset_id = inr original_url /\
    variation_job_payload py_str url_for_image urljoin_base services pipeline env
      session_id prompt style_id use_previous previous_result upload_asset_id
      job_id w = Finished (Ok payload) w' /\
    payload !! "status" = Some (JStr "complete") /\
    payload !! "job_type" = Some (JStr "variation") /\
    payload !! "error" = None /\
    payload !! "result" = Some (JDict formatted) /\
    formatted !! "result_id" = Some (JStr result_id) /\
    formatted !! "result_url" = Some (JStr (url_for_image (JStr result_id))) /\
    formatted !! "original_url"
      = Some (JStr (_absolute_url urljoin_base original_url)) /\
    formatted !! "prompt_used" = Some (opt_str (prompt_used result)) /\
    formatted !! "status_message" = Some (JStr (status_message result)).
Proof.
  unfold reaches_pipeline. intros Hreach Hprocess Hsave Hid.
  apply andb_true_iff in Hreach as [Hreach Hsource].
  apply andb_true_iff in Hreach as [Hsession Hstyle].
  apply negb_true_iff in Hstyle.
  destruct (resolve_source services session_id _ use_previous previous_result
              upload_asset_id) as [message|original_url] eqn:Esource;
    [discriminate Hsource|].
  pose proof (resolved_source_nonempty _ _ _ _ _ _ _ Esource) as Hurl.
  destruct (variation_dict_payload result result_id original_url job_id Hid Hurl)
    as (formatted & Hpayload & F1 & F2 & F3 & F4 & F5).
  exists original_url. eexists. exists formatted.
  split; [reflexivity|]. split.
  - unfold variation_job_payload, generate_variation_task.
    rewrite Hsession, Hstyle. cbn [negb]. rewrite Esource, Hprocess, Hsave, Hpayload.
    reflexivity.
  - map_lookup. repeat split; assumption.
Qed.

End FinishedTask.

Lemma finished_variation_reads_as_complete_witness :
  exists (payload formatted : gmap string json),
    variation_job_payload Examples.py_str Examples.url_for_image
      Examples.urljoin_base Examples.services Examples.pipeline Examples.flaky
      "session-1" "make it blue" "" false "" (Some "upload-1"%string)
      "job-1" Examples.fresh_world
      = Finished (Ok payload)
          {| breaker := CircuitBreaker.__init__ 5 60; clock := 106;
             attempts := 3; slept := [1%Q; 2%Q] |} /\
    payload !! "result" = Some (JDict formatted) /\
    formatted !! "result_url"
      = Some (JStr "http://ivg.test/api/images/result-1") /\
    formatted !! "prompt_used" = Some (JStr "make it blue").
Proof.
  destruct (finished_variation_reads_as_complete
              Examples.py_str Examples.url_for_image Examples.urljoin_base
              Examples.services Examples.pipeline Examples.flaky
              "session-1" "make it blue" "" false "" (Some "upload-1"%string)
              "job-1" Examples.fresh_world
              {| breaker := CircuitBreaker.__init__ 5 60; clock := 106;
                 attempts := 3; slept := [1%Q; 2%Q] |}
              {| result_path := "0123abcd_nano.png";
                 prompt_used := Some "make it blue"%string;
                 status_message := "AI variation applied using Nano Banana";
                 warning_message := None |}
              "result-1")
    as (original_url & payload & formatted & _ & Hrun & _ & _ & _ & Hresult
        & _ & Hurl & _ & Hused & _).
  - reflexivity.
  - vm_compute. reflexivity.
  - reflexivity.
  - reflexivity.
  - exists payload, formatted.
    split; [exact Hrun|]. split; [exact Hresult|]. split; [exact Hurl | exact Hused].
Defined.

(* ===================================================================== *)
(* What create_variation checks before it queues a job                   *)
(* ===================================================================== *)

(* From an equation between two finished tasks, the equation between
   the "error" entries of the dicts they returned; closes the goal when
   the entries differ. *)
Ltac error_of H :=
  apply (f_equal (fun r : run (outcome json) =>
                    match r with
                    | Finished (Ok (JDict d)) _ => d !! "error"
                    | _ => None
                    end)) in H;
  revert H; unfold variation_error; map_lookup; discriminate.

(** X12. The test create_variation makes before it queues a job (an
    uploaded image, or forward generation with a previous result, or a
    style id) is the test the worker repeats last: for a submission that
    create_variation lets through, generate_variation_task never ends
    with the error "Upload an image, enable forward generation, or
    select a style.". *)
Theorem accepted_submission_never_lacks_a_source
    (services : AppServices) (pipeline : ImagePipeline) (env : provider)
    (session_id prompt style_id : string) (use_previous : bool)
    (previous_result : string) (upload_asset_id : option string)
    (w w' : world) :
  create_variation_rejects upload_asset_id use_previous previous_result style_id
    = false ->
  generate_variation_task services pipeline env session_id prompt style_id
    use_previous previous_result upload_asset_id w
  <> Finished
       (Ok (variation_error
              "Upload an image, enable forward generation, or select a style."))
       w'.
Proof.
  unfold create_variation_rejects, generate_variation_task. intros Haccepted.
  destruct (nonempty session_id); cbn [negb]; [|intros H; error_of H].
  destruct (nonempty style_id && negb (bool_decide (is_Some _))) eqn:Echeck;
    [intros H; error_of H|].
  destruct (resolve_source _ _ _ _ _ _) as [message|original_url] eqn:Esource.
  - intros H.
    assert (Hmessage : message
              = "Upload an image, enable forward generation, or select a style."%string).
    { apply (f_equal (fun r : run (outcome json) =>
                        match r with
                        | Finished (Ok (JDict d)) _ => d !! "error"
                        | _ => None
                        end)) in H.
      revert H. unfold variation_error. map_lookup. congruence. }
    subst message. clear H. revert Esource. unfold resolve_source.
    destruct (match upload_asset_id with
              | Some upload => nonempty upload
              | None => false
              end) eqn:Eupload.
    { destruct (get_asset _ _ _); discriminate. }
    destruct (use_previous && nonempty previous_result) eqn:Eprevious.
    { destruct (get_asset _ _ _); discriminate. }
    cbn [negb andb] in Haccepted. apply negb_false_iff in Haccepted.
    rewrite Haccepted in *. cbn [andb] in Echeck.
    destruct (get_style services style_id) as [style|].
    + destruct (reference_is_file services style); discriminate.
    + exfalso. revert Echeck. rewrite bool_decide_eq_false_2; [discriminate|].
      intros [x Hx]. discriminate Hx.
  - destruct (process _ _ _ _ _ _) as [[result|exc] w1| |]; try discriminate.
    destruct (save_bytes services) as [result_id|exc]; [|discriminate].
    intros H. error_of H.
Qed.

Lemma accepted_submission_never_lacks_a_source_witness :
  generate_variation_task Examples.services Examples.pipeline Examples.flaky
    "session-1" "make it blue" "" true "no-such-result" None Examples.fresh_world
  <> Finished
       (Ok (variation_error
              "Upload an image, enable forward generation, or select a style."))
       Examples.fresh_world.
Proof.
  apply (accepted_submission_never_lacks_a_source
           Examples.services Examples.pipeline Examples.flaky
           "session-1" "make it blue" "" true "no-such-result" None
           Examples.fresh_world Examples.fresh_world).
  reflexivity.
Defined.

(* ===================================================================== *)
(* Background removal: the queued task and the direct route              *)
(* ===================================================================== *)

Section BackgroundRemoval.

Variable py_str : json -> string.
Variable url_for_image : json -> string.
Variable urljoin_base : string -> string.




End BackgroundRemoval.


(* ===================================================================== *)
(* The status vocabulary and the URLs of a result                        *)
(* ===================================================================== *)

Lemma upper_lower_ascii (c : ascii) : upper_ascii (lower_ascii c) = upper_ascii c.
Proof.
  destruct c as [[] [] [] [] [] [] [] []]; vm_compute; reflexivity.
Qed.

Lemma upper_lower (s : string) : upper (lower s) = upper s.
Proof.
  induction s as [|c s IH]; cbn [lower upper]; [reflexivity|].
  now rewrite upper_lower_ascii, IH.
Qed.

Lemma upper_upper_ascii (c : ascii) : upper_ascii (upper_ascii c) = upper_ascii c.
Proof.
  destruct c as [[] [] [] [] [] [] [] []]; vm_compute; reflexivity.
Qed.

Lemma upper_upper (s : string) : upper (upper s) = upper s.
Proof.
  induction s as [|c s IH]; cbn [upper]; [reflexivity|].
  now rewrite upper_upper_ascii, IH.
Qed.

(** X14. _map_task_status reads the state name without regard to ASCII
    letter case (a name and its lower-case or upper-case form map to the
    same status), answers one of pending, processing, complete and failed
    for every state, and answers pending for every state whose upper-case
    form is none of PENDING, RECEIVED, STARTED, RETRY, SUCCESS and
    FAILURE. *)
Theorem task_status_ignores_case (state : string) :
  _map_task_status (lower state) = _map_task_status state /\
  _map_task_status (upper state) = _map_task_status state /\
  In (_map_task_status state) ["pending"; "processing"; "complete"; "failed"]%string /\
  (~ In (upper state)
        ["PENDING"; "RECEIVED"; "STARTED"; "RETRY"; "SUCCESS"; "FAILURE"]%string ->
   _map_task_status state = "pending"%string).
Proof.
  split; [|split; [|split]].
  - unfold _map_task_status. now rewrite upper_lower.
  - unfold _map_task_status. now rewrite upper_upper.
  - cbn [In]. destruct (_map_task_status_cases state) as [E|[E|[E|E]]];
      rewrite E; tauto.
  - intros Hother. unfold _map_task_status.
    repeat match goal with
           | |- context [String.eqb ?a ?b] =>
               destruct (String.eqb_spec a b) as [E|_];
               [exfalso; apply Hother; rewrite E; cbn [In]; tauto|]
           end.
    reflexivity.
Qed.

Section AbsoluteUrl.

Variable urljoin_base : string -> string.

(* request.base_url is an absolute http or https URL, and so is what
   urljoin builds on it from a relative path. *)
Hypothesis base_is_absolute :
  forall path : string,
    String.prefix "http://" (urljoin_base path)
    || String.prefix "https://" (urljoin_base path) = true.


End AbsoluteUrl.

Lemma task_status_ignores_case_witness :
  _map_task_status "revoked" = "pending"%string.
Proof.
  destruct (task_status_ignores_case "revoked") as (_ & _ & _ & Hother).
  apply Hother. cbn [In upper]. vm_compute.
  intros [H|[H|[H|[H|[H|[H|H]]]]]]; try discriminate H. exact H.
Defined.


(* ===================================================================== *)
(* More on the status stream                                             *)
(* ===================================================================== *)

Section StreamRuns.

Variable url_for_image : json -> string.
Variable urljoin_base : string -> string.
Variable dumps : gmap string json -> string.
Variable job_id : string.

Lemma generator_length (polls : list (bool * gmap string AsyncResult)) :
  forall last_payload : option string,
    (length (fst (event_generator url_for_image urljoin_base dumps job_id
                    polls last_payload)) <= length polls)%nat.
Proof.
  induction polls as [|[is_disconnected backend] polls IH]; intros last_payload.
  - cbn. lia.
  - destruct is_disconnected; [cbn; lia|].
    destruct (_build_job_payload url_for_image urljoin_base backend job_id)
      as [payload|exc] eqn:Hbuild.
    2: { cbn [event_generator]. rewrite Hbuild. cbn. lia. }
    destruct (is_terminal payload) eqn:Hterminal.
    + rewrite (generator_stop _ _ _ _ _ _ _ _ Hbuild Hterminal). cbn [fst].
      case_bool_decide; cbn [length]; lia.
    + rewrite (generator_step _ _ _ _ _ _ _ _ Hbuild Hterminal).
      case_bool_decide.
      * specialize (IH last_payload). cbn [length]. lia.
      * specialize (IH (Some (dumps payload))). cbn [fst length]. lia.
Qed.

(** X16. A stream yields its first event at once and never more than one
    event per turn: when the client is connected at the first turn and
    the payload can be built, that payload is the first event, whatever
    the status; and the number of events is at most the number of
    turns. *)
Theorem stream_starts_with_a_snapshot
    (backend : gmap string AsyncResult)
    (polls : list (bool * gmap string AsyncResult))
    (payload : gmap string json) :
  _build_job_payload url_for_image urljoin_base backend job_id = Ok payload ->
  (exists later : list (gmap string json),
     fst (job_stream url_for_image urljoin_base dumps job_id
            ((false, backend) :: polls)) = payload :: later) /\
  (length (fst (job_stream url_for_image urljoin_base dumps job_id
                  ((false, backend) :: polls)))
     <= S (length polls))%nat.
Proof.
  intros Hbuild. split.
  - unfold job_stream. destruct (is_terminal payload) eqn:Hterminal.
    + rewrite (generator_stop _ _ _ _ _ _ _ _ Hbuild Hterminal).
      rewrite bool_decide_eq_false_2 by discriminate. cbn [fst]. eauto.
    + rewrite (generator_step _ _ _ _ _ _ _ _ Hbuild Hterminal).
      rewrite bool_decide_eq_false_2 by discriminate. cbn [fst]. eauto.
  - apply (generator_length ((false, backend) :: polls) None).
Qed.

End StreamRuns.

Section StreamEnds.

Variable url_for_image : json -> string.
Variable urljoin_base : string -> string.
Variable dumps : gmap string json -> string.
Variable job_id : string.



Lemma generator_stops_at_disconnect
    (before : list (bool * gmap string AsyncResult)) :
  forall (backend : gmap string AsyncResult)
         (after after' : list (bool * gmap string AsyncResult))
         (last_payload : option string),
    event_generator url_for_image urljoin_base dumps job_id
      (before ++ (true, backend) :: after) last_payload
    = event_generator url_for_image urljoin_base dumps job_id
        (before ++ (true, backend) :: after') last_payload /\
    snd (event_generator url_for_image urljoin_base dumps job_id
           (before ++ (true, backend) :: after) last_payload) <> Polling.
Proof.
  induction before as [|[is_disconnected b] before IH];
    intros backend after after' last_payload.
  - cbn. split; [reflexivity | discriminate].
  - cbn [app event_generator].
    destruct is_disconnected; [split; [reflexivity | discriminate]|].
    destruct (_build_job_payload url_for_image urljoin_base b job_id)
      as [payload|exc]; [|split; [reflexivity | discriminate]].
    destruct (is_terminal payload); [split; [reflexivity | discriminate]|].
    match goal with
    | |- context [event_generator _ _ _ _ (before ++ _ :: after) ?l] =>
        destruct (IH backend after after' l) as [Esame Hend]
    end.
    rewrite <- Esame.
    destruct (event_generator _ _ _ _ (before ++ (true, backend) :: after) _)
      as [later ended].
    split; [reflexivity | exact Hend].
Qed.

(** X18. Once the client has disconnected the stream is over: nothing
    that could be observed after the turn that sees the disconnection
    changes the events yielded or the way the run ends, and the run is
    not left polling. *)
Theorem disconnected_stream_is_over
    (before after after' : list (bool * gmap string AsyncResult))
    (backend : gmap string AsyncResult) :
  job_stream url_for_image urljoin_base dumps job_id
    (before ++ (true, backend) :: after)
  = job_stream url_for_image urljoin_base dumps job_id
      (before ++ (true, backend) :: after') /\
  snd (job_stream url_for_image urljoin_base dumps job_id
         (before ++ (true, backend) :: after)) <> Polling.
Proof. apply generator_stops_at_disconnect. Qed.

End StreamEnds.

Lemma stream_starts_with_a_snapshot_witness :
  exists later : list (gmap string json),
    fst (job_stream Examples.url_for_image Examples.urljoin_base
           Examples.dumps_status "job-1"
           ((false, Examples.job_1 "PENDING" JNull) :: Examples.polls_until_success))
    = (<["status" := JStr "pending"]> (<["job_id" := JStr "job-1"]> ∅)) :: later.
Proof.
  destruct (stream_starts_with_a_snapshot
              Examples.url_for_image Examples.urljoin_base Examples.dumps_status
              "job-1" (Examples.job_1 "PENDING" JNull) Examples.polls_until_success
              (<["status" := JStr "pending"]> (<["job_id" := JStr "job-1"]> ∅)))
    as (Hfirst & _).
  - vm_compute. reflexivity.
  - exact Hfirst.
Defined.


(* ===================================================================== *)
(* Building the editor                                                   *)
(* ===================================================================== *)

Lemma Qmax_0_nonneg (x : Q) : (0 <= Qmax 0 x)%Q.
Proof. apply Q.le_max_l. Qed.

Lemma fresh_breaker_closed (threshold : Z) (cooldown_seconds : Q) :
  is_closed (CircuitBreaker.__init__ threshold cooldown_seconds).
Proof.
  intros t. unfold allow. cbn [CircuitBreaker.__init__ _threshold _cooldown _opened_at].
  destruct (_ || _); reflexivity.
Qed.

(* What the retry loop and edit_image can rely on in a constructed
   editor. *)
Lemma constructed_editor_facts (built : NanoBananaEditor * _CircuitBreaker)
    (modules : sdk) (client_built : bool) (api_key : string) (enabled : bool)
    (timeout_seconds : Q) (max_retries : Z)
    (backoff_base_seconds backoff_max_seconds : Q)
    (circuit_breaker_threshold : Z) (circuit_breaker_cooldown_seconds : Q) :
  NanoBananaEditor__init__ modules client_built api_key enabled
    timeout_seconds max_retries backoff_base_seconds backoff_max_seconds
    circuit_breaker_threshold circuit_breaker_cooldown_seconds = built ->
  (0 <= _max_retries (fst built))%Z /\
  is_closed (snd built) /\
  available (fst built) = editor_ready (fst built).
Proof.
  intros <-. unfold NanoBananaEditor__init__, editor_ready.
  destruct (enabled && nonempty api_key && genai_client modules);
    destruct (GENAI_BACKEND modules) as [[|]|];
    destruct (genai_types modules); destruct client_built;
    cbn [negb andb fst snd available genai _client _model _max_retries];
    repeat split; try lia; apply fresh_breaker_closed.
Qed.

(** X19. Whatever it is given, NanoBananaEditor.__init__ leaves an editor
    whose time-out, retry budget, backoff base and backoff cap are not
    negative, and a closed breaker with counter 0 whose threshold and
    cooldown are not negative.  The editor is available exactly when it
    is enabled, has an API key, the SDK was imported with what its
    backend needs, and the client was built; and an available editor has
    the client (or model) its backend needs, so that edit_image never
    finds it "not ready". *)
Theorem constructed_editor_is_clamped_and_ready
    (modules : sdk) (client_built : bool) (api_key : string) (enabled : bool)
    (timeout_seconds : Q) (max_retries : Z)
    (backoff_base_seconds backoff_max_seconds : Q)
    (circuit_breaker_threshold : Z) (circuit_breaker_cooldown_seconds : Q) :
  let built :=
    NanoBananaEditor__init__ modules client_built api_key enabled
      timeout_seconds max_retries backoff_base_seconds backoff_max_seconds
      circuit_breaker_threshold circuit_breaker_cooldown_seconds in
  (0 <= _timeout_seconds (fst built))%Q /\
  (0 <= _max_retries (fst built))%Z /\
  (0 <= _backoff_base (fst built))%Q /\
  (0 <= _backoff_max (fst built))%Q /\
  (0 <= _threshold (snd built))%Z /\
  (0 <= _cooldown (snd built))%Q /\
  _failures (snd built) = 0%Z /\
  is_closed (snd built) /\
  available (fst built)
    = enabled && nonempty api_key && genai_client modules
      && negb (match GENAI_BACKEND modules with
               | Some genai_backend => negb (genai_types modules)
               | _ => false
               end)
      && client_built /\
  available (fst built) = editor_ready (fst built).
Proof.
  cbn zeta. unfold NanoBananaEditor__init__, editor_ready.
  destruct (enabled && nonempty api_key && genai_client modules);
    cbn [negb andb];
    [|repeat split; cbn; try lia; try apply Qmax_0_nonneg;
      apply fresh_breaker_closed].
  destruct (GENAI_BACKEND modules) as [[|]|]; cbn [negb andb];
    destruct (genai_types modules); cbn [negb andb];
    destruct client_built; cbn [negb andb];
    repeat split; cbn; try lia; try apply Qmax_0_nonneg;
      apply fresh_breaker_closed.
Qed.

(** X20. With the module globals as the import block leaves them, the
    check "genai types unavailable" of NanoBananaEditor.__init__ never
    fires: the backend is "genai" only when genai_types was imported.  So
    the editor is available exactly when it is enabled, has an API key,
    one of the two SDKs was imported and the client was built; an
    available editor holds a client and no model on the genai backend,
    and a model and no client on the generativeai backend; and an editor
    that is not available holds neither. *)
Theorem imported_sdk_passes_the_types_check
    (genai_found types_found generativeai_found client_built : bool)
    (api_key : string) (enabled : bool)
    (timeout_seconds : Q) (max_retries : Z)
    (backoff_base_seconds backoff_max_seconds : Q)
    (circuit_breaker_threshold : Z) (circuit_breaker_cooldown_seconds : Q) :
  let modules := import_sdk genai_found types_found generativeai_found in
  let editor :=
    fst (NanoBananaEditor__init__ modules client_built api_key enabled
           timeout_seconds max_retries backoff_base_seconds backoff_max_seconds
           circuit_breaker_threshold circuit_breaker_cooldown_seconds) in
  (match GENAI_BACKEND modules with
   | Some genai_backend => negb (genai_types modules)
   | _ => false
   end) = false /\
  genai editor = genai_found && types_found /\
  available editor
    = enabled && nonempty api_key
      && (genai_found && types_found || generativeai_found) && client_built /\
  _client editor = available editor && (genai_found && types_found) /\
  _model editor = available editor && negb (genai_found && types_found).
Proof.
  cbn zeta. unfold NanoBananaEditor__init__, import_sdk.
  destruct (genai_found && types_found); cbn [GENAI_BACKEND genai_types genai_client];
    [|destruct generativeai_found; cbn [GENAI_BACKEND genai_types genai_client]];
    destruct enabled; destruct (nonempty api_key); destruct client_built;
    repeat split.
Qed.

(** X21. A pipeline built from a configuration that names another
    provider than nano_banana (in any letter case), or has no API key,
    or for which no SDK could be imported, or whose client could not be
    built, has no editor; for a prompt it raises AIProcessingError "AI
    unavailable; please retry." without touching the provider, the clock
    or the breaker.  And whenever build_image_editor does return an
    editor, that editor is available and ready, with its retry budget not
    negative. *)
Theorem unconfigured_pipeline_fails_fast
    (modules : sdk) (client_built : bool) (config : ai_config)
    (ai_label ai_suffix : string) (env : provider) (io : local_io)
    (prompt output_stem : string) (w : world) :
  (lower (default EmptyString (IMAGE_PROVIDER config)) <> "nano_banana"%string \/
   nonempty (default EmptyString (GEMINI_API_KEY config)) = false \/
   genai_client modules = false \/
   client_built = false ->
   nonempty prompt = true ->
   build_image_editor modules client_built config = None /\
   process (build_pipeline modules client_built config ai_label ai_suffix)
     env io prompt output_stem w
   = Finished (Err (raise_ AIProcessingError "AI unavailable; please retry.")) w) /\
  (forall (editor : NanoBananaEditor) (breaker : _CircuitBreaker),
     build_image_editor modules client_built config = Some (editor, breaker) ->
     available editor = true /\ editor_ready editor = true /\
     (0 <= _max_retries editor)%Z /\ is_closed breaker).
Proof.
  split.
  - intros Hwrong Hprompt.
    assert (Hnone : build_image_editor modules client_built config = None).
    { unfold build_image_editor.
      destruct (String.eqb_spec
                  (lower (default EmptyString (IMAGE_PROVIDER config)))
                  "nano_banana") as [Hname|_]; [|reflexivity].
      destruct Hwrong as [Hother|Hwrong]; [contradiction|].
      match goal with
      | |- (if available (fst ?built) then _ else _) = None =>
          replace (available (fst built)) with false; [reflexivity|]
      end.
      symmetry. unfold NanoBananaEditor__init__.
      destruct Hwrong as [Hkey|[Hclient|Hbuilt]].
      - rewrite Hkey. reflexivity.
      - rewrite Hclient, andb_false_r. reflexivity.
      - rewrite Hbuilt.
        repeat match goal with
               | |- context [if ?c then _ else _] => destruct c
               end; reflexivity. }
    split; [exact Hnone|].
    unfold process, build_pipeline, ai_available. rewrite Hprompt, Hnone.
    reflexivity.
  - intros editor breaker. unfold build_image_editor.
    destruct (String.eqb _ _); [|discriminate].
    match goal with
    | |- (if available (fst ?built) then _ else _) = _ -> _ =>
        destruct (available (fst built)) eqn:Eavailable; [|discriminate];
        pose proof (constructed_editor_facts built) as Hfacts
    end.
    specialize (Hfacts _ _ _ _ _ _ _ _ _ _ eq_refl).
    intros [= Hbuilt]. rewrite Hbuilt in Eavailable, Hfacts.
    cbn [fst snd] in Eavailable, Hfacts.
    destruct Hfacts as (Hretries & Hclosed & Hready).
    rewrite Eavailable in Hready. repeat split; auto.
Qed.

Lemma unconfigured_pipeline_fails_fast_witness :
  process
    (build_pipeline (import_sdk true true false) true
       {| IMAGE_PROVIDER := Some "Nano_Banana"%string; FAST_MODE := false;
          GEMINI_API_KEY := None; GEMINI_TIMEOUT_SECONDS := None;
          GEMINI_MAX_RETRIES := None; GEMINI_BACKOFF_BASE_SECONDS := None;
          GEMINI_BACKOFF_MAX_SECONDS := None; GEMINI_CB_THRESHOLD := None;
          GEMINI_CB_COOLDOWN_SECONDS := None |}
       "Nano Banana" "nano")
    Examples.flaky (io Examples.services) "make it blue" "0123abcd"
    Examples.fresh_world
  = Finished (Err (raise_ AIProcessingError "AI unavailable; please retry."))
      Examples.fresh_world.
Proof.
  destruct (unconfigured_pipeline_fails_fast
              (import_sdk true true false) true
              {| IMAGE_PROVIDER := Some "Nano_Banana"%string; FAST_MODE := false;
                 GEMINI_API_KEY := None; GEMINI_TIMEOUT_SECONDS := None;
                 GEMINI_MAX_RETRIES := None; GEMINI_BACKOFF_BASE_SECONDS := None;
                 GEMINI_BACKOFF_MAX_SECONDS := None; GEMINI_CB_THRESHOLD := None;
                 GEMINI_CB_COOLDOWN_SECONDS := None |}
              "Nano Banana" "nano" Examples.flaky (io Examples.services)
              "make it blue" "0123abcd" Examples.fresh_world)
    as (Hfast & _).
  destruct Hfast as [_ Hprocess].
  - right. left. reflexivity.
  - reflexivity.
  - exact Hprocess.
Defined.

(* ===================================================================== *)
(* Content types and suffixes                                            *)
(* ===================================================================== *)

Lemma known_suffix (suffix mime : string) :
  IMAGE_MIME_TYPES !! suffix = Some mime ->
  (suffix = ".gif" /\ mime = "image/gif")%string \/
  (suffix = ".webp" /\ mime = "image/webp")%string \/
  (suffix = ".jpeg" /\ mime = "image/jpeg")%string \/
  (suffix = ".jpg" /\ mime = "image/jpeg")%string \/
  (suffix = ".png" /\ mime = "image/png")%string.
Proof.
  unfold IMAGE_MIME_TYPES. intros H.
  repeat (apply lookup_insert_Some in H as [[<- <-]|[_ H]]; [tauto|]).
  rewrite lookup_empty in H. discriminate H.
Qed.

Lemma known_extension (content_type : string) :
  In (extension_for_mime content_type) [".gif"; ".webp"; ".jpg"; ".png"]%string.
Proof.
  unfold extension_for_mime.
  destruct (MIME_EXTENSIONS !! content_type) as [ext|] eqn:H;
    cbn [default from_option id In]; [|tauto].
  unfold MIME_EXTENSIONS in H.
  repeat (apply lookup_insert_Some in H as [[_ <-]|[_ H]]; [tauto|]).
  rewrite lookup_empty in H. discriminate H.
Qed.

(** X22. Content types and suffixes round-trip.  For every suffix the
    asset store knows, with content type m, extension_for_mime(m) is a
    suffix the store knows with the same content type m.  For every
    content type at all, known or not, extension_for_mime answers one of
    .gif, .webp, .jpg and .png, so the file name _write_temp_image builds
    from it is the stem followed by that suffix, and _suffix_from_name
    reads the suffix back from that name. *)
Theorem suffix_and_content_type_round_trip :
  (forall suffix mime : string,
     IMAGE_MIME_TYPES !! suffix = Some mime ->
     IMAGE_MIME_TYPES !! extension_for_mime mime = Some mime) /\
  (forall content_type stem : string,
     is_Some (IMAGE_MIME_TYPES !! extension_for_mime content_type) /\
     _write_temp_image stem (extension_for_mime content_type)
       = (stem ++ extension_for_mime content_type)%string) /\
  (forall content_type stem : string,
     after_last_dot stem = None ->
     _suffix_from_name (_write_temp_image stem (extension_for_mime content_type))
       = extension_for_mime content_type).
Proof.
  split; [|split].
  - intros suffix mime H.
    destruct (known_suffix suffix mime H)
      as [[_ ->]|[[_ ->]|[[_ ->]|[[_ ->]|[_ ->]]]]]; reflexivity.
  - intros content_type stem.
    pose proof (known_extension content_type) as Hext. cbn [In] in Hext.
    destruct Hext as [<-|[<-|[<-|[<-|[]]]]]; split; try reflexivity; eexists;
      reflexivity.
  - intros content_type stem Hstem.
    assert (Hjoin : forall ext : string,
               after_last_dot ext = None ->
               after_last_dot (stem ++ String "." ext) = Some ext).
    { intros ext Hext. clear content_type.
      induction stem as [|c stem IH].
      - rewrite append_nil. cbn [after_last_dot]. rewrite Hext. reflexivity.
      - rewrite append_cons. cbn [after_last_dot].
        cbn [after_last_dot] in Hstem.
        destruct (after_last_dot stem) as [found|] eqn:Efound;
          [discriminate Hstem|].
        rewrite (IH eq_refl). reflexivity. }
    pose proof (known_extension content_type) as Hext. cbn [In] in Hext.
    unfold _suffix_from_name, _write_temp_image.
    destruct Hext as [<-|[<-|[<-|[<-|[]]]]]; cbn [String.prefix];
      (destruct (ascii_dec "." ".") as [_|Hne]; [|contradiction]);
      rewrite Hjoin by reflexivity; reflexivity.
Qed.

Lemma suffix_and_content_type_round_trip_witness :
  IMAGE_MIME_TYPES !! extension_for_mime "image/jpeg" = Some "image/jpeg"%string /\
  _suffix_from_name (_write_temp_image "0123abcd" (extension_for_mime "image/tiff"))
    = ".png"%string.
Proof.
  destruct suffix_and_content_type_round_trip as (Hmime & _ & Hname).
  split.
  - apply (Hmime ".jpeg"%string). reflexivity.
  - rewrite (Hname "image/tiff"%string "0123abcd"%string eq_refl). reflexivity.
Defined.

(* ===================================================================== *)
(* Accepted uploads                                                      *)
(* ===================================================================== *)

Lemma empty_is_prefix (s : string) : String.prefix "" s = true.
Proof. destruct s; reflexivity. Qed.

Lemma after_last_dot_has_no_dot (name ext : string) :
  after_last_dot name = Some ext -> after_last_dot ext = None.
Proof.
  revert ext. induction name as [|c name IH]; intros ext; cbn [after_last_dot].
  - discriminate.
  - destruct (after_last_dot name) as [found|] eqn:Efound.
    + intros [= <-]. apply IH. reflexivity.
    + destruct (Ascii.eqb c "."); [|discriminate].
      intros [= <-]. exact Efound.
Qed.

Lemma lower_ascii_dot (c : ascii) : lower_ascii c = "."%char -> c = "."%char.
Proof.
  destruct c as [[] [] [] [] [] [] [] []]; vm_compute; intros H;
    first [reflexivity | discriminate H].
Qed.

Lemma lstrip_dot_other (c : ascii) (rest : string) :
  c <> "."%char -> lstrip_dot (String c rest) = String c rest.
Proof.
  intros Hc. destruct c as [[] [] [] [] [] [] [] []]; cbn [lstrip_dot];
    first [reflexivity | contradiction Hc; reflexivity].
Qed.

Lemma lstrip_dot_lower (ext : string) :
  after_last_dot ext = None -> lstrip_dot (lower ext) = lower ext.
Proof.
  destruct ext as [|c rest]; [reflexivity|].
  cbn [after_last_dot lower]. intros Hdot.
  apply lstrip_dot_other. intros Hc. apply lower_ascii_dot in Hc. subst c.
  destruct (after_last_dot rest); cbn in Hdot; discriminate Hdot.
Qed.

Lemma resolve_content_type_is_image (suffix table_type : string)
    (mimetype : option string) :
  IMAGE_MIME_TYPES !! suffix = Some table_type ->
  String.prefix "image/" table_type = true ->
  String.prefix "image/" (_resolve_content_type suffix mimetype) = true /\
  (forall m : string,
     mimetype = Some m -> String.prefix "image/" m = true ->
     _resolve_content_type suffix mimetype = m) /\
  (mimetype = None \/
   (exists m : string, mimetype = Some m /\ String.prefix "image/" m = false) ->
   _resolve_content_type suffix mimetype = table_type).
Proof.
  intros Htable Himage. unfold _resolve_content_type. rewrite Htable.
  cbn [default from_option id].
  destruct mimetype as [m|].
  - destruct (String.prefix "image/" m) eqn:Eprefix.
    + assert (Hm : nonempty m = true) by (destruct m; [discriminate Eprefix|reflexivity]).
      rewrite Hm. cbn [andb]. split; [exact Eprefix|]. split.
      * intros m' [= <-] _. reflexivity.
      * intros [Hnone|(m' & [= <-] & Hno)]; [discriminate Hnone|].
        rewrite Eprefix in Hno. discriminate Hno.
    + rewrite andb_false_r. split; [exact Himage|]. split.
      * intros m' [= <-] Hyes. rewrite Eprefix in Hyes. discriminate Hyes.
      * intros _. reflexivity.
  - split; [exact Himage|]. split.
    + intros m' Hsome. discriminate Hsome.
    + intros _. reflexivity.
Qed.

(** X23. With the configured ALLOWED_EXTENSIONS, an upload that
    save_upload_bytes accepts is a known image: whatever the file name
    and the content type the client sent, the suffix it is stored with is
    one of .png, .jpg, .jpeg, .gif and .webp (lower case), the bytes are
    not empty, and the content type it is stored with starts with image/
    (so the fallback application/octet-stream is never stored): the
    client's own type when that starts with image/, and the type
    IMAGE_MIME_TYPES gives the suffix otherwise. *)
Theorem accepted_upload_is_a_known_image
    (filename safe_name : string) (content_type : option string)
    (image_bytes suffix stored_type : string) :
  save_upload_bytes ALLOWED_EXTENSIONS filename safe_name content_type image_bytes
    = inr (suffix, stored_type) ->
  In suffix [".png"; ".jpg"; ".jpeg"; ".gif"; ".webp"]%string /\
  nonempty image_bytes = true /\
  String.prefix "image/" stored_type = true /\
  stored_type <> "application/octet-stream"%string /\
  (forall m : string,
     content_type = Some m -> String.prefix "image/" m = true ->
     stored_type = m) /\
  (content_type = None \/
   (exists m : string, content_type = Some m /\ String.prefix "image/" m = false) ->
   IMAGE_MIME_TYPES !! suffix = Some stored_type).
Proof.
  unfold save_upload_bytes, _suffix_from_name.
  destruct (nonempty filename); cbn [negb]; [|discriminate].
  destruct (after_last_dot safe_name) as [ext|] eqn:Eext;
    [|cbn; discriminate].
  apply after_last_dot_has_no_dot in Eext.
  rewrite append_cons, append_nil.
  unfold _normalize_suffix.
  cbn [nonempty negb String.prefix].
  destruct (ascii_dec "." ".") as [_|Hne]; [|contradiction].
  rewrite empty_is_prefix. cbn [lower].
  change (lower_ascii ".") with "."%char.
  cbn [nonempty negb orb lstrip_dot].
  rewrite (lstrip_dot_lower ext Eext).
  destruct (existsb (String.eqb (lower ext)) ALLOWED_EXTENSIONS) eqn:Eallowed;
    cbn [negb]; [|discriminate].
  destruct (nonempty image_bytes); cbn [negb]; [|discriminate].
  intros [= <- <-].
  apply existsb_exists in Eallowed as (allowed & Hin & Heq).
  apply String.eqb_eq in Heq. rewrite Heq. clear Heq Eext ext.
  assert (Hstored : forall table_type : string,
             IMAGE_MIME_TYPES !! String "." allowed = Some table_type ->
             String.prefix "image/" table_type = true ->
             String.prefix "image/"
               (_resolve_content_type (String "." allowed) content_type) = true /\
             _resolve_content_type (String "." allowed) content_type
               <> "application/octet-stream"%string /\
             (forall m : string,
                content_type = Some m -> String.prefix "image/" m = true ->
                _resolve_content_type (String "." allowed) content_type = m) /\
             (content_type = None \/
              (exists m : string,
                  content_type = Some m /\ String.prefix "image/" m = false) ->
              IMAGE_MIME_TYPES !! String "." allowed
                = Some (_resolve_content_type (String "." allowed) content_type))).
  { intros table_type Htable Himage.
    destruct (resolve_content_type_is_image _ _ content_type Htable Himage)
      as (Hprefix & Hclient & Hfallback).
    split; [exact Hprefix|]. split; [|split; [exact Hclient|]].
    - intros Hoctet. rewrite Hoctet in Hprefix. discriminate Hprefix.
    - intros Hcase. rewrite (Hfallback Hcase). exact Htable. }
  unfold ALLOWED_EXTENSIONS in Hin. cbn [In] in Hin.
  destruct Hin as [<-|[<-|[<-|[<-|[<-|[]]]]]];
    (split; [cbn [In]; tauto|]); (split; [reflexivity|]);
    eapply Hstored; reflexivity.
Qed.

Lemma accepted_upload_is_a_known_image_witness :
  String.prefix "image/" "image/jpeg" = true /\
  IMAGE_MIME_TYPES !! ".jpg"%string = Some "image/jpeg"%string.
Proof.
  destruct (accepted_upload_is_a_known_image
              "Holiday Photo.JPG" "Holiday_Photo.JPG" (Some "application/pdf")
              "bytes" ".jpg" "image/jpeg" eq_refl)
    as (_ & _ & Hprefix & _ & _ & Htable).
  split; [exact Hprefix|].
  apply Htable. right. exists "application/pdf"%string. split; reflexivity.
Defined.

(* ===================================================================== *)
(* The session across requests                                           *)
(* ===================================================================== *)

Import Session.

Lemma get_session_id_keeps (uuid4_hex later_hex : string)
    (session : gmap string json) :
  nonempty uuid4_hex = true ->
  truthy (fst (get_session_id uuid4_hex session)) = true /\
  get_session_id later_hex (snd (get_session_id uuid4_hex session))
    = get_session_id uuid4_hex session /\
  snd (get_session_id uuid4_hex session) !! FAST_MODE_KEY
    = session !! FAST_MODE_KEY.
Proof.
  intros Hhex. unfold get_session_id.
  destruct (truthy (get session SESSION_ID_KEY)) eqn:Eid; cbn [negb fst snd].
  - rewrite Eid. cbn [negb]. repeat split.
  - split; [exact Hhex|]. split.
    + unfold get. rewrite lookup_insert_eq. cbn [default from_option id truthy].
      rewrite Hhex. reflexivity.
    + unfold FAST_MODE_KEY, SESSION_ID_KEY.
      rewrite lookup_insert_ne by discriminate. reflexivity.
Qed.

Lemma get_session_id_after_fast_mode (later_hex : string) (enabled : bool)
    (session : gmap string json) (session_id : json) :
  truthy session_id = true ->
  get_session_id later_hex session = (session_id, session) ->
  get_session_id later_hex (set_fast_mode enabled session)
    = (session_id, set_fast_mode enabled session).
Proof.
  unfold get_session_id, set_fast_mode, get. intros Hid.
  unfold FAST_MODE_KEY, SESSION_ID_KEY. rewrite lookup_insert_ne by discriminate.
  destruct (truthy (default JNull (session !! "session_id"%string))) eqn:Eid;
    cbn [negb].
  - intros [= <-]. reflexivity.
  - intros [= <- Hsame].
    apply (f_equal (fun s : gmap string json => s !! "session_id"%string)) in Hsame.
    rewrite lookup_insert_eq in Hsame. rewrite <- Hsame in Eid.
    cbn [default from_option id] in Eid. rewrite Eid in Hid. discriminate Hid.
Qed.

(** X24. The session id and the fast-mode choice persist across requests.
    With uuid4().hex not empty: the session id create_variation works
    with is truthy; whatever a later request draws, a later
    create_variation without a fast_mode field and a later
    remove_background work with the same session id and leave the
    session as the first request left it; when the first request carried
    a fast_mode field, both later requests run with the flag chosen
    there, whatever the configured default is; and a create_variation
    without the field, on a session that holds no choice, runs with the
    configured default. *)
Theorem session_keeps_id_and_fast_mode
    (uuid4_hex later_hex : string) (config_fast_mode later_config : bool)
    (fast_mode : list string) (session : gmap string json)
    (session_id : json) (fast_mode_flag : bool) (session' : gmap string json) :
  nonempty uuid4_hex = true ->
  create_variation_opens uuid4_hex config_fast_mode fast_mode session
    = (session_id, fast_mode_flag, session') ->
  truthy session_id = true /\
  create_variation_opens later_hex later_config [] session'
    = (session_id,
       match fast_mode with
       | [] => get_fast_mode session later_config
       | _ => fast_mode_flag
       end,
       session') /\
  remove_background_opens later_hex later_config session'
    = create_variation_opens later_hex later_config [] session' /\
  (fast_mode = [] -> session !! FAST_MODE_KEY = None ->
   fast_mode_flag = config_fast_mode) /\
  (fast_mode <> [] -> fast_mode_flag = existsb form_flag fast_mode).
Proof.
  intros Hhex. unfold create_variation_opens, remove_background_opens.
  destruct (get_session_id_keeps uuid4_hex later_hex session Hhex)
    as (Htruthy & Hkeeps & Hfast).
  destruct (get_session_id uuid4_hex session) as [first_id first] eqn:Efirst.
  cbn [fst snd] in Htruthy, Hkeeps, Hfast.
  destruct fast_mode as [|value fast_mode]; intros [= <- <- <-].
  - rewrite Hkeeps. unfold get_fast_mode. rewrite Hfast.
    repeat split; try assumption.
    + intros _ Hnone. rewrite Hnone. reflexivity.
    + intros Hne. contradiction Hne. reflexivity.
  - rewrite (get_session_id_after_fast_mode later_hex _ first first_id
               Htruthy Hkeeps).
    unfold get_fast_mode, set_fast_mode.
    rewrite lookup_insert_eq. cbn [default from_option id truthy].
    repeat split; try assumption.
    intros Hnil. discriminate Hnil.
Qed.

Lemma session_keeps_id_and_fast_mode_witness :
  create_variation_opens "ffff0000" false []
    (<[FAST_MODE_KEY := JBool true]> (<[SESSION_ID_KEY := JStr "0123abcd"]> ∅))
  = (JStr "0123abcd", true,
     <[FAST_MODE_KEY := JBool true]> (<[SESSION_ID_KEY := JStr "0123abcd"]> ∅)).
Proof.
  apply (session_keeps_id_and_fast_mode
           "0123abcd" "ffff0000" false false ["on"%string] ∅
           (JStr "0123abcd") true
           (<[FAST_MODE_KEY := JBool true]>
              (<[SESSION_ID_KEY := JStr "0123abcd"]> ∅))).
  - reflexivity.
  - reflexivity.
Defined.
